(** * ChuoCheck: presence checks, session clock and realtime tallies

    A shallow embedding of the session-verification slice of the ChuoCheck
    client (the student page [LiveClass], the lecturer page [ActiveSession])
    and of the presence-check tables of the Supabase migration
    [20260120130000_add_presence_checks.sql].

    Conventions.
    - A JavaScript [number] that holds a measurement (a distance, a radius,
      a coordinate) is a rational or [NaN]: every finite double is a
      rational and the comparisons of the code agree with those of [Q].
    - A point in time is the millisecond count of [Date.getTime()], in [Z].
    - A UUID is a [string].
    - React state is a record; a handler is a function from the record (and
      what the environment answers) to the next record.  An [await] on the
      store splits a handler in the part before and the part after it. *)

From Stdlib Require Import ZArith QArith Qround List String Bool Lia.
From Stdlib Require Import DecimalString DecimalZ Permutation Sorted.
Import ListNotations.

Local Open Scope string_scope.
Local Open Scope Z_scope.

(* ================================================================== *)
(** ** JavaScript values used by the pages *)

Module JS.

(** [number], restricted to what the geofence code can see. *)
Inductive number : Type :=
| Num (q : Q)
| NaN.

(** ToBoolean on a number: [0] and [NaN] are falsy. *)
Definition truthy (n : number) : bool :=
  match n with
  | Num q => negb (Qeq_bool q 0)
  | NaN => false
  end.

(** ToBoolean on [number | null]. *)
Definition truthy_opt (n : option number) : bool :=
  match n with
  | Some v => truthy v
  | None => false
  end.

(** [a || b] with [a : number | null]. *)
Definition or_default (a : option number) (b : number) : number :=
  match a with
  | Some v => if truthy v then v else b
  | None => b
  end.

(** [a > b]; any comparison with [NaN] is false. *)
Definition gt (a b : number) : bool :=
  match a, b with
  | Num x, Num y => negb (Qle_bool x y)
  | _, _ => false
  end.

(** [Math.round]: the nearest integer, ties towards +infinity. *)
Definition Math_round (n : number) : number :=
  match n with
  | Num q => Num (inject_Z (Qfloor (q + (1 # 2))))
  | NaN => NaN
  end.

Definition string_of_Z (z : Z) : string :=
  NilZero.string_of_int (Z.to_int z).

(** Template-literal printing of a number that [Math.round] produced
    (an integer below 1e21 prints as its decimal digits). *)
Definition to_string (n : number) : string :=
  match n with
  | Num q => string_of_Z (Qfloor q)
  | NaN => "NaN"
  end.

(** [Math.floor(x / 1000)] for an integral [x]. *)
Definition floor_div_1000 (x : Z) : Z :=
  Qfloor (inject_Z x / inject_Z 1000).

End JS.

(* ================================================================== *)
(** ** Wall-clock countdowns *)

(** [const remaining = Math.max(0, Math.floor((end - now) / 1000))], the
    expression shared by [handleNewCheck], the student check timer and the
    lecturer session timer. *)
Definition remaining (end_ now : Z) : Z :=
  Z.max 0 (JS.floor_div_1000 (end_ - now)).

(* ================================================================== *)
(** ** The durable store: the presence-check tables of the migration *)

Module Store.

Definition uuid : Type := string.
Definition timestamptz : Type := Z.

(** Row of [public.session_checks]. *)
Record session_check : Type := mk_check {
  sc_id : uuid;
  sc_session_id : uuid;
  sc_created_at : timestamptz;
  sc_expires_at : timestamptz;
  sc_is_active : bool;
  sc_created_by : option uuid
}.

(** Row of [public.session_check_responses]. *)
Record session_check_response : Type := mk_response {
  scr_id : uuid;
  scr_check_id : uuid;
  scr_student_id : uuid;
  scr_responded_at : timestamptz
}.

(** Row of [public.attendance_sessions], as far as the pages read it. *)
Record attendance_session : Type := mk_session_row {
  as_id : uuid;
  as_lecturer_id : uuid;
  as_end_time : timestamptz;
  as_is_active : bool
}.

Record DB : Type := mk_db {
  auth_users : list uuid;
  attendance_sessions : list attendance_session;
  session_checks : list session_check;
  session_check_responses : list session_check_response
}.

(** SQLSTATE classes the inserts can raise. *)
Inductive pg_error : Type :=
| insufficient_privilege   (* 42501: row-level security *)
| unique_violation         (* 23505 *)
| foreign_key_violation.   (* 23503 *)

Inductive result : Type :=
| Committed (db : DB)
| Rejected (e : pg_error).

Definition mem (x : uuid) (l : list uuid) : bool :=
  existsb (String.eqb x) l.

(** Policy "Students can respond to checks":
    [TO authenticated WITH CHECK (student_id = auth.uid())]. *)
Definition policy_students_can_respond (auth_uid : option uuid)
    (student_id : uuid) : bool :=
  match auth_uid with
  | Some u => String.eqb student_id u
  | None => false
  end.

(** [id UUID ... PRIMARY KEY]. *)
Definition responses_pkey_free (id : uuid) (db : DB) : bool :=
  negb (mem id (map scr_id (session_check_responses db))).

(** [UNIQUE(check_id, student_id)]. *)
Definition same_key (check_id student_id : uuid)
    (r : session_check_response) : bool :=
  String.eqb check_id (scr_check_id r) && String.eqb student_id (scr_student_id r).

Definition responses_key_free (check_id student_id : uuid) (db : DB) : bool :=
  negb (existsb (same_key check_id student_id) (session_check_responses db)).

(** [check_id ... REFERENCES public.session_checks(id)],
    [student_id ... REFERENCES auth.users(id)]. *)
Definition responses_fkeys_ok (check_id student_id : uuid) (db : DB) : bool :=
  mem check_id (map sc_id (session_checks db)) && mem student_id (auth_users db).

(** [INSERT INTO session_check_responses (check_id, student_id)] by the
    session [auth_uid]; [id] is what [gen_random_uuid()] draws and [now]
    what [now()] reads.  The policy is checked before the row is written,
    the unique indexes when it is written, the foreign keys after. *)
Definition insert_response (auth_uid : option uuid) (id : uuid)
    (now : timestamptz) (check_id student_id : uuid) (db : DB) : result :=
  if negb (policy_students_can_respond auth_uid student_id) then
    Rejected insufficient_privilege
  else if negb (responses_pkey_free id db && responses_key_free check_id student_id db) then
    Rejected unique_violation
  else if negb (responses_fkeys_ok check_id student_id db) then
    Rejected foreign_key_violation
  else
    Committed {|
      auth_users := auth_users db;
      attendance_sessions := attendance_sessions db;
      session_checks := session_checks db;
      session_check_responses :=
        (session_check_responses db ++
           [ {| scr_id := id; scr_check_id := check_id;
                scr_student_id := student_id; scr_responded_at := now |} ])%list
    |}.

(** Policy "Lecturers can create checks": the session belongs to
    [auth.uid()]. *)
Definition policy_lecturers_can_create_checks (auth_uid : option uuid)
    (session_id : uuid) (db : DB) : bool :=
  match auth_uid with
  | Some u =>
      existsb (fun s => String.eqb (as_id s) session_id
                        && String.eqb (as_lecturer_id s) u)
              (attendance_sessions db)
  | None => false
  end.

(** [INSERT INTO session_checks (session_id, created_by, expires_at,
    is_active)] by the session [auth_uid]. *)
Definition insert_check (auth_uid : option uuid) (id : uuid) (now : timestamptz)
    (session_id created_by : uuid) (expires_at : timestamptz) (is_active : bool)
    (db : DB) : result :=
  if negb (policy_lecturers_can_create_checks auth_uid session_id db) then
    Rejected insufficient_privilege
  else if mem id (map sc_id (session_checks db)) then
    Rejected unique_violation
  else if negb (mem session_id (map as_id (attendance_sessions db))
                && mem created_by (auth_users db)) then
    Rejected foreign_key_violation
  else
    Committed {|
      auth_users := auth_users db;
      attendance_sessions := attendance_sessions db;
      session_checks :=
        (session_checks db ++
           [ {| sc_id := id; sc_session_id := session_id;
                sc_created_at := now; sc_expires_at := expires_at;
                sc_is_active := is_active; sc_created_by := Some created_by |} ])%list;
      session_check_responses := session_check_responses db
    |}.

(** The tally of a check in the store: its response rows. *)
Definition responses_of (check_id : uuid) (db : DB) : list session_check_response :=
  filter (fun r => String.eqb check_id (scr_check_id r)) (session_check_responses db).

Definition tally (check_id : uuid) (db : DB) : nat :=
  List.length (responses_of check_id db).

(** Rows held for one (check, student) pair. *)
Definition rows_for (check_id student_id : uuid) (db : DB) : nat :=
  List.length (filter (same_key check_id student_id) (session_check_responses db)).

(** One submission as the store sees it. *)
Record submission : Type := mk_submission {
  sub_auth_uid : option uuid;
  sub_id : uuid;
  sub_now : timestamptz;
  sub_check_id : uuid;
  sub_student_id : uuid
}.

Definition submit (s : submission) (db : DB) : result :=
  insert_response (sub_auth_uid s) (sub_id s) (sub_now s)
                  (sub_check_id s) (sub_student_id s) db.

(** Submissions in the order in which the store serialises them; each
    one sees the rows committed before it. *)
Fixpoint submit_all (subs : list submission) (db : DB)
  : DB * list (option pg_error) :=
  match subs with
  | [] => (db, [])
  | s :: rest =>
      match submit s db with
      | Committed db' =>
          let '(db'', outs) := submit_all rest db' in (db'', None :: outs)
      | Rejected e =>
          let '(db'', outs) := submit_all rest db in (db'', Some e :: outs)
      end
  end.

(** [SET is_active = false] on a row that [WHERE id = sid] selects. *)
Definition deactivate (sid : uuid) (s : attendance_session) : attendance_session :=
  if String.eqb (as_id s) sid then
    {| as_id := as_id s; as_lecturer_id := as_lecturer_id s;
       as_end_time := as_end_time s; as_is_active := false |}
  else s.

(** [UPDATE attendance_sessions SET is_active = false WHERE id = sid].
    An update that matches no row, or rows that already hold the value,
    is not an error. *)
Definition update_session_inactive (sid : uuid) (db : DB) : DB :=
  {| auth_users := auth_users db;
     attendance_sessions := map (deactivate sid) (attendance_sessions db);
     session_checks := session_checks db;
     session_check_responses := session_check_responses db |}.

(** The session [sid] is in the Ended state. *)
Definition ended (sid : uuid) (db : DB) : Prop :=
  forall row, In row (attendance_sessions db) ->
              as_id row = sid -> as_is_active row = false.

(** The invariant of [UNIQUE(check_id, student_id)]. *)
Definition unique_responses (db : DB) : Prop :=
  forall C T, (rows_for C T db <= 1)%nat.

(** A submission by student [T], signed in as [T], for check [C]. *)
Definition targets (C T : uuid) (s : submission) : Prop :=
  sub_check_id s = C /\ sub_student_id s = T /\ sub_auth_uid s = Some T.

End Store.

(* ================================================================== *)
(** ** The student page: [LiveClass] *)

Module LiveClass.
Import JS Store.

(** Argument shape of [calculateDistance]. *)
Record Coordinates : Type := mk_coordinates {
  latitude : number;
  longitude : number
}.

(** [interface Session], with [location_required], which the page reads
    from the fetched row. *)
Record Session : Type := mk_session {
  id : uuid;
  is_active : bool;
  location_required : bool;
  classroom_latitude : option number;
  classroom_longitude : option number;
  geofence_radius_meters : option number;
  course_code : string;
  course_name : string
}.

(** [interface ActiveCheck]. *)
Record ActiveCheck : Type := mk_active_check {
  check_id : uuid;
  expires_at : Z
}.

Inductive CheckStatus : Type := idle | prompt | verifying | verified.

Record Toast : Type := mk_toast {
  title : string;
  description : string;
  destructive : bool
}.

(** The [useState] cells of the page, the signed-in user, and the toasts
    shown so far (newest first). *)
Record State : Type := mk_state {
  sessionId : option uuid;
  user : option uuid;
  session : option Session;
  activeCheck : option ActiveCheck;
  timeLeft : Z;
  checkStatus : CheckStatus;
  toasts : list Toast
}.

Definition setCheckStatus (c : CheckStatus) (st : State) : State :=
  {| sessionId := sessionId st; user := user st; session := session st;
     activeCheck := activeCheck st;
     timeLeft := timeLeft st; checkStatus := c; toasts := toasts st |}.

Definition setActiveCheck (a : option ActiveCheck) (st : State) : State :=
  {| sessionId := sessionId st; user := user st; session := session st;
     activeCheck := a;
     timeLeft := timeLeft st; checkStatus := checkStatus st; toasts := toasts st |}.

Definition setTimeLeft (t : Z) (st : State) : State :=
  {| sessionId := sessionId st; user := user st; session := session st;
     activeCheck := activeCheck st;
     timeLeft := t; checkStatus := checkStatus st; toasts := toasts st |}.

Definition toast (t : Toast) (st : State) : State :=
  {| sessionId := sessionId st; user := user st; session := session st;
     activeCheck := activeCheck st;
     timeLeft := timeLeft st; checkStatus := checkStatus st;
     toasts := t :: toasts st |}.

(** [handleNewCheck(checkData)], [now] being [new Date().getTime()]. *)
Definition handleNewCheck (checkData : session_check) (now : Z) (st : State) : State :=
  let st := setActiveCheck
              (Some {| check_id := sc_id checkData;
                       expires_at := sc_expires_at checkData |}) st in
  let st := setCheckStatus prompt st in
  setTimeLeft (remaining (sc_expires_at checkData) now) st.

(** The INSERT subscription on [session_checks], filtered by
    [session_id=eq.sessionId]. *)
Definition on_check_insert (row : session_check) (now : Z) (st : State) : State :=
  match sessionId st with
  | Some sid =>
      if String.eqb (sc_session_id row) sid then
        if sc_is_active row then handleNewCheck row now st else st
      else st
  | None => st
  end.

Definition check_missed : Toast :=
  {| title := "Check Missed";
     description := "You missed the presence check.";
     destructive := true |}.

(** One firing of the 1000 ms interval of the "Timer Countdown" effect.
    The interval exists only while [checkStatus] is [prompt] and a check
    is held. *)
Definition tick (now : Z) (st : State) : State :=
  match checkStatus st, activeCheck st with
  | prompt, Some a =>
      let r := remaining (expires_at a) now in
      let st := setTimeLeft r st in
      if r <=? 0 then
        toast check_missed (setActiveCheck None (setCheckStatus idle st))
      else st
  | _, _ => st
  end.

(** The [setTimeout(..., 3000)] armed after a verified response. *)
Definition verified_timeout (st : State) : State :=
  setActiveCheck None (setCheckStatus idle st).

(** What [getCurrentLocation()] settles to. *)
Inductive geolocation : Type :=
| Fix (userLocation : Coordinates)
| Failed (message : string).

(** What the environment contributes to one [confirmPresence] call that
    runs through undisturbed.  [online] is the round trip of the insert:
    [true] when the request reaches the store and the reply reaches the
    page, [false] when the request does not reach the store.  A reply lost
    after the store ran the insert is a case of [LiveClassAsync.Net]. *)
Record Env : Type := mk_env {
  geo : geolocation;
  online : bool;          (* the round trip of the insert succeeds *)
  generated_id : uuid;    (* gen_random_uuid() *)
  store_now : timestamptz (* now() when the insert runs *)
}.

Definition location_check_failed (msg : string) : Toast :=
  {| title := "Location Check Failed";
     description := if String.eqb msg "" then "Could not verify location." else msg;
     destructive := true |}.

Definition verified_toast : Toast :=
  {| title := "Verified";
     description := "Your presence has been confirmed.";
     destructive := false |}.

Definition error_toast : Toast :=
  {| title := "Error";
     description := "Failed to confirm presence. Try again.";
     destructive := true |}.

Definition mismatch_message (distance : number) : string :=
  "Location mismatch (" ++ to_string (Math_round distance) ++ "m away)".

Section WithLocationUtils.

(** [calculateDistance] of [@/lib/locationUtils], in metres. *)
Variable calculateDistance : Coordinates -> Coordinates -> number.

(** The inner [try] of [confirmPresence]: [Some msg] is the message of
    the error it catches, [None] means it falls through to the insert. *)
Definition location_recheck (s : Session) (g : geolocation) : option string :=
  match location_required s, classroom_latitude s, classroom_longitude s with
  | true, Some la, Some lo =>
      if truthy la && truthy lo then
        match g with
        | Failed message => Some message
        | Fix userLocation =>
            let distance :=
              calculateDistance
                {| latitude := latitude userLocation;
                   longitude := longitude userLocation |}
                {| latitude := la; longitude := lo |} in
            if gt distance (or_default (geofence_radius_meters s) (Num 150))
            then Some (mismatch_message distance)
            else None
        end
      else None
  | _, _, _ => None
  end.

(** [confirmPresence()], run against the store, as one call that nothing
    overtakes.  It sets [verifying] before its first [await], which clears
    the countdown interval, so no tick falls between the click and the
    insert; the insert runs at [store_now env], after the geolocation fix
    and the request.  A new check or the timeout of an earlier verified
    response can still reach the page while the call waits: module
    [LiveClassAsync] has the handler split at its two [await]s. *)
Definition confirmPresence (env : Env) (st : State) (db : DB) : State * DB :=
  match activeCheck st, user st, session st with
  | Some a, Some u, Some s =>
      let st := setCheckStatus verifying st in
      match location_recheck s (geo env) with
      | Some msg =>
          (setCheckStatus prompt (toast (location_check_failed msg) st), db)
      | None =>
          if online env then
            match insert_response (Some u) (generated_id env) (store_now env)
                                  (check_id a) u db with
            | Committed db' =>
                (toast verified_toast (setCheckStatus verified st), db')
            | Rejected _ =>
                (setCheckStatus prompt (toast error_toast st), db)
            end
          else (setCheckStatus prompt (toast error_toast st), db)
      end
  | _, _, _ => (st, db)
  end.

(** The "Yes, I'm Here!" button: rendered while the overlay shows the
    countdown, disabled while [verifying]. *)
Definition click_confirm (env : Env) (st : State) (db : DB) : State * DB :=
  match checkStatus st with
  | prompt => confirmPresence env st db
  | _ => (st, db)
  end.

(** What can happen to the page. *)
Inductive Event : Type :=
| CheckInserted (row : session_check) (now : Z)
| Tick (now : Z)
| ConfirmClicked (env : Env)
| VerifiedTimeout.

Definition step (e : Event) (c : State * DB) : State * DB :=
  match e with
  | CheckInserted row now => (on_check_insert row now (fst c), snd c)
  | Tick now => (tick now (fst c), snd c)
  | ConfirmClicked env => click_confirm env (fst c) (snd c)
  | VerifiedTimeout => (verified_timeout (fst c), snd c)
  end.

Definition run (evs : list Event) (c : State * DB) : State * DB :=
  fold_left (fun c e => step e c) evs c.

End WithLocationUtils.

End LiveClass.

(* ================================================================== *)
(** ** The lecturer page: [ActiveSession] *)

Module ActiveSession.
Import JS Store.

(** [interface Session] of the lecturer page. *)
Record Session : Type := mk_session {
  id : uuid;
  session_code : string;
  end_time : Z;
  duration_minutes : Z;
  is_active : bool;
  location_required : bool;
  classroom_latitude : option number;
  classroom_longitude : option number;
  geofence_radius_meters : option number;
  course_code : string;
  course_name : string
}.

Record Profile : Type := mk_profile {
  full_name : option string;
  email : string
}.

(** [interface AttendanceRecord]. *)
Record AttendanceRecord : Type := mk_attendance {
  record_id : uuid;
  scanned_at : Z;
  student_id : uuid;
  profiles : Profile
}.

(** [payload.new] of an INSERT on [attendance_records]. *)
Record attendance_row : Type := mk_attendance_row {
  ar_id : uuid;
  ar_session_id : uuid;
  ar_student_id : uuid;
  ar_scanned_at : Z
}.

(** What the page asks of its collaborators, oldest first. *)
Inductive Effect : Type :=
| Toast (title description : string) (destructive : bool)
| UpdateSessionInactive (sid : uuid)
| LogActivity (uid : uuid) (action description : string) (sid : uuid)
| Navigate (path : string).

Record State : Type := mk_state {
  sessionId : option uuid;
  user : option uuid;
  session : option Session;
  attendees : list AttendanceRecord;
  timeLeft : Z;
  activeCheckId : option uuid;
  checkTimeLeft : Z;
  verifiedCount : Z;
  mounted : bool;
  effects : list Effect
}.

Definition setAttendees (l : list AttendanceRecord) (st : State) : State :=
  {| sessionId := sessionId st; user := user st; session := session st;
     attendees := l; timeLeft := timeLeft st;
     activeCheckId := activeCheckId st; checkTimeLeft := checkTimeLeft st;
     verifiedCount := verifiedCount st; mounted := mounted st;
     effects := effects st |}.

Definition setTimeLeft (t : Z) (st : State) : State :=
  {| sessionId := sessionId st; user := user st; session := session st;
     attendees := attendees st; timeLeft := t;
     activeCheckId := activeCheckId st; checkTimeLeft := checkTimeLeft st;
     verifiedCount := verifiedCount st; mounted := mounted st;
     effects := effects st |}.

Definition setActiveCheckId (c : option uuid) (st : State) : State :=
  {| sessionId := sessionId st; user := user st; session := session st;
     attendees := attendees st; timeLeft := timeLeft st;
     activeCheckId := c; checkTimeLeft := checkTimeLeft st;
     verifiedCount := verifiedCount st; mounted := mounted st;
     effects := effects st |}.

Definition setCheckTimeLeft (t : Z) (st : State) : State :=
  {| sessionId := sessionId st; user := user st; session := session st;
     attendees := attendees st; timeLeft := timeLeft st;
     activeCheckId := activeCheckId st; checkTimeLeft := t;
     verifiedCount := verifiedCount st; mounted := mounted st;
     effects := effects st |}.

Definition setVerifiedCount (n : Z) (st : State) : State :=
  {| sessionId := sessionId st; user := user st; session := session st;
     attendees := attendees st; timeLeft := timeLeft st;
     activeCheckId := activeCheckId st; checkTimeLeft := checkTimeLeft st;
     verifiedCount := n; mounted := mounted st;
     effects := effects st |}.

Definition emit (e : Effect) (st : State) : State :=
  {| sessionId := sessionId st; user := user st; session := session st;
     attendees := attendees st; timeLeft := timeLeft st;
     activeCheckId := activeCheckId st; checkTimeLeft := checkTimeLeft st;
     verifiedCount := verifiedCount st; mounted := mounted st;
     effects := (effects st ++ [e])%list |}.

(** [navigate(...)] leaves the page: its effects are cleaned up, so the
    intervals are cleared and the channels removed. *)
Definition navigate (path : string) (st : State) : State :=
  let st := emit (Navigate path) st in
  {| sessionId := sessionId st; user := user st; session := session st;
     attendees := attendees st; timeLeft := timeLeft st;
     activeCheckId := activeCheckId st; checkTimeLeft := checkTimeLeft st;
     verifiedCount := verifiedCount st; mounted := false;
     effects := effects st |}.

(** [profile?.full_name || profile?.email || 'Student']. *)
Definition display_name (profile : option Profile) : string :=
  match profile with
  | Some p =>
      match full_name p with
      | Some n => if String.eqb n "" then
                    (if String.eqb (email p) "" then "Student" else email p)
                  else n
      | None => if String.eqb (email p) "" then "Student" else email p
      end
  | None => "Student"
  end.

(** The INSERT handler on [attendance_records]
    ([filter: session_id=eq.sessionId]); [profile] is what the profile
    query answers.  The channel exists once [session] is set. *)
Definition on_attendance_insert (row : attendance_row) (profile : option Profile)
    (st : State) : State :=
  match mounted st, session st, sessionId st with
  | true, Some _, Some sid =>
      if String.eqb (ar_session_id row) sid then
        let newAttendee :=
          {| record_id := ar_id row;
             scanned_at := ar_scanned_at row;
             student_id := ar_student_id row;
             profiles := match profile with
                         | Some p => p
                         | None => {| full_name := None; email := "Unknown" |}
                         end |} in
        let st := setAttendees (newAttendee :: attendees st) st in
        emit (Toast "New Attendance" (display_name profile ++ " just checked in") false) st
      else st
  | _, _, _ => st
  end.

(** The INSERT handler on [session_check_responses]
    ([filter: check_id=eq.activeCheckId]).  The channel exists while
    [activeCheckId] is set. *)
Definition on_response_insert (row : session_check_response) (st : State) : State :=
  match mounted st, activeCheckId st with
  | true, Some c =>
      if String.eqb (scr_check_id row) c then
        setVerifiedCount (verifiedCount st + 1) st
      else st
  | _, _ => st
  end.

(** One firing of the check interval of the "Presence Check Logic"
    effect. *)
Definition check_tick (st : State) : State :=
  match mounted st, activeCheckId st with
  | true, Some _ =>
      if checkTimeLeft st <=? 1 then
        setCheckTimeLeft 0 (setActiveCheckId None st)
      else setCheckTimeLeft (checkTimeLeft st - 1) st
  | _, _ => st
  end.

Definition durationSeconds : Z := 60.

(** [expiresAt] of [triggerPresenceCheck]. *)
Definition expiresAt (now : Z) : Z := now + durationSeconds * 1000.

(** [triggerPresenceCheck()] after its insert settled: [reply] is
    [data.id], or [None] when the insert failed. *)
Definition triggerPresenceCheck (reply : option uuid) (st : State) : State :=
  match sessionId st, user st with
  | Some _, Some _ =>
      match reply with
      | Some new_id =>
          let st := setActiveCheckId (Some new_id) st in
          let st := setCheckTimeLeft durationSeconds st in
          let st := setVerifiedCount 0 st in
          emit (Toast "Presence Check Started"
                      "Students have 60 seconds to confirm they are here." false) st
      | None =>
          emit (Toast "Error" "Could not start presence check" true) st
      end
  | _, _ => st
  end.

(** [triggerPresenceCheck()] run against the store.  [now] is [Date.now()]
    on the lecturer's device, from which [expires_at] is computed; the
    request carries no [created_at], so that column is the store's own
    [now()], here [created]; [id] is what [gen_random_uuid()] draws. *)
Definition triggerPresenceCheck_on (now : Z) (created : timestamptz) (id : uuid)
                                   (st : State) (db : DB)
  : State * DB :=
  match sessionId st, user st with
  | Some sid, Some u =>
      match insert_check (Some u) id created sid u (expiresAt now) true db with
      | Committed db' => (triggerPresenceCheck (Some id) st, db')
      | Rejected _ => (triggerPresenceCheck None st, db)
      end
  | _, _ => (st, db)
  end.

(** [endSession()] up to its [await]: the update request is sent. *)
Definition endSession_begin (st : State) : State :=
  match sessionId st, user st with
  | Some sid, Some _ => emit (UpdateSessionInactive sid) st
  | _, _ => st
  end.

Definition course_label (st : State) : string :=
  match session st with
  | Some s => course_code s ++ " - " ++ course_name s
  | None => "undefined - undefined"
  end.

(** [${attendees.length}]. *)
Definition attendee_count (seen : nat) : string :=
  string_of_Z (Z.of_nat seen).

(** [endSession()] after the update settled with [error].  [seen] is
    [attendees.length] in the closure that runs: the button calls the
    [endSession] of the current render, the countdown the one of the render
    that set [session]. *)
Definition endSession_resume (error : option string) (seen : nat) (st : State)
  : State :=
  match sessionId st, user st with
  | Some sid, Some u =>
      match error with
      | Some message => emit (Toast "Error" message true) st
      | None =>
          let st := emit (LogActivity u "session_ended"
                            ("Ended attendance session for " ++ course_label st ++
                             " with " ++ attendee_count seen ++ " attendees") sid) st in
          let st := emit (Toast "Session Ended"
                            ("Session closed with " ++ attendee_count seen ++ " attendees")
                            false) st in
          navigate "/lecturer/classes" st
      end
  | _, _ => st
  end.

(** One firing of the session interval. *)
Definition session_tick (now : Z) (st : State) : State :=
  match mounted st, session st with
  | true, Some s =>
      let r := remaining (end_time s) now in
      let st := setTimeLeft r st in
      if (r =? 0) && is_active s then endSession_begin st else st
  | _, _ => st
  end.

(** [endSession()] of the current render (the "End Session Now" button)
    run against the store: [transport] is the message of the error when the
    request does not reach the store. *)
Definition endSession (transport : option string) (st : State) (db : DB)
  : State * DB :=
  match sessionId st, user st with
  | Some sid, Some _ =>
      let st := endSession_begin st in
      match transport with
      | None => (endSession_resume None (List.length (attendees st)) st,
                 update_session_inactive sid db)
      | Some message =>
          (endSession_resume (Some message) (List.length (attendees st)) st, db)
      end
  | _, _ => (st, db)
  end.

(** What can happen to the page. *)
Inductive Event : Type :=
| AttendanceInserted (row : attendance_row) (profile : option Profile)
| ResponseInserted (row : session_check_response)
| CheckTick
| SessionTick (now : Z)
| EndSessionClicked
| EndSessionSettled (error : option string) (seen : nat)
| CheckTriggered (reply : option uuid).

Definition step (e : Event) (st : State) : State :=
  match e with
  | AttendanceInserted row profile => on_attendance_insert row profile st
  | ResponseInserted row => on_response_insert row st
  | CheckTick => check_tick st
  | SessionTick now => session_tick now st
  | EndSessionClicked => endSession_begin st
  | EndSessionSettled error seen => endSession_resume error seen st
  | CheckTriggered reply => triggerPresenceCheck reply st
  end.

Definition run (evs : list Event) (st : State) : State :=
  fold_left (fun s e => step e s) evs st.

(** Classification of events with respect to a check [c]. *)
Definition is_trigger (e : Event) : bool :=
  match e with CheckTriggered _ => true | _ => false end.

Definition own_response (c : uuid) (e : Event) : bool :=
  match e with
  | ResponseInserted row => String.eqb (scr_check_id row) c
  | _ => false
  end.

Definition foreign_response (c : uuid) (e : Event) : bool :=
  match e with
  | ResponseInserted row => negb (String.eqb (scr_check_id row) c)
  | _ => false
  end.

Definition no_trigger (evs : list Event) : Prop :=
  Forall (fun e => is_trigger e = false) evs.

(** Responses to [c] among the events. *)
Definition own_responses (c : uuid) (evs : list Event) : Z :=
  Z.of_nat (List.length (filter (own_response c) evs)).

(** The events without the responses to checks other than [c]. *)
Definition without_foreign (c : uuid) (evs : list Event) : list Event :=
  filter (fun e => negb (foreign_response c e)) evs.

(** The page shows check [c] or no check. *)
Definition shows_at_most (c : uuid) (st : State) : Prop :=
  activeCheckId st = Some c \/ activeCheckId st = None.

(** The page is mounted and shows check [c]. *)
Definition live (c : uuid) (st : State) : Prop :=
  mounted st = true /\ activeCheckId st = Some c.

(** Both displayed clocks of the page are at or above zero. *)
Definition clocks_nonneg (st : State) : Prop :=
  0 <= timeLeft st /\ 0 <= checkTimeLeft st.

(** How often the page asked the store to end the session. *)
Definition end_signals (st : State) : nat :=
  List.length (filter (fun e => match e with UpdateSessionInactive _ => true | _ => false end)
                      (effects st)).

End ActiveSession.

(* ================================================================== *)
(** ** Predicates on the student page and its use of the store *)

Module StudentPage.
Import Store LiveClass.

(** All rows are responses of student [u]. *)
Definition own_rows (u : uuid) (rows : list session_check_response) : Prop :=
  Forall (fun r => scr_student_id r = u) rows.

(** [db'] is [db] with responses of [u] appended and nothing else
    changed. *)
Definition grows_by_own (u : option uuid) (db db' : DB) : Prop :=
  auth_users db' = auth_users db /\
  attendance_sessions db' = attendance_sessions db /\
  session_checks db' = session_checks db /\
  exists added,
    session_check_responses db' = (session_check_responses db ++ added)%list /\
    match u with
    | Some v => own_rows v added
    | None => added = []
    end.

End StudentPage.

(* ================================================================== *)
(** ** [confirmPresence] split at its [await]s *)

Module LiveClassAsync.
Import JS Store LiveClass.

(** What a running [confirmPresence] keeps of the render in which it was
    started: [activeCheck], [user] and [session] of its closure. *)
Record Call : Type := mk_call {
  call_check : ActiveCheck;
  call_user : uuid;
  call_session : Session
}.

(** The [await] at which a call stands: [getCurrentLocation()] or the
    insert. *)
Inductive Await : Type := AwaitLocation | AwaitInsert.

(** The page with the calls in flight and the number of
    [setTimeout(..., 3000)] callbacks that are armed. *)
Record Page : Type := mk_page {
  state : State;
  calls : list (Call * Await);
  timeouts : nat
}.

(** The round trip of one insert. *)
Record Net : Type := mk_net {
  request_arrives : bool;  (* the request reaches the store *)
  reply_arrives : bool;    (* the reply of the store reaches the page *)
  net_id : uuid;           (* gen_random_uuid() *)
  net_now : timestamptz    (* now() when the insert runs *)
}.

(** The list without its element at position [n]. *)
Fixpoint without_nth {A : Type} (n : nat) (l : list A) : list A :=
  match n, l with
  | _, [] => []
  | O, _ :: rest => rest
  | S m, x :: rest => x :: without_nth m rest
  end.

(** The list with [v] at position [n]. *)
Fixpoint with_nth {A : Type} (n : nat) (v : A) (l : list A) : list A :=
  match n, l with
  | _, [] => []
  | O, _ :: rest => v :: rest
  | S m, x :: rest => x :: with_nth m v rest
  end.

(** The guard of the inner [try]:
    [session.location_required && session.classroom_latitude &&
     session.classroom_longitude]. *)
Definition recheck_armed (s : Session) : bool :=
  match location_required s, classroom_latitude s, classroom_longitude s with
  | true, Some la, Some lo => truthy la && truthy lo
  | _, _, _ => false
  end.

(** [confirmPresence()] up to its first [await]: past the guard it sets
    [verifying] and waits for the position, or, when the re-check is not
    armed, sends the insert and waits for the reply. *)
Definition confirmPresence_begin (p : Page) : Page :=
  match activeCheck (state p), user (state p), session (state p) with
  | Some a, Some u, Some s =>
      {| state := setCheckStatus verifying (state p);
         calls := (calls p ++
                     [ ({| call_check := a; call_user := u; call_session := s |},
                        if recheck_armed s then AwaitLocation else AwaitInsert) ])%list;
         timeouts := timeouts p |}
  | _, _, _ => p
  end.

(** The "Yes, I'm Here!" button, enabled while the status is [prompt]. *)
Definition click (p : Page) : Page :=
  match checkStatus (state p) with
  | prompt => confirmPresence_begin p
  | _ => p
  end.

(** The store's side of the insert of call [c]: the new store, and
    whether the row was committed. *)
Definition store_insert (net : Net) (c : Call) (db : DB) : DB * bool :=
  if request_arrives net then
    match insert_response (Some (call_user c)) (net_id net) (net_now net)
                          (check_id (call_check c)) (call_user c) db with
    | Committed db' => (db', true)
    | Rejected _ => (db, false)
    end
  else (db, false).

(** [error] of [const { error } = await supabase...insert(...)] is set
    unless the row was committed and the reply came back. *)
Definition insert_error (net : Net) (committed : bool) : bool :=
  negb (committed && reply_arrives net).

(** The timer and the subscription of the page act on its state. *)
Definition on_state (f : State -> State) (p : Page) : Page :=
  {| state := f (state p); calls := calls p; timeouts := timeouts p |}.

(** The [setTimeout(..., 3000)] of a verified response fires. *)
Definition timeout_fires (p : Page) : Page :=
  match timeouts p with
  | O => p
  | S k => {| state := verified_timeout (state p); calls := calls p; timeouts := k |}
  end.

Section WithLocationUtils.

Variable calculateDistance : Coordinates -> Coordinates -> number.

(** [getCurrentLocation()] of call [n] settles to [g]: the call is over
    when the re-check refuses, and sends the insert otherwise. *)
Definition confirmPresence_located (n : nat) (g : geolocation) (p : Page) : Page :=
  match nth_error (calls p) n with
  | Some (c, AwaitLocation) =>
      match location_recheck calculateDistance (call_session c) g with
      | Some msg =>
          {| state := setCheckStatus prompt
                        (toast (location_check_failed msg) (state p));
             calls := without_nth n (calls p);
             timeouts := timeouts p |}
      | None =>
          {| state := state p;
             calls := with_nth n (c, AwaitInsert) (calls p);
             timeouts := timeouts p |}
      end
  | _ => p
  end.

(** The insert of call [n] settles. *)
Definition confirmPresence_settled (n : nat) (net : Net) (c : Page * DB)
  : Page * DB :=
  match nth_error (calls (fst c)) n with
  | Some (call, AwaitInsert) =>
      let '(db', committed) := store_insert net call (snd c) in
      if insert_error net committed then
        ({| state := setCheckStatus prompt (toast error_toast (state (fst c)));
            calls := without_nth n (calls (fst c));
            timeouts := timeouts (fst c) |}, db')
      else
        ({| state := toast verified_toast (setCheckStatus verified (state (fst c)));
            calls := without_nth n (calls (fst c));
            timeouts := S (timeouts (fst c)) |}, db')
  | _ => c
  end.

(** What can happen to the page and its calls. *)
Inductive Event : Type :=
| NewCheck (row : session_check) (now : Z)
| Clock (now : Z)
| Click
| Located (n : nat) (g : geolocation)
| Settled (n : nat) (net : Net)
| TimerFired.

Definition step (e : Event) (c : Page * DB) : Page * DB :=
  match e with
  | NewCheck row now => (on_state (on_check_insert row now) (fst c), snd c)
  | Clock now => (on_state (tick now) (fst c), snd c)
  | Click => (click (fst c), snd c)
  | Located n g => (confirmPresence_located n g (fst c), snd c)
  | Settled n net => confirmPresence_settled n net c
  | TimerFired => (timeout_fires (fst c), snd c)
  end.

Definition run (evs : list Event) (c : Page * DB) : Page * DB :=
  fold_left (fun c e => step e c) evs c.

End WithLocationUtils.

(** The round trip that [Env] describes: the reply of a request that
    arrived comes back. *)
Definition net_of (env : Env) : Net :=
  {| request_arrives := online env; reply_arrives := true;
     net_id := generated_id env; net_now := store_now env |}.

End LiveClassAsync.

(* ================================================================== *)
(** ** The migration beyond the inserts: keys, policies, cascades *)

Module Migration.
Import Store.

(** [PRIMARY KEY] of both tables. *)
Definition primary_keys_unique (db : DB) : Prop :=
  NoDup (map sc_id (session_checks db)) /\
  NoDup (map scr_id (session_check_responses db)).

(** [REFERENCES] of both tables: every foreign key finds its row. *)
Definition references_resolve (db : DB) : Prop :=
  (forall c, In c (session_checks db) ->
             In (sc_session_id c) (map as_id (attendance_sessions db)) /\
             (forall u, sc_created_by c = Some u -> In u (auth_users db))) /\
  (forall r, In r (session_check_responses db) ->
             In (scr_check_id r) (map sc_id (session_checks db)) /\
             In (scr_student_id r) (auth_users db)).

(** Policy "Lecturers can view responses":
    [EXISTS (SELECT 1 FROM session_checks sc JOIN attendance_sessions sas
     ON sc.session_id = sas.id WHERE sc.id = check_id
     AND sas.lecturer_id = auth.uid())]. *)
Definition policy_lecturers_can_view_responses (u : uuid)
    (r : session_check_response) (db : DB) : bool :=
  existsb (fun sc =>
             String.eqb (sc_id sc) (scr_check_id r) &&
             existsb (fun sas => String.eqb (sc_session_id sc) (as_id sas)
                                 && String.eqb (as_lecturer_id sas) u)
                     (attendance_sessions db))
          (session_checks db).

(** Policy "Students can view own responses":
    [USING (student_id = auth.uid())]. *)
Definition policy_students_can_view_own (u : uuid)
    (r : session_check_response) : bool :=
  String.eqb (scr_student_id r) u.

(** [SELECT * FROM session_check_responses] as [auth_uid]: the rows that
    one of the two SELECT policies admits. *)
Definition select_responses (auth_uid : option uuid) (db : DB)
  : list session_check_response :=
  match auth_uid with
  | Some u =>
      filter (fun r => policy_lecturers_can_view_responses u r db
                       || policy_students_can_view_own u r)
             (session_check_responses db)
  | None => []
  end.

(** The user lectures no session. *)
Definition lectures_nothing (u : uuid) (db : DB) : Prop :=
  forall s, In s (attendance_sessions db) -> as_lecturer_id s <> u.

(** [DELETE FROM session_checks WHERE id = cid]; the responses go with it
    ([check_id ... ON DELETE CASCADE]). *)
Definition delete_check (cid : uuid) (db : DB) : DB :=
  {| auth_users := auth_users db;
     attendance_sessions := attendance_sessions db;
     session_checks :=
       filter (fun c => negb (String.eqb (sc_id c) cid)) (session_checks db);
     session_check_responses :=
       filter (fun r => negb (String.eqb (scr_check_id r) cid))
              (session_check_responses db) |}.

(** The checks of session [sid]. *)
Definition checks_of (sid : uuid) (db : DB) : list uuid :=
  map sc_id (filter (fun c => String.eqb (sc_session_id c) sid) (session_checks db)).

(** [DELETE FROM attendance_sessions WHERE id = sid]; its checks go with it
    ([session_id ... ON DELETE CASCADE]) and with them their responses. *)
Definition delete_session (sid : uuid) (db : DB) : DB :=
  {| auth_users := auth_users db;
     attendance_sessions :=
       filter (fun s => negb (String.eqb (as_id s) sid)) (attendance_sessions db);
     session_checks :=
       filter (fun c => negb (String.eqb (sc_session_id c) sid)) (session_checks db);
     session_check_responses :=
       filter (fun r => negb (mem (scr_check_id r) (checks_of sid db)))
              (session_check_responses db) |}.

End Migration.

(* ================================================================== *)
(** ** The lecturer page: what it shows and how it loads *)

Module LecturerView.
Import JS Store.

(** The filler of [padStart]: the first [n] characters of [padString]
    repeated; [cur] is what is left of the copy being written. *)
Fixpoint fill (n : nat) (padString cur : string) : string :=
  match n with
  | O => ""
  | S n' =>
      match cur with
      | String c rest => String c (fill n' padString rest)
      | EmptyString =>
          match padString with
          | String c rest => String c (fill n' padString rest)
          | EmptyString => ""
          end
      end
  end.

(** [s.padStart(targetLength, padString)]. *)
Definition padStart (targetLength : nat) (padString s : string) : string :=
  if (targetLength <=? String.length s)%nat then s
  else match padString with
       | EmptyString => s
       | _ => fill (targetLength - String.length s) padString padString ++ s
       end.

(** [formatTime(seconds)], for an integral [seconds]. *)
Definition formatTime (seconds : Z) : string :=
  let mins := Qfloor (inject_Z seconds / inject_Z 60) in
  let secs := Z.rem seconds 60 in
  string_of_Z mins ++ ":" ++ padStart 2 "0" (string_of_Z secs).

(** The seconds field of [formatTime]. *)
Definition seconds_field (x : Z) : string := padStart 2 "0" (string_of_Z x).

(** The values the seconds can take: 0 to 59. *)
Definition sixty : list Z := map Z.of_nat (seq 0 60).

End LecturerView.

(* ================================================================== *)
(** ** Class pulse: the sentiments table and the lecturer's tally *)

(** [create type sentiment_type as enum ('understood', 'neutral',
    'confused')]. *)
Module sentiment_type.
Inductive t : Type := understood | neutral | confused.
End sentiment_type.

Module ClassPulse.
Import Store.

(** Row of [public.session_sentiments]. *)
Record session_sentiment : Type := mk_sentiment {
  ss_id : uuid;
  ss_session_id : uuid;
  ss_student_id : uuid;
  ss_sentiment : sentiment_type.t;
  ss_created_at : timestamptz
}.

(** The store with the sentiments table beside the other tables. *)
Record PulseDB : Type := mk_pulse_db {
  base : DB;
  session_sentiments : list session_sentiment
}.

(** Policy "Students can insert their own sentiment":
    [with check (auth.uid() = student_id)]. *)
Definition policy_students_insert_own (auth_uid : option uuid)
    (student_id : uuid) : bool :=
  match auth_uid with
  | Some u => String.eqb u student_id
  | None => false
  end.

(** [INSERT INTO session_sentiments (session_id, student_id, sentiment)].
    The table has a primary key and two foreign keys and no other
    constraint. *)
Definition insert_sentiment (auth_uid : option uuid) (id : uuid)
    (now : timestamptz) (session_id student_id : uuid)
    (sentiment : sentiment_type.t) (db : PulseDB) : PulseDB + pg_error :=
  if negb (policy_students_insert_own auth_uid student_id) then
    inr insufficient_privilege
  else if mem id (map ss_id (session_sentiments db)) then
    inr unique_violation
  else if negb (mem session_id (map as_id (attendance_sessions (base db)))
                && mem student_id (auth_users (base db))) then
    inr foreign_key_violation
  else
    inl {| base := base db;
           session_sentiments :=
             (session_sentiments db ++
                [ {| ss_id := id; ss_session_id := session_id;
                     ss_student_id := student_id; ss_sentiment := sentiment;
                     ss_created_at := now |} ])%list |}.

(** Policy "Lecturers can view sentiments for their sessions":
    [exists (select 1 from attendance_sessions where id = session_id and
     lecturer_id = auth.uid())]. *)
Definition policy_lecturers_view (u : uuid) (r : session_sentiment) (db : PulseDB)
  : bool :=
  existsb (fun s => String.eqb (as_id s) (ss_session_id r)
                    && String.eqb (as_lecturer_id s) u)
          (attendance_sessions (base db)).

(** [.from('session_sentiments').select('sentiment')
     .eq('session_id', sessionId)] as [auth_uid]. *)
Definition select_sentiments (auth_uid : option uuid) (sessionId : uuid)
    (db : PulseDB) : list sentiment_type.t :=
  match auth_uid with
  | Some u =>
      map ss_sentiment
          (filter (fun r => policy_lecturers_view u r db
                            && String.eqb (ss_session_id r) sessionId)
                  (session_sentiments db))
  | None => []
  end.

(** The [sentiments] state of the lecturer page. *)
Record Sentiments : Type := mk_sentiments {
  understood : Z;
  neutral : Z;
  confused : Z
}.

(** [obj[key]]. *)
Definition get (key : sentiment_type.t) (s : Sentiments) : Z :=
  match key with
  | sentiment_type.understood => understood s
  | sentiment_type.neutral => neutral s
  | sentiment_type.confused => confused s
  end.

(** [{ ...obj, [key]: v }]. *)
Definition set (key : sentiment_type.t) (v : Z) (s : Sentiments) : Sentiments :=
  match key with
  | sentiment_type.understood =>
      {| understood := v; neutral := neutral s; confused := confused s |}
  | sentiment_type.neutral =>
      {| understood := understood s; neutral := v; confused := confused s |}
  | sentiment_type.confused =>
      {| understood := understood s; neutral := neutral s; confused := v |}
  end.

(** [x || 0] on a count. *)
Definition or_zero (x : Z) : Z := if x =? 0 then 0 else x.

(** [(obj[key] || 0) + 1] stored under [key]: the body of the reducer and
    of the realtime handler. *)
Definition bump (key : sentiment_type.t) (s : Sentiments) : Sentiments :=
  set key (or_zero (get key s) + 1) s.

Definition zero : Sentiments :=
  {| understood := 0; neutral := 0; confused := 0 |}.

(** [fetchSentiments()]: [data] is the answer of the query, [None] when
    it failed; then the state is left as it is. *)
Definition fetchSentiments (data : option (list sentiment_type.t))
    (prev : Sentiments) : Sentiments :=
  match data with
  | Some rows => fold_left (fun acc curr => bump curr acc) rows zero
  | None => prev
  end.

(** The INSERT handler on [session_sentiments]
    ([filter: session_id=eq.sessionId]). *)
Definition on_sentiment_insert (sessionId : uuid) (row : session_sentiment)
    (prev : Sentiments) : Sentiments :=
  if String.eqb (ss_session_id row) sessionId
  then bump (ss_sentiment row) prev
  else prev.

(** The sentiments of the delivered rows that belong to the session. *)
Definition delivered (sessionId : uuid) (rows : list session_sentiment)
  : list sentiment_type.t :=
  map ss_sentiment
      (filter (fun r => String.eqb (ss_session_id r) sessionId) rows).

(** How many of the rows carry [key]. *)
Definition occurrences (key : sentiment_type.t) (rows : list sentiment_type.t) : Z :=
  Z.of_nat (List.length
              (filter (fun k => match k, key with
                                | sentiment_type.understood, sentiment_type.understood
                                | sentiment_type.neutral, sentiment_type.neutral
                                | sentiment_type.confused, sentiment_type.confused => true
                                | _, _ => false
                                end) rows)).

(** The sentiment rows of one student. *)
Definition sentiments_of (student_id : uuid) (db : PulseDB) : nat :=
  List.length (filter (fun r => String.eqb (ss_student_id r) student_id)
                      (session_sentiments db)).

End ClassPulse.

(* ================================================================== *)
(** ** Loading the lecturer page *)

Module LecturerLoad.
Import JS Store ActiveSession.

(** A row of [attendance_sessions] as [select('*, classes(...)')] answers
    it, with the lecturer it belongs to. *)
Record session_record : Type := mk_session_record {
  lecturer_id : uuid;
  data : Session
}.

(** [.single()]: the row when exactly one is selected, else the error
    of the client library, whose message is [message]. *)
Definition single {A : Type} (message : string) (rows : list A) : A + string :=
  match rows with
  | [x] => inl x
  | _ => inr message
  end.

(** [.from('attendance_sessions').select(...).eq('id', sessionId)
     .eq('lecturer_id', user.id).single()] over the rows the user may
    read. *)
Definition query_session (message : string) (rows : list session_record)
    (sessionId uid : uuid) : Session + string :=
  match single message
          (filter (fun r => String.eqb (id (data r)) sessionId
                            && String.eqb (lecturer_id r) uid) rows) with
  | inl r => inl (data r)
  | inr e => inr e
  end.

(** [.from('profiles').select('full_name, email').eq('id', id)
     .maybeSingle()], [id] being the primary key of the table. *)
Fixpoint lookup_profile (id : uuid) (profiles : list (uuid * Profile))
  : option Profile :=
  match profiles with
  | [] => None
  | (k, p) :: rest => if String.eqb k id then Some p else lookup_profile id rest
  end.

(** [{ ...record, profiles: profile || { full_name: null, email: 'Unknown' } }]. *)
Definition enrich (profiles : list (uuid * Profile)) (record : attendance_row)
  : AttendanceRecord :=
  {| record_id := ar_id record;
     scanned_at := ar_scanned_at record;
     student_id := ar_student_id record;
     profiles := match lookup_profile (ar_student_id record) profiles with
                 | Some p => p
                 | None => {| full_name := None; email := "Unknown" |}
                 end |}.

(** [fetchAttendees()]; [reply] is the answer of the ordered query,
    [None] when it failed (the error goes to the console only). *)
Definition fetchAttendees (reply : option (list attendance_row))
    (profiles : list (uuid * Profile)) (st : State) : State :=
  match sessionId st with
  | Some _ =>
      match reply with
      | Some rows => setAttendees (map (enrich profiles) rows) st
      | None => st
      end
  | None => st
  end.

(** The feed lists later scans first. *)
Definition newest_first (feed : list AttendanceRecord) : Prop :=
  Sorted (fun a b => scanned_at b <= scanned_at a) feed.

(** [order('scanned_at', { ascending: false })] on the answer. *)
Definition ordered_desc (rows : list attendance_row) : Prop :=
  Sorted (fun a b => ar_scanned_at b <= ar_scanned_at a) rows.

(** The page with the cells that only loading touches. *)
Record Loader : Type := mk_loader {
  page : State;
  loading : bool;
  qrCode : string;
  notifications : list (string * Z)
}.

Definition setSession (s : Session) (st : State) : State :=
  {| sessionId := sessionId st; user := user st; session := Some s;
     attendees := attendees st; timeLeft := timeLeft st;
     activeCheckId := activeCheckId st; checkTimeLeft := checkTimeLeft st;
     verifiedCount := verifiedCount st; mounted := mounted st;
     effects := effects st |}.

(** The [catch] and [finally] of [fetchSession]. *)
Definition load_failed (message : string) (l : Loader) : Loader :=
  {| page := navigate "/lecturer/classes"
               (emit (Toast "Error" message true) (page l));
     loading := false; qrCode := qrCode l; notifications := notifications l |}.

(** [fetchSession()]: [reply] answers the session query, [qr] is what
    [generateQRCode] resolves to or the message of what it throws,
    [records] answers the query of [fetchAttendees]. *)
Definition fetchSession (reply : Session + string) (qr : string + string)
    (records : option (list attendance_row)) (profiles : list (uuid * Profile))
    (l : Loader) : Loader :=
  match sessionId (page l), user (page l) with
  | Some _, Some _ =>
      match reply with
      | inr message => load_failed message l
      | inl s =>
          let l1 := {| page := setSession s (page l); loading := loading l;
                       qrCode := qrCode l; notifications := notifications l |} in
          match qr with
          | inr message => load_failed message l1
          | inl code =>
              {| page := fetchAttendees records profiles (page l1);
                 loading := false;
                 qrCode := code;
                 notifications :=
                   (notifications l ++
                      [((course_code s ++ " - " ++ course_name s)%string,
                        duration_minutes s)])%list |}
          end
      end
  | _, _ => l
  end.

End LecturerLoad.

(* ================================================================== *)
(** ** Loading the student page *)

Module StudentLoad.
Import JS Store LiveClass.

(** The page and where it has sent the student. *)
Record Visit : Type := mk_visit {
  page : State;
  navigated : list string
}.

Definition setSession (s : Session) (st : State) : State :=
  {| sessionId := sessionId st; user := user st; session := Some s;
     activeCheck := activeCheck st; timeLeft := timeLeft st;
     checkStatus := checkStatus st; toasts := toasts st |}.

Definition leave (t : Toast) (v : Visit) : Visit :=
  {| page := toast t (page v);
     navigated := "/student/dashboard" :: navigated v |}.

Definition session_not_found : Toast :=
  {| title := "Session Not Found";
     description := "Could not load session details.";
     destructive := true |}.

Definition session_ended : Toast :=
  {| title := "Session Ended";
     description := "This class session has ended.";
     destructive := false |}.

Definition class_ended : Toast :=
  {| title := "Class Ended";
     description := "The lecturer has ended the session.";
     destructive := false |}.

(** [fetchSession()] of the first effect; [reply] is [data], [None] when
    the query gave an error or no row. *)
Definition fetchSession (reply : option Session) (v : Visit) : Visit :=
  match sessionId (page v) with
  | Some _ =>
      match reply with
      | None => leave session_not_found v
      | Some s =>
          if negb (is_active s) then leave session_ended v
          else {| page := setSession s (page v); navigated := navigated v |}
      end
  | None => v
  end.

(** The UPDATE handler on [attendance_sessions]
    ([filter: id=eq.sessionId]); [row] is [payload.new]. *)
Definition on_session_update (row : attendance_session) (v : Visit) : Visit :=
  match sessionId (page v) with
  | Some sid =>
      if String.eqb (as_id row) sid then
        if negb (as_is_active row) then leave class_ended v else v
      else v
  | None => v
  end.

End StudentLoad.

(* ================================================================== *)
(** ** The digital ID card *)

Module DigitalIDCard.
Import Store.

(** [interface Profile] of the card. *)
Record Profile : Type := mk_profile {
  full_name : string;
  email : string;
  avatar_url : option string
}.

Record Toast : Type := mk_toast {
  title : string;
  description : string;
  destructive : bool
}.

Record State : Type := mk_state {
  profile : option Profile;
  role : option string;
  loading : bool;
  toasts : list Toast
}.

(** The state the component mounts with. *)
Definition initial : State :=
  {| profile := None; role := None; loading := true; toasts := [] |}.

Definition load_error (message : string) : Toast :=
  {| title := "Error";
     description := "Failed to load ID card data: " ++ message;
     destructive := true |}.

(** [fetchProfileAndRole()]: [profileReply] and [roleReply] answer the two
    queries, each with its row or the message of its error; the second is
    asked only after the first succeeded. *)
Definition fetchProfileAndRole (user : option uuid)
    (profileReply : Profile + string) (roleReply : string + string)
    (st : State) : State :=
  match user with
  | None =>
      {| profile := profile st; role := role st; loading := false;
         toasts := toasts st |}
  | Some _ =>
      match profileReply with
      | inr message =>
          {| profile := profile st; role := role st; loading := false;
             toasts := load_error message :: toasts st |}
      | inl p =>
          match roleReply with
          | inr message =>
              {| profile := Some p; role := role st; loading := false;
                 toasts := load_error message :: toasts st |}
          | inl r =>
              {| profile := Some p; role := Some r; loading := false;
                 toasts := toasts st |}
          end
      end
  end.

(** What the component renders. *)
Inductive View : Type :=
| Spinner
| NoProfile
| Card (avatar initial name roleLabel idLabel emailLabel : string).

(** The card itself is rendered. *)
Definition is_card (v : View) : bool :=
  match v with
  | Card _ _ _ _ _ _ => true
  | _ => false
  end.

(** The role label of a rendered card. *)
Definition role_label (v : View) : option string :=
  match v with
  | Card _ _ _ r _ _ => Some r
  | _ => None
  end.

Section WithToUpperCase.

(** [String.prototype.toUpperCase]. *)
Variable toUpperCase : string -> string.

(** [s || fallback] on strings. *)
Definition or_else (s fallback : string) : string :=
  if String.eqb s "" then fallback else s.

(** [s.charAt(0)], for a text that starts with an ASCII character. *)
Definition charAt0 (s : string) : string :=
  match s with
  | String c _ => String c ""
  | EmptyString => ""
  end.

Definition render (user : option uuid) (st : State) : View :=
  if loading st then Spinner
  else match profile st with
       | None => NoProfile
       | Some p =>
           Card
             (match avatar_url p with
              | Some url => or_else url "https://via.placeholder.com/150"
              | None => "https://via.placeholder.com/150"
              end)
             (if String.eqb (full_name p) "" then "?"
              else toUpperCase (charAt0 (full_name p)))
             (or_else (full_name p) "N/A")
             (match role st with
              | Some r => if String.eqb r "" then "USER" else toUpperCase r
              | None => "USER"
              end)
             (match user with
              | Some id => or_else (toUpperCase (String.substring 0 8 id)) "N/A"
              | None => "N/A"
              end)
             (or_else (email p) "N/A")
       end.

End WithToUpperCase.

End DigitalIDCard.

(* ================================================================== *)
(** ** Concrete sessions, pages and store contents *)

Module StudentSample.
Import JS Store LiveClass.

(** A lecture hall in Nairobi with the documented 100 m radius. *)
Definition lecture_hall : Session :=
  {| id := "session-1"; is_active := true; location_required := true;
     classroom_latitude := Some (Num (-12921 # 10000));
     classroom_longitude := Some (Num (368219 # 10000));
     geofence_radius_meters := Some (Num 100);
     course_code := "CS101"; course_name := "Programming" |}.

(** The same hall with the radius set to zero. *)
Definition zero_radius_hall : Session :=
  {| id := "session-1"; is_active := true; location_required := true;
     classroom_latitude := Some (Num (-12921 # 10000));
     classroom_longitude := Some (Num (368219 # 10000));
     geofence_radius_meters := Some (Num 0);
     course_code := "CS101"; course_name := "Programming" |}.

(** A hall on the equator: its latitude is [0]. *)
Definition equator_hall : Session :=
  {| id := "session-1"; is_active := true; location_required := true;
     classroom_latitude := Some (Num 0);
     classroom_longitude := Some (Num (345981 # 10000));
     geofence_radius_meters := Some (Num 100);
     course_code := "CS101"; course_name := "Programming" |}.

(** A session without geofencing. *)
Definition open_hall : Session :=
  {| id := "session-1"; is_active := true; location_required := false;
     classroom_latitude := None; classroom_longitude := None;
     geofence_radius_meters := None;
     course_code := "CS101"; course_name := "Programming" |}.

(** A check of [session-1] created at [0] that expires at 60 s. *)
Definition check1 : session_check :=
  {| sc_id := "check-1"; sc_session_id := "session-1";
     sc_created_at := 0; sc_expires_at := 60000;
     sc_is_active := true; sc_created_by := Some "lecturer-1" |}.

(** The store while [session-1] runs, before any check. *)
Definition db_open : DB :=
  {| auth_users := ["lecturer-1"; "student-1"; "student-2"];
     attendance_sessions :=
       [ {| as_id := "session-1"; as_lecturer_id := "lecturer-1";
            as_end_time := 3600000; as_is_active := true |} ];
     session_checks := [];
     session_check_responses := [] |}.

(** [db_open] with [check1], not answered yet. *)
Definition db0 : DB :=
  {| auth_users := auth_users db_open;
     attendance_sessions := attendance_sessions db_open;
     session_checks := [check1];
     session_check_responses := [] |}.

(** [db0] after [student-2] answered [check-1]. *)
Definition db1 : DB :=
  {| auth_users := auth_users db0;
     attendance_sessions := attendance_sessions db0;
     session_checks := session_checks db0;
     session_check_responses :=
       [ {| scr_id := "response-0"; scr_check_id := "check-1";
            scr_student_id := "student-2"; scr_responded_at := 20000 |} ] |}.

(** The page of [student-1], freshly loaded. *)
Definition page (s : Session) : State :=
  {| sessionId := Some "session-1"; user := Some "student-1";
     session := Some s; activeCheck := None; timeLeft := 0;
     checkStatus := idle; toasts := [] |}.

(** The page after [check1] reached it 200 ms after its creation. *)
Definition prompted (s : Session) : State :=
  on_check_insert check1 200 (page s).

Definition here : Coordinates :=
  {| latitude := Num (-12925 # 10000); longitude := Num (368219 # 10000) |}.

(** The device has a fix, the network is up, the insert runs at [t]. *)
Definition env_at (t : Z) : Env :=
  {| geo := Fix here; online := true;
     generated_id := "response-1"; store_now := t |}.

(** A [calculateDistance] that measures [d] metres. *)
Definition at_distance (d : Q) : Coordinates -> Coordinates -> number :=
  fun _ _ => Num d.

(** Timer ticks of the page at 1.2 s, 2.2 s, ..., [n] of them. *)
Definition ticks (n : nat) : list (Event) :=
  map (fun k => Tick (200 + 1000 * Z.of_nat k)) (seq 1 n).

(** Three submissions of [student-1] for [check-1] that race. *)
Definition race : list submission :=
  [ {| sub_auth_uid := Some "student-1"; sub_id := "response-1"; sub_now := 30000;
       sub_check_id := "check-1"; sub_student_id := "student-1" |};
    {| sub_auth_uid := Some "student-1"; sub_id := "response-2"; sub_now := 30001;
       sub_check_id := "check-1"; sub_student_id := "student-1" |};
    {| sub_auth_uid := Some "student-1"; sub_id := "response-3"; sub_now := 30002;
       sub_check_id := "check-1"; sub_student_id := "student-1" |} ].

End StudentSample.

Module LecturerSample.
Import JS Store ActiveSession.

(** A one-hour session that ends at 3600 s. *)
Definition hour_session : Session :=
  {| id := "session-1"; session_code := "QR-7F3K"; end_time := 3600000;
     duration_minutes := 60; is_active := true; location_required := true;
     classroom_latitude := Some (Num (-12921 # 10000));
     classroom_longitude := Some (Num (368219 # 10000));
     geofence_radius_meters := Some (Num 100);
     course_code := "CS101"; course_name := "Programming" |}.

(** The page of [lecturer-1] with the session loaded. *)
Definition page : State :=
  {| sessionId := Some "session-1"; user := Some "lecturer-1";
     session := Some hour_session; attendees := []; timeLeft := 0;
     activeCheckId := None; checkTimeLeft := 0; verifiedCount := 0;
     mounted := true; effects := [] |}.

(** The page after an earlier check, [check-0], ran out with five
    responses counted. *)
Definition after_check0 : State :=
  {| sessionId := Some "session-1"; user := Some "lecturer-1";
     session := Some hour_session; attendees := []; timeLeft := 3000;
     activeCheckId := None; checkTimeLeft := 0; verifiedCount := 5;
     mounted := true; effects := [] |}.

(** The store after the session was ended. *)
Definition ended_db : DB :=
  {| auth_users := ["lecturer-1"; "student-1"];
     attendance_sessions :=
       [ {| as_id := "session-1"; as_lecturer_id := "lecturer-1";
            as_end_time := 3600000; as_is_active := false |};
         {| as_id := "session-2"; as_lecturer_id := "lecturer-1";
            as_end_time := 7200000; as_is_active := true |} ];
     session_checks := [];
     session_check_responses := [] |}.

Definition scan : attendance_row :=
  {| ar_id := "record-1"; ar_session_id := "session-1";
     ar_student_id := "student-1"; ar_scanned_at := 120000 |}.

Definition student1 : Profile :=
  {| full_name := Some "Wanjiru Kamau"; email := "wanjiru@example.edu" |}.

Definition response1 : session_check_response :=
  {| scr_id := "response-1"; scr_check_id := "check-1";
     scr_student_id := "student-1"; scr_responded_at := 30000 |}.

(** A response to an earlier check of the session. *)
Definition stale_response : session_check_response :=
  {| scr_id := "response-9"; scr_check_id := "check-0";
     scr_student_id := "student-2"; scr_responded_at := 30500 |}.

End LecturerSample.

(* ================================================================== *)
(** ** Proof automation *)

(** Case analysis on every [match] and [if] of the goal. *)
Ltac break_match :=
  repeat match goal with
         | |- context [match ?x with _ => _ end] => destruct x eqn:?
         | |- context [if ?b then _ else _] => destruct b eqn:?
         end.

(** Unfolds the handlers of the lecturer page. *)
Ltac unfold_handlers :=
  unfold ActiveSession.on_attendance_insert, ActiveSession.on_response_insert,
         ActiveSession.check_tick, ActiveSession.session_tick,
         ActiveSession.endSession_begin, ActiveSession.endSession_resume,
         ActiveSession.triggerPresenceCheck, ActiveSession.navigate.

(* ================================================================== *)
(** ** More concrete data *)

Module StudentSample2.
Import JS Store LiveClass.

(** The lecture hall with no radius configured. *)
Definition unset_radius_hall : Session :=
  {| id := "session-1"; is_active := true; location_required := true;
     classroom_latitude := Some (Num (-12921 # 10000));
     classroom_longitude := Some (Num (368219 # 10000));
     geofence_radius_meters := None;
     course_code := "CS101"; course_name := "Programming" |}.

(** A [calculateDistance] that cannot compute a distance. *)
Definition no_distance : Coordinates -> Coordinates -> number :=
  fun _ _ => NaN.

(** The device refuses to give its position. *)
Definition env_denied : Env :=
  {| geo := Failed "User denied Geolocation"; online := true;
     generated_id := "response-1"; store_now := 30000 |}.

(** The device fails without a message. *)
Definition env_silent : Env :=
  {| geo := Failed ""; online := true;
     generated_id := "response-1"; store_now := 30000 |}.

(** The network is down. *)
Definition env_offline : Env :=
  {| geo := Fix StudentSample.here; online := false;
     generated_id := "response-1"; store_now := 30000 |}.

(** [db0] after [student-1] answered [check-1]. *)
Definition db_answered : DB :=
  {| auth_users := auth_users StudentSample.db0;
     attendance_sessions := attendance_sessions StudentSample.db0;
     session_checks := session_checks StudentSample.db0;
     session_check_responses :=
       [ {| scr_id := "response-7"; scr_check_id := "check-1";
            scr_student_id := "student-1"; scr_responded_at := 15000 |} ] |}.

(** [db0] after both students answered [check-1]. *)
Definition db_two : DB :=
  {| auth_users := auth_users StudentSample.db0;
     attendance_sessions := attendance_sessions StudentSample.db0;
     session_checks := session_checks StudentSample.db0;
     session_check_responses :=
       [ {| scr_id := "response-7"; scr_check_id := "check-1";
            scr_student_id := "student-1"; scr_responded_at := 15000 |};
         {| scr_id := "response-8"; scr_check_id := "check-1";
            scr_student_id := "student-2"; scr_responded_at := 16000 |} ] |}.

(** A second check of [session-1], created at 61 s. *)
Definition check2 : session_check :=
  {| sc_id := "check-2"; sc_session_id := "session-1";
     sc_created_at := 61000; sc_expires_at := 121000;
     sc_is_active := true; sc_created_by := Some "lecturer-1" |}.

(** The store with both checks, not answered yet. *)
Definition db_checks : DB :=
  {| auth_users := auth_users StudentSample.db0;
     attendance_sessions := attendance_sessions StudentSample.db0;
     session_checks := [StudentSample.check1; check2];
     session_check_responses := [] |}.

(** A round trip that succeeds, the insert running at [t] with id [id]. *)
Definition net_at (t : Z) (id : uuid) : LiveClassAsync.Net :=
  {| LiveClassAsync.request_arrives := true; LiveClassAsync.reply_arrives := true;
     LiveClassAsync.net_id := id; LiveClassAsync.net_now := t |}.

(** The request arrives at [t] and the reply is lost. *)
Definition net_lost_reply (t : Z) (id : uuid) : LiveClassAsync.Net :=
  {| LiveClassAsync.request_arrives := true; LiveClassAsync.reply_arrives := false;
     LiveClassAsync.net_id := id; LiveClassAsync.net_now := t |}.

(** The page of [student-1] with no call in flight and no timeout armed. *)
Definition fresh (s : Session) : LiveClassAsync.Page :=
  {| LiveClassAsync.state := StudentSample.page s;
     LiveClassAsync.calls := [];
     LiveClassAsync.timeouts := 0 |}.

(** [student-1] answers [check-1] at 59 s, which arms the 3 s timeout;
    [check-2] reaches the page at 61.2 s and the student presses the button
    again.  The call for [check-2] is in flight and the timeout of
    [check-1] has not fired yet. *)
Definition second_call (s : Session) : LiveClassAsync.Page * DB :=
  LiveClassAsync.run (StudentSample.at_distance 20)
    [ LiveClassAsync.NewCheck StudentSample.check1 200;
      LiveClassAsync.Click;
      LiveClassAsync.Located 0 (Fix StudentSample.here);
      LiveClassAsync.Settled 0 (net_at 59000 "response-1");
      LiveClassAsync.NewCheck check2 61200;
      LiveClassAsync.Click ]
    (fresh s, db_checks).

(** [student-1] pressed the button for [check-1] on a page without
    geofencing: the insert is on its way. *)
Definition first_call : LiveClassAsync.Page * DB :=
  LiveClassAsync.run (StudentSample.at_distance 20)
    [ LiveClassAsync.NewCheck StudentSample.check1 200;
      LiveClassAsync.Click ]
    (fresh StudentSample.open_hall, StudentSample.db0).

End StudentSample2.

Module LecturerSample2.
Import JS Store ActiveSession.

(** [student-1] on the lecturer page of [session-1]. *)
Definition intruder : State :=
  {| sessionId := Some "session-1"; user := Some "student-1";
     session := None; attendees := []; timeLeft := 0;
     activeCheckId := None; checkTimeLeft := 0; verifiedCount := 0;
     mounted := true; effects := [] |}.

(** [session-1] as the store holds it after its end. *)
Definition ended_session : Session :=
  {| id := "session-1"; session_code := "QR-7F3K"; end_time := 3600000;
     duration_minutes := 60; is_active := false; location_required := true;
     classroom_latitude := Some (Num (-12921 # 10000));
     classroom_longitude := Some (Num (368219 # 10000));
     geofence_radius_meters := Some (Num 100);
     course_code := "CS101"; course_name := "Programming" |}.

(** The page of [lecturer-1], opened on [session-1] after its end. *)
Definition reopened : State :=
  {| sessionId := Some "session-1"; user := Some "lecturer-1";
     session := Some ended_session; attendees := []; timeLeft := 0;
     activeCheckId := None; checkTimeLeft := 0; verifiedCount := 0;
     mounted := true; effects := [] |}.

End LecturerSample2.

Module PulseSample.
Import Store ClassPulse.

(** Two sentiments of [student-1] and one of [student-2] in [session-1]. *)
Definition pulse_db : PulseDB :=
  {| base := StudentSample.db0;
     session_sentiments :=
       [ {| ss_id := "sentiment-1"; ss_session_id := "session-1";
            ss_student_id := "student-1";
            ss_sentiment := sentiment_type.understood; ss_created_at := 1000 |};
         {| ss_id := "sentiment-2"; ss_session_id := "session-1";
            ss_student_id := "student-2";
            ss_sentiment := sentiment_type.confused; ss_created_at := 2000 |};
         {| ss_id := "sentiment-3"; ss_session_id := "session-1";
            ss_student_id := "student-1";
            ss_sentiment := sentiment_type.understood; ss_created_at := 3000 |} ] |}.

End PulseSample.

Module LoadSample.
Import JS Store.

(** The rows of [attendance_sessions]: [session-1] of [lecturer-1]. *)
Definition session_rows : list LecturerLoad.session_record :=
  [ {| LecturerLoad.lecturer_id := "lecturer-1";
       LecturerLoad.data := LecturerSample.hour_session |} ].

(** The lecturer page before it has loaded. *)
Definition fresh : LecturerLoad.Loader :=
  {| LecturerLoad.page :=
       ActiveSession.mk_state (Some "session-1") (Some "lecturer-1") None []
         0 None 0 0 true [];
     LecturerLoad.loading := true;
     LecturerLoad.qrCode := "";
     LecturerLoad.notifications := [] |}.

(** The same page opened by [lecturer-2]. *)
Definition fresh_other : LecturerLoad.Loader :=
  {| LecturerLoad.page :=
       ActiveSession.mk_state (Some "session-1") (Some "lecturer-2") None []
         0 None 0 0 true [];
     LecturerLoad.loading := true;
     LecturerLoad.qrCode := "";
     LecturerLoad.notifications := [] |}.

(** Two scans of the session, the later one first. *)
Definition scans : list ActiveSession.attendance_row :=
  [ ActiveSession.mk_attendance_row "record-2" "session-1" "student-2" 180000;
    ActiveSession.mk_attendance_row "record-1" "session-1" "student-1" 120000 ].

Definition known_profiles : list (uuid * ActiveSession.Profile) :=
  [ ("student-1", LecturerSample.student1) ].

(** A scan later than both. *)
Definition next_scan : ActiveSession.attendance_row :=
  ActiveSession.mk_attendance_row "record-3" "session-1" "student-3" 200000.

(** The student page before it has loaded. *)
Definition arriving : StudentLoad.Visit :=
  {| StudentLoad.page :=
       LiveClass.mk_state (Some "session-1") (Some "student-1") None None 0
         LiveClass.idle [];
     StudentLoad.navigated := [] |}.

(** [lecture_hall] after the lecturer ended it. *)
Definition closed_hall : LiveClass.Session :=
  LiveClass.mk_session "session-1" false true
    (Some (Num (-12921 # 10000))) (Some (Num (368219 # 10000)))
    (Some (Num 100)) "CS101" "Programming".

(** An upper-casing of the letters a to z. *)
Fixpoint upper (s : string) : string :=
  match s with
  | EmptyString => ""
  | String c rest =>
      let n := Ascii.nat_of_ascii c in
      String (if ((97 <=? n) && (n <=? 122))%nat
              then Ascii.ascii_of_nat (n - 32) else c)
             (upper rest)
  end.

Definition wanjiru : DigitalIDCard.Profile :=
  DigitalIDCard.mk_profile "Wanjiru Kamau" "wanjiru@example.edu" None.

End LoadSample.

(* ================================================================== *)
(** * Properties *)

(** ** The clock expression *)

Lemma floor_div_1000_div (x : Z) : JS.floor_div_1000 x = x / 1000.
Proof.
  unfold JS.floor_div_1000, Qdiv, Qmult, Qinv, inject_Z, Qfloor; simpl.
  now rewrite Z.mul_1_r.
Qed.

Lemma remaining_div (end_ now : Z) :
  remaining end_ now = Z.max 0 ((end_ - now) / 1000).
Proof. unfold remaining. now rewrite floor_div_1000_div. Qed.

Lemma remaining_nonneg (end_ now : Z) : 0 <= remaining end_ now.
Proof. unfold remaining. apply Z.le_max_l. Qed.

Lemma remaining_zero_iff (end_ now : Z) :
  remaining end_ now = 0 <-> end_ - now < 1000.
Proof.
  rewrite remaining_div. split; intro H.
  - destruct (Z_lt_ge_dec (end_ - now) 1000) as [|Hge]; [assumption|].
    assert (1 <= (end_ - now) / 1000) by (apply Z.div_le_lower_bound; lia).
    lia.
  - assert ((end_ - now) / 1000 <= 0).
    { destruct (Z_lt_ge_dec (end_ - now) 0).
      - assert ((end_ - now) / 1000 < 0) by (apply Z.div_lt_upper_bound; lia). lia.
      - rewrite Z.div_small; lia. }
    lia.
Qed.

Lemma remaining_past (end_ now : Z) : end_ <= now -> remaining end_ now = 0.
Proof. intro H. apply remaining_zero_iff. lia. Qed.

(** ** The store keeps one response per (check, student) *)

Module StoreFacts.
Import Store.

Lemma existsb_filter_nil {A} (f : A -> bool) (l : list A) :
  existsb f l = false <-> filter f l = [].
Proof.
  induction l as [|x l IH]; simpl; [tauto|].
  destruct (f x); simpl; [split; discriminate | exact IH].
Qed.

Lemma key_free_rows (C T : uuid) (db : DB) :
  responses_key_free C T db = true <-> rows_for C T db = 0%nat.
Proof.
  unfold responses_key_free, rows_for.
  rewrite negb_true_iff, existsb_filter_nil.
  split; intro H; [now rewrite H | now apply length_zero_iff_nil].
Qed.

Lemma same_key_eq (C T c t : uuid) (id : uuid) (now : timestamptz) :
  same_key C T {| scr_id := id; scr_check_id := c;
                  scr_student_id := t; scr_responded_at := now |} = true
  <-> C = c /\ T = t.
Proof.
  unfold same_key; simpl.
  rewrite andb_true_iff, !String.eqb_eq. tauto.
Qed.

(** What a committed insert did to the table. *)
Lemma insert_committed (u : option uuid) (id : uuid) (now : timestamptz)
    (c t : uuid) (db db' : DB) :
  insert_response u id now c t db = Committed db' ->
  rows_for c t db = 0%nat /\
  session_check_responses db' =
    (session_check_responses db ++
       [ {| scr_id := id; scr_check_id := c;
            scr_student_id := t; scr_responded_at := now |} ])%list /\
  session_checks db' = session_checks db /\
  auth_users db' = auth_users db /\
  attendance_sessions db' = attendance_sessions db.
Proof.
  unfold insert_response.
  destruct (policy_students_can_respond u t); simpl; [|discriminate].
  destruct (responses_pkey_free id db); simpl; [|discriminate].
  destruct (responses_key_free c t db) eqn:Hk; simpl; [|discriminate].
  destruct (responses_fkeys_ok c t db); simpl; [|discriminate].
  intro H; injection H as <-; simpl.
  apply key_free_rows in Hk. auto.
Qed.

Lemma rows_for_app (C T : uuid) (db db' : DB) (r : session_check_response) :
  session_check_responses db' = (session_check_responses db ++ [r])%list ->
  rows_for C T db' = (rows_for C T db + (if same_key C T r then 1 else 0))%nat.
Proof.
  intro H. unfold rows_for. rewrite H, filter_app, length_app. simpl.
  now destruct (same_key C T r).
Qed.

Lemma insert_preserves_unique (u : option uuid) (id : uuid) (now : timestamptz)
    (c t : uuid) (db db' : DB) :
  unique_responses db ->
  insert_response u id now c t db = Committed db' ->
  unique_responses db'.
Proof.
  intros Hu Hc C T.
  destruct (insert_committed _ _ _ _ _ _ _ Hc) as (H0 & Happ & _).
  rewrite (rows_for_app C T db db' _ Happ).
  destruct (same_key C T _) eqn:Hs.
  - apply same_key_eq in Hs as [-> ->]. rewrite H0. lia.
  - specialize (Hu C T). lia.
Qed.

Lemma submit_all_preserves_unique (subs : list submission) :
  forall db, unique_responses db -> unique_responses (fst (submit_all subs db)).
Proof.
  induction subs as [|s rest IH]; intros db Hu; simpl; [assumption|].
  destruct (submit s db) as [db'|e] eqn:Hs.
  - specialize (IH db' (insert_preserves_unique _ _ _ _ _ _ _ Hu Hs)).
    destruct (submit_all rest db'); exact IH.
  - specialize (IH db Hu). destruct (submit_all rest db); exact IH.
Qed.

(** With a row for the pair in the table, no insert for the pair commits;
    an insert that passes the policy gets the unique violation. *)
Lemma insert_duplicate (u : option uuid) (id : uuid) (now : timestamptz)
    (c t : uuid) (db : DB) :
  rows_for c t db <> 0%nat ->
  insert_response u id now c t db =
    Rejected (if policy_students_can_respond u t
              then unique_violation else insufficient_privilege).
Proof.
  intro H. unfold insert_response.
  destruct (policy_students_can_respond u t); simpl; [|reflexivity].
  destruct (responses_key_free c t db) eqn:Hk.
  - apply key_free_rows in Hk. contradiction.
  - now rewrite andb_false_r.
Qed.

Lemma policy_self (T : uuid) : policy_students_can_respond (Some T) T = true.
Proof. simpl. apply String.eqb_refl. Qed.

Lemma duplicates_all_rejected (C T : uuid) (rest : list submission) (db : DB) :
  Forall (targets C T) rest ->
  rows_for C T db <> 0%nat ->
  submit_all rest db = (db, map (fun _ => Some unique_violation) rest).
Proof.
  intros Hall Hrow. induction Hall as [|s rest (Hc & Ht & Ha) _ IH]; simpl; [reflexivity|].
  unfold submit. rewrite Hc, Ht, Ha, (insert_duplicate _ _ _ _ _ _ Hrow), policy_self.
  now rewrite IH.
Qed.

Lemma first_commits (C T : uuid) (s : submission) (db : DB) :
  targets C T s ->
  rows_for C T db = 0%nat ->
  responses_pkey_free (sub_id s) db = true ->
  responses_fkeys_ok C T db = true ->
  exists db', submit s db = Committed db' /\ rows_for C T db' = 1%nat.
Proof.
  intros (Hc & Ht & Ha) H0 Hp Hf.
  unfold submit, insert_response.
  rewrite Hc, Ht, Ha, policy_self, Hp, Hf.
  apply key_free_rows in H0 as Hk. rewrite Hk. simpl.
  eexists; split; [reflexivity|].
  unfold rows_for in *; simpl. rewrite filter_app, length_app, H0. simpl.
  unfold same_key; simpl. now rewrite !String.eqb_refl.
Qed.

End StoreFacts.

(** C1.  In [session_check_responses] at most one row exists for a check
    and a student, whatever is submitted and in whatever order the store
    serialises it: the table starts without duplicates and every serial
    order of inserts keeps it so.  The insert itself refuses a second row
    for the pair, independently of what the client checked before.  When
    several submissions for one free pair race, the one the store runs
    first is committed and every other one gets the unique violation. *)
Theorem store_one_response_per_check_student :
  forall db : Store.DB,
    Store.unique_responses db ->
    (forall subs, Store.unique_responses (fst (Store.submit_all subs db))) /\
    (forall u id now C T,
        Store.rows_for C T db <> 0%nat ->
        forall db', Store.insert_response u id now C T db <> Store.Committed db') /\
    (forall C T s rest,
        Forall (Store.targets C T) (s :: rest) ->
        Store.rows_for C T db = 0%nat ->
        Store.responses_pkey_free (Store.sub_id s) db = true ->
        Store.responses_fkeys_ok C T db = true ->
        snd (Store.submit_all (s :: rest) db)
          = None :: map (fun _ => Some Store.unique_violation) rest /\
        Store.rows_for C T (fst (Store.submit_all (s :: rest) db)) = 1%nat).
Proof.
  intros db Hu. split; [|split].
  - intro subs. now apply StoreFacts.submit_all_preserves_unique.
  - intros u id now C T Hrow db' H.
    rewrite (StoreFacts.insert_duplicate _ _ _ _ _ _ Hrow) in H. discriminate.
  - intros C T s rest Hall H0 Hp Hf.
    inversion Hall as [|? ? Hs Hrest]; subst.
    destruct (StoreFacts.first_commits C T s db Hs H0 Hp Hf) as (db' & Hc & H1).
    simpl. rewrite Hc.
    rewrite (StoreFacts.duplicates_all_rejected C T rest db' Hrest) by lia.
    simpl. auto.
Qed.

(** C1, at a concrete race: three submissions of one student for one
    check against a table that holds another student's response. *)
Lemma store_one_response_per_check_student_witness :
  snd (Store.submit_all StudentSample.race StudentSample.db1)
    = [None; Some Store.unique_violation; Some Store.unique_violation] /\
  Store.rows_for "check-1" "student-1"
    (fst (Store.submit_all StudentSample.race StudentSample.db1)) = 1%nat.
Proof.
  assert (Hu : Store.unique_responses StudentSample.db1).
  { intros C T. unfold Store.rows_for. simpl.
    destruct (Store.same_key C T _); simpl; lia. }
  destruct (store_one_response_per_check_student StudentSample.db1 Hu) as (_ & _ & H).
  apply (H "check-1" "student-1"); try reflexivity.
  repeat constructor.
Defined.

(** ** Countdowns *)

Module LiveClassFacts.
Import Store LiveClass.

Lemma handleNewCheck_timeLeft (row : session_check) (now : Z) (st : State) :
  timeLeft (handleNewCheck row now st) = remaining (sc_expires_at row) now.
Proof. reflexivity. Qed.

Lemma tick_timeLeft (now : Z) (st : State) (a : ActiveCheck) :
  checkStatus st = prompt -> activeCheck st = Some a ->
  timeLeft (tick now st) = remaining (expires_at a) now.
Proof.
  intros Hs Ha. unfold tick. rewrite Hs, Ha.
  destruct (remaining (expires_at a) now <=? 0); reflexivity.
Qed.

Lemma tick_timeLeft_nonneg (now : Z) (st : State) :
  0 <= timeLeft st -> 0 <= timeLeft (tick now st).
Proof.
  intro H. unfold tick. break_match; simpl; auto using remaining_nonneg.
Qed.

Lemma on_check_insert_timeLeft_nonneg (row : session_check) (now : Z) (st : State) :
  0 <= timeLeft st -> 0 <= timeLeft (on_check_insert row now st).
Proof.
  intro H. unfold on_check_insert. break_match; simpl; auto using remaining_nonneg.
Qed.

Lemma confirmPresence_timeLeft calc (env : Env) (st : State) (db : DB) :
  timeLeft (fst (confirmPresence calc env st db)) = timeLeft st.
Proof. unfold confirmPresence. break_match; reflexivity. Qed.

Lemma step_timeLeft_nonneg calc (e : Event) (c : State * DB) :
  0 <= timeLeft (fst c) -> 0 <= timeLeft (fst (step calc e c)).
Proof.
  intro H. destruct e; simpl.
  - now apply on_check_insert_timeLeft_nonneg.
  - now apply tick_timeLeft_nonneg.
  - unfold click_confirm. destruct (checkStatus (fst c)); simpl; auto.
    now rewrite confirmPresence_timeLeft.
  - exact H.
Qed.

Lemma run_timeLeft_nonneg calc (evs : list Event) :
  forall c, 0 <= timeLeft (fst c) -> 0 <= timeLeft (fst (run calc evs c)).
Proof.
  induction evs as [|e evs IH]; intros c H; simpl; [exact H|].
  apply IH. now apply step_timeLeft_nonneg.
Qed.

End LiveClassFacts.

Module ActiveSessionFacts.
Import Store ActiveSession.

Lemma session_tick_timeLeft (now : Z) (st : State) (s : Session) :
  mounted st = true -> session st = Some s ->
  timeLeft (session_tick now st) = remaining (end_time s) now.
Proof.
  intros Hm Hs. unfold session_tick, endSession_begin. rewrite Hm, Hs.
  break_match; reflexivity.
Qed.

Lemma step_clocks_nonneg (e : Event) (st : State) :
  clocks_nonneg st -> clocks_nonneg (step e st).
Proof.
  intros [Ht Hc]. pose proof remaining_nonneg as Hr.
  destruct e; simpl;
    unfold on_attendance_insert, on_response_insert, check_tick, session_tick,
           endSession_begin, endSession_resume, triggerPresenceCheck, clocks_nonneg;
    break_match; simpl; unfold durationSeconds;
    try (split; auto; fail); try (split; auto; lia).
Qed.

Lemma run_clocks_nonneg (evs : list Event) :
  forall st, clocks_nonneg st -> clocks_nonneg (run evs st).
Proof.
  induction evs as [|e evs IH]; intros st H; simpl; [exact H|].
  apply IH. now apply step_clocks_nonneg.
Qed.

End ActiveSessionFacts.

(** C10.  No countdown shows a negative value.  The student check
    countdown ([handleNewCheck] and the timer tick) and the lecturer session
    countdown are [Math.max(0, ...)] of the remaining seconds, so each is at
    least zero and is exactly zero when [now] is at or after the expiry; and
    through every run of either page the displayed clocks stay at or above
    zero. *)
Theorem countdown_clamped_at_zero :
  forall now : Z,
    (forall row st,
        let t := LiveClass.timeLeft (LiveClass.handleNewCheck row now st) in
        0 <= t /\ (Store.sc_expires_at row <= now -> t = 0)) /\
    (forall st a,
        LiveClass.checkStatus st = LiveClass.prompt ->
        LiveClass.activeCheck st = Some a ->
        let t := LiveClass.timeLeft (LiveClass.tick now st) in
        0 <= t /\ (LiveClass.expires_at a <= now -> t = 0)) /\
    (forall st s,
        ActiveSession.mounted st = true ->
        ActiveSession.session st = Some s ->
        let t := ActiveSession.timeLeft (ActiveSession.session_tick now st) in
        0 <= t /\ (ActiveSession.end_time s <= now -> t = 0)) /\
    (forall calc evs st db,
        0 <= LiveClass.timeLeft st ->
        0 <= LiveClass.timeLeft (fst (LiveClass.run calc evs (st, db)))) /\
    (forall evs st,
        0 <= ActiveSession.timeLeft st -> 0 <= ActiveSession.checkTimeLeft st ->
        0 <= ActiveSession.timeLeft (ActiveSession.run evs st) /\
        0 <= ActiveSession.checkTimeLeft (ActiveSession.run evs st)).
Proof.
  intro now. repeat split.
  - rewrite LiveClassFacts.handleNewCheck_timeLeft. apply remaining_nonneg.
  - rewrite LiveClassFacts.handleNewCheck_timeLeft. apply remaining_past.
  - rewrite (LiveClassFacts.tick_timeLeft now st a) by assumption. apply remaining_nonneg.
  - rewrite (LiveClassFacts.tick_timeLeft now st a) by assumption. apply remaining_past.
  - rewrite (ActiveSessionFacts.session_tick_timeLeft now st s) by assumption.
    apply remaining_nonneg.
  - rewrite (ActiveSessionFacts.session_tick_timeLeft now st s) by assumption.
    apply remaining_past.
  - intros. now apply (LiveClassFacts.run_timeLeft_nonneg calc evs (st, db)).
  - apply (ActiveSessionFacts.run_clocks_nonneg evs st). split; assumption.
  - apply (ActiveSessionFacts.run_clocks_nonneg evs st). split; assumption.
Qed.

(** C10, one second after the expiry of [check-1] and 100 s after the end
    of the session: both pages show zero, and the student clock is not
    negative after a run of the page. *)
Lemma countdown_clamped_at_zero_witness :
  LiveClass.timeLeft
    (LiveClass.handleNewCheck StudentSample.check1 61000
       (StudentSample.page StudentSample.open_hall)) = 0 /\
  LiveClass.timeLeft
    (LiveClass.tick 61000 (StudentSample.prompted StudentSample.open_hall)) = 0 /\
  ActiveSession.timeLeft
    (ActiveSession.session_tick 3700000 LecturerSample.page) = 0 /\
  0 <= LiveClass.timeLeft
         (fst (LiveClass.run (StudentSample.at_distance 20)
                 (LiveClass.CheckInserted StudentSample.check1 200
                    :: StudentSample.ticks 3)
                 (StudentSample.page StudentSample.open_hall, StudentSample.db0))).
Proof.
  split; [|split; [|split]].
  - refine (proj2 (proj1 (countdown_clamped_at_zero 61000)
      StudentSample.check1 (StudentSample.page StudentSample.open_hall)) _).
    discriminate.
  - refine (proj2 (proj1 (proj2 (countdown_clamped_at_zero 61000))
      (StudentSample.prompted StudentSample.open_hall) _ eq_refl eq_refl) _).
    discriminate.
  - refine (proj2 (proj1 (proj2 (proj2 (countdown_clamped_at_zero 3700000)))
      LecturerSample.page _ eq_refl eq_refl) _).
    discriminate.
  - refine (proj1 (proj2 (proj2 (proj2 (countdown_clamped_at_zero 0))))
      (StudentSample.at_distance 20) _ _ _ _).
    discriminate.
Defined.


(** ** The location re-check of [confirmPresence] *)

Module GeofenceFacts.
Import JS Store LiveClass.

Lemma gt_Num (d r : Q) : gt (Num d) (Num r) = true <-> (r < d)%Q.
Proof.
  simpl. rewrite negb_true_iff. split; intro H.
  - apply Qnot_le_lt. intro Hle. apply Qle_bool_iff in Hle. congruence.
  - destruct (Qle_bool d r) eqn:E; [|reflexivity].
    apply Qle_bool_iff in E. apply Qlt_not_le in H. contradiction.
Qed.

Lemma gt_Num_false (d r : Q) : gt (Num d) (Num r) = false <-> (d <= r)%Q.
Proof.
  simpl. rewrite negb_false_iff. apply Qle_bool_iff.
Qed.

Lemma truthy_Num (r : Q) : truthy (Num r) = true <-> ~ r == 0.
Proof.
  simpl. rewrite negb_true_iff. split; intro H.
  - intro E. apply Qeq_bool_iff in E. congruence.
  - destruct (Qeq_bool r 0) eqn:E; [|reflexivity].
    apply Qeq_bool_iff in E. contradiction.
Qed.

(** With a radius that is set and not zero the threshold is the radius. *)
Lemma or_default_configured (r : Q) (fallback : number) :
  ~ r == 0 -> or_default (Some (Num r)) fallback = Num r.
Proof.
  intro H. unfold or_default. now rewrite (proj2 (truthy_Num r) H).
Qed.

(** With no radius, or a radius of zero, the threshold is the fallback. *)
Lemma or_default_unset (fallback : number) : or_default None fallback = fallback.
Proof. reflexivity. Qed.

Lemma or_default_zero (z : Q) (fallback : number) :
  z == 0 -> or_default (Some (Num z)) fallback = fallback.
Proof.
  intro H. unfold or_default. destruct (truthy (Num z)) eqn:E; [|reflexivity].
  apply truthy_Num in E. contradiction.
Qed.

Lemma mismatch_message_Num (d : Q) :
  mismatch_message (Num d) =
  "Location mismatch (" ++ string_of_Z (Qfloor (d + (1 # 2))) ++ "m away)".
Proof. unfold mismatch_message, Math_round, to_string. now rewrite Qfloor_Z. Qed.

Lemma location_check_failed_mismatch (d : number) :
  location_check_failed (mismatch_message d) =
  {| title := "Location Check Failed";
     description := mismatch_message d;
     destructive := true |}.
Proof. reflexivity. Qed.

Section WithLocationUtils.
Variable calc : Coordinates -> Coordinates -> number.

(** The re-check when the guard of [confirmPresence] lets it run. *)
Lemma location_recheck_armed (s : Session) (la lo ulat ulon : number) :
  location_required s = true ->
  classroom_latitude s = Some la -> truthy la = true ->
  classroom_longitude s = Some lo -> truthy lo = true ->
  location_recheck calc s (Fix {| latitude := ulat; longitude := ulon |}) =
  let distance := calc {| latitude := ulat; longitude := ulon |}
                       {| latitude := la; longitude := lo |} in
  if gt distance (or_default (geofence_radius_meters s) (Num 150))
  then Some (mismatch_message distance) else None.
Proof.
  intros Hreq Hla Tla Hlo Tlo. unfold location_recheck.
  now rewrite Hreq, Hla, Hlo, Tla, Tlo.
Qed.

(** A failed re-check writes nothing and returns the page to [prompt]. *)
Lemma confirmPresence_mismatch (env : Env) (st : State) (db : DB)
    (a : ActiveCheck) (u : uuid) (s : Session) (msg : string) :
  activeCheck st = Some a -> user st = Some u -> session st = Some s ->
  location_recheck calc s (geo env) = Some msg ->
  confirmPresence calc env st db =
  (setCheckStatus prompt
     (toast (location_check_failed msg) (setCheckStatus verifying st)), db).
Proof.
  intros Ha Hu Hs Hl. unfold confirmPresence. rewrite Ha, Hu, Hs. simpl.
  now rewrite Hl.
Qed.

(** A passed re-check hands the response to the store. *)
Lemma confirmPresence_pass (env : Env) (st : State) (db : DB)
    (a : ActiveCheck) (u : uuid) (s : Session) :
  activeCheck st = Some a -> user st = Some u -> session st = Some s ->
  location_recheck calc s (geo env) = None ->
  online env = true ->
  confirmPresence calc env st db =
  match insert_response (Some u) (generated_id env) (store_now env)
                        (check_id a) u db with
  | Committed db' =>
      (toast verified_toast (setCheckStatus verified (setCheckStatus verifying st)), db')
  | Rejected _ =>
      (setCheckStatus prompt (toast error_toast (setCheckStatus verifying st)), db)
  end.
Proof.
  intros Ha Hu Hs Hl Ho. unfold confirmPresence. rewrite Ha, Hu, Hs. simpl.
  now rewrite Hl, Ho.
Qed.

End WithLocationUtils.

(** The first response of a student to a check is committed. *)
Lemma insert_first_response (u c id : uuid) (now : timestamptz) (db : DB) :
  rows_for c u db = 0%nat ->
  responses_pkey_free id db = true ->
  responses_fkeys_ok c u db = true ->
  exists db',
    insert_response (Some u) id now c u db = Committed db' /\
    rows_for c u db' = 1%nat /\
    tally c db' = S (tally c db) /\
    In {| scr_id := id; scr_check_id := c; scr_student_id := u;
          scr_responded_at := now |} (session_check_responses db').
Proof.
  intros H0 Hp Hf. unfold insert_response.
  rewrite StoreFacts.policy_self, Hp, Hf.
  apply StoreFacts.key_free_rows in H0 as Hk. rewrite Hk. simpl.
  eexists; split; [reflexivity|]. repeat split.
  - unfold rows_for in *; simpl. rewrite filter_app, length_app, H0. simpl.
    unfold same_key; simpl. now rewrite !String.eqb_refl.
  - unfold tally, responses_of; simpl. rewrite filter_app, length_app. simpl.
    rewrite String.eqb_refl. simpl. lia.
  - simpl. apply in_or_app. right. now left.
Qed.

End GeofenceFacts.

(** C2, as amended.  For a session that requires location and whose
    classroom coordinates are both set and not zero, let the threshold [R]
    be the configured radius when one is set and not zero, and 150 m when no
    radius is set or the radius set is zero.  [confirmPresence] with
    computed distance [d]: when [d > R] it writes nothing, returns the page
    to [prompt] and reports "Location mismatch (Nm away)" where N is [d]
    rounded to the nearest metre; when [d <= R] (the boundary included) the
    re-check passes and the response goes to the store, which records the
    first response of the student to the check. *)
Theorem presence_recheck_threshold :
  forall (calc : LiveClass.Coordinates -> LiveClass.Coordinates -> JS.number)
         (s : LiveClass.Session) (la lo ulat ulon : JS.number) (R d : Q)
         (env : LiveClass.Env) (st : LiveClass.State)
         (a : LiveClass.ActiveCheck) (u : Store.uuid) (db : Store.DB),
    LiveClass.location_required s = true ->
    LiveClass.classroom_latitude s = Some la -> JS.truthy la = true ->
    LiveClass.classroom_longitude s = Some lo -> JS.truthy lo = true ->
    ((LiveClass.geofence_radius_meters s = Some (JS.Num R) /\ ~ R == 0) \/
     ((LiveClass.geofence_radius_meters s = None \/
       exists z, LiveClass.geofence_radius_meters s = Some (JS.Num z) /\ z == 0) /\
      R = 150%Q)) ->
    calc (LiveClass.mk_coordinates ulat ulon) (LiveClass.mk_coordinates la lo)
      = JS.Num d ->
    LiveClass.activeCheck st = Some a ->
    LiveClass.user st = Some u ->
    LiveClass.session st = Some s ->
    LiveClass.geo env = LiveClass.Fix (LiveClass.mk_coordinates ulat ulon) ->
    let out := LiveClass.confirmPresence calc env st db in
    ((R < d)%Q ->
       snd out = db /\
       LiveClass.checkStatus (fst out) = LiveClass.prompt /\
       LiveClass.toasts (fst out) =
         LiveClass.mk_toast "Location Check Failed"
           ("Location mismatch (" ++ JS.string_of_Z (Qfloor (d + (1 # 2))) ++ "m away)")
           true
         :: LiveClass.toasts st) /\
    ((d <= R)%Q ->
       LiveClass.location_recheck calc s (LiveClass.geo env) = None /\
       (LiveClass.online env = true ->
        Store.rows_for (LiveClass.check_id a) u db = 0%nat ->
        Store.responses_pkey_free (LiveClass.generated_id env) db = true ->
        Store.responses_fkeys_ok (LiveClass.check_id a) u db = true ->
        LiveClass.checkStatus (fst out) = LiveClass.verified /\
        Store.rows_for (LiveClass.check_id a) u (snd out) = 1%nat /\
        Store.tally (LiveClass.check_id a) (snd out)
          = S (Store.tally (LiveClass.check_id a) db))).
Proof.
  intros calc s la lo ulat ulon R d env st a u db
         Hreq Hla Tla Hlo Tlo HR Hd Ha Hu Hs Hg out.
  assert (Hthr : JS.or_default (LiveClass.geofence_radius_meters s) (JS.Num 150)
                 = JS.Num R).
  { destruct HR as [[Hr Hr0] | [[Hnone | (z & Hz & Hz0)] H150]].
    - rewrite Hr. now apply GeofenceFacts.or_default_configured.
    - rewrite Hnone, H150. apply GeofenceFacts.or_default_unset.
    - rewrite Hz, H150. now apply GeofenceFacts.or_default_zero. }
  assert (Hre : LiveClass.location_recheck calc s (LiveClass.geo env) =
                if JS.gt (JS.Num d) (JS.Num R)
                then Some (LiveClass.mismatch_message (JS.Num d)) else None).
  { rewrite Hg, (GeofenceFacts.location_recheck_armed calc s la lo ulat ulon)
      by assumption.
    cbv zeta. now rewrite Hd, Hthr. }
  split.
  - intro Hlt. apply GeofenceFacts.gt_Num in Hlt. rewrite Hlt in Hre.
    rewrite GeofenceFacts.mismatch_message_Num in Hre. subst out.
    rewrite (GeofenceFacts.confirmPresence_mismatch calc env st db a u s _ Ha Hu Hs Hre).
    split; [reflexivity | split; reflexivity].
  - intro Hle. apply GeofenceFacts.gt_Num_false in Hle. rewrite Hle in Hre.
    split; [exact Hre|].
    intros Ho H0 Hp Hf. subst out.
    rewrite (GeofenceFacts.confirmPresence_pass calc env st db a u s Ha Hu Hs Hre Ho).
    destruct (GeofenceFacts.insert_first_response u (LiveClass.check_id a)
                (LiveClass.generated_id env) (LiveClass.store_now env) db H0 Hp Hf)
      as (db' & -> & H1 & Ht & _).
    simpl. auto.
Qed.

(** C2 (amended).  At the lecture hall with its 100 m radius: 120 m away is
    refused and nothing is written, exactly 100 m away is verified.  At the
    hall whose radius is set to zero and at the hall without a radius the
    threshold is 150 m: 151 m away is refused, exactly 150 m away is
    verified. *)
Lemma presence_recheck_threshold_witness :
  (snd (LiveClass.confirmPresence (StudentSample.at_distance 120)
          (StudentSample.env_at 30000)
          (StudentSample.prompted StudentSample.lecture_hall) StudentSample.db0)
     = StudentSample.db0) /\
  (LiveClass.checkStatus
     (fst (LiveClass.confirmPresence (StudentSample.at_distance 100)
             (StudentSample.env_at 30000)
             (StudentSample.prompted StudentSample.lecture_hall) StudentSample.db0))
     = LiveClass.verified) /\
  (snd (LiveClass.confirmPresence (StudentSample.at_distance 151)
          (StudentSample.env_at 30000)
          (StudentSample.prompted StudentSample.zero_radius_hall) StudentSample.db0)
     = StudentSample.db0) /\
  (LiveClass.checkStatus
     (fst (LiveClass.confirmPresence (StudentSample.at_distance 150)
             (StudentSample.env_at 30000)
             (StudentSample.prompted StudentSample2.unset_radius_hall) StudentSample.db0))
     = LiveClass.verified).
Proof.
  split; [|split; [|split]].
  - refine (proj1 (proj1
      (presence_recheck_threshold (StudentSample.at_distance 120)
         StudentSample.lecture_hall _ _ _ _ 100 120 (StudentSample.env_at 30000)
         (StudentSample.prompted StudentSample.lecture_hall) _ _ StudentSample.db0
         eq_refl eq_refl eq_refl eq_refl eq_refl (or_introl (conj eq_refl _)) eq_refl
         eq_refl eq_refl eq_refl eq_refl) _)).
    + intro H; discriminate H.
    + reflexivity.
  - refine (proj1 (proj2 (proj2
      (presence_recheck_threshold (StudentSample.at_distance 100)
         StudentSample.lecture_hall _ _ _ _ 100 100 (StudentSample.env_at 30000)
         (StudentSample.prompted StudentSample.lecture_hall) _ _ StudentSample.db0
         eq_refl eq_refl eq_refl eq_refl eq_refl (or_introl (conj eq_refl _)) eq_refl
         eq_refl eq_refl eq_refl eq_refl) _) eq_refl eq_refl eq_refl eq_refl)).
    + intro H; discriminate H.
    + intro H; discriminate H.
  - refine (proj1 (proj1
      (presence_recheck_threshold (StudentSample.at_distance 151)
         StudentSample.zero_radius_hall _ _ _ _ 150 151 (StudentSample.env_at 30000)
         (StudentSample.prompted StudentSample.zero_radius_hall) _ _ StudentSample.db0
         eq_refl eq_refl eq_refl eq_refl eq_refl
         (or_intror (conj (or_intror (ex_intro _ 0%Q (conj eq_refl _))) eq_refl))
         eq_refl eq_refl eq_refl eq_refl eq_refl) _)).
    + reflexivity.
    + reflexivity.
  - refine (proj1 (proj2 (proj2
      (presence_recheck_threshold (StudentSample.at_distance 150)
         StudentSample2.unset_radius_hall _ _ _ _ 150 150 (StudentSample.env_at 30000)
         (StudentSample.prompted StudentSample2.unset_radius_hall) _ _ StudentSample.db0
         eq_refl eq_refl eq_refl eq_refl eq_refl
         (or_intror (conj (or_introl eq_refl) eq_refl))
         eq_refl eq_refl eq_refl eq_refl eq_refl) _) eq_refl eq_refl eq_refl eq_refl)).
    intro H; discriminate H.
Defined.

(** C2 as stated fails in two places.  With the radius configured as
    zero the re-check compares against 150 m, so a response from 100 m away
    (beyond the radius) is recorded.  With the classroom on the equator
    (latitude zero) the re-check is skipped, so a response from 5 km away is
    recorded although the radius is 100 m. *)
Lemma presence_recheck_threshold_counterexample :
  (let out := LiveClass.confirmPresence (StudentSample.at_distance 100)
                (StudentSample.env_at 30000)
                (StudentSample.prompted StudentSample.zero_radius_hall)
                StudentSample.db0 in
   LiveClass.location_required StudentSample.zero_radius_hall = true /\
   LiveClass.geofence_radius_meters StudentSample.zero_radius_hall = Some (JS.Num 0) /\
   (0 < 100)%Q /\
   LiveClass.checkStatus (fst out) = LiveClass.verified /\
   Store.rows_for "check-1" "student-1" (snd out) = 1%nat) /\
  (let out := LiveClass.confirmPresence (StudentSample.at_distance 5000)
                (StudentSample.env_at 30000)
                (StudentSample.prompted StudentSample.equator_hall)
                StudentSample.db0 in
   LiveClass.location_required StudentSample.equator_hall = true /\
   LiveClass.geofence_radius_meters StudentSample.equator_hall = Some (JS.Num 100) /\
   (100 < 5000)%Q /\
   LiveClass.checkStatus (fst out) = LiveClass.verified /\
   Store.rows_for "check-1" "student-1" (snd out) = 1%nat).
Proof. vm_compute. repeat split. Qed.

(** C4, at the lecture hall.  The configured radius is 100 m and the
    student stands 120 m away, inside the radius widened by half (150 m).
    [confirmPresence] compares against the configured 100 m: it refuses the
    response and writes nothing.  The 150 of the code is used only when no
    radius is configured. *)
Theorem recheck_applies_no_margin :
  let out := LiveClass.confirmPresence (StudentSample.at_distance 120)
               (StudentSample.env_at 30000)
               (StudentSample.prompted StudentSample.lecture_hall)
               StudentSample.db0 in
  LiveClass.geofence_radius_meters StudentSample.lecture_hall = Some (JS.Num 100) /\
  (120 <= 100 + 100 * (50 # 100))%Q /\
  JS.or_default (LiveClass.geofence_radius_meters StudentSample.lecture_hall) (JS.Num 150)
    = JS.Num 100 /\
  JS.or_default None (JS.Num 150) = JS.Num 150 /\
  snd out = StudentSample.db0 /\
  LiveClass.checkStatus (fst out) = LiveClass.prompt /\
  hd_error (LiveClass.toasts (fst out)) =
    Some (LiveClass.mk_toast "Location Check Failed"
            "Location mismatch (120m away)" true).
Proof. vm_compute. repeat split; discriminate. Qed.

(** ** Responses and the expiry of a check *)

Module ExpiryFacts.
Import JS Store LiveClass.

(** A tick that sees the countdown at zero drops the check. *)
Lemma tick_expired (now : Z) (st : State) (a : ActiveCheck) :
  checkStatus st = prompt -> activeCheck st = Some a ->
  expires_at a - now < 1000 ->
  checkStatus (tick now st) = idle /\ activeCheck (tick now st) = None.
Proof.
  intros Hs Ha Hlt. unfold tick. rewrite Hs, Ha.
  apply remaining_zero_iff in Hlt. rewrite Hlt. simpl. auto.
Qed.

(** Without a held check [confirmPresence] returns at its first line. *)
Lemma confirmPresence_without_check calc (env : Env) (st : State) (db : DB) :
  activeCheck st = None -> confirmPresence calc env st db = (st, db).
Proof. intro H. unfold confirmPresence. now rewrite H. Qed.

Lemma click_confirm_idle calc (env : Env) (st : State) (db : DB) :
  checkStatus st = idle -> click_confirm calc env st db = (st, db).
Proof. intro H. unfold click_confirm. now rewrite H. Qed.

(** The store changes only when the page ends [verified]. *)
Lemma confirmPresence_store calc (env : Env) (st : State) (db : DB) :
  snd (confirmPresence calc env st db) = db \/
  (checkStatus (fst (confirmPresence calc env st db)) = verified /\
   exists db', insert_response (user st) (generated_id env) (store_now env)
                 (match activeCheck st with Some a => check_id a | None => "" end)
                 (match user st with Some u => u | None => "" end) db
               = Committed db' /\ snd (confirmPresence calc env st db) = db').
Proof.
  unfold confirmPresence.
  destruct (activeCheck st) as [a|]; [|now left].
  destruct (user st) as [u|]; [|now left].
  destruct (session st) as [s|]; [|now left].
  destruct (location_recheck calc s (geo env)); [now left|].
  destruct (online env); [|now left].
  destruct (insert_response _ _ _ _ _ db) as [db'|e] eqn:E; [|now left].
  right. split; [reflexivity|]. exists db'. auto.
Qed.

End ExpiryFacts.

(** C3 as stated fails: a response that reaches the store after the
    expiry of the check is recorded.  The lecturer triggers [check-1] at
    time 0, so it expires at 60 s; the store creates the row at the same
    instant.  The page of [student-1] receives it at 0.2 s and ticks every
    second up to 58.2 s, when one second remains; the student, 20 m from the
    classroom, confirms, and the insert runs at 60.1 s.  The page ends
    [verified], the tally of the check in the store goes from 0 to 1, and
    the lecturer page, 59 ticks into its own countdown, counts the
    response. *)
Lemma late_response_counterexample :
  let started := ActiveSession.triggerPresenceCheck_on 0 0 "check-1"
                   LecturerSample.page StudentSample.db_open in
  let late := LiveClass.run (StudentSample.at_distance 20)
                (map (fun row => LiveClass.CheckInserted row 200)
                     (Store.session_checks (snd started))
                   ++ StudentSample.ticks 58
                   ++ [LiveClass.ConfirmClicked (StudentSample.env_at 60100)])%list
                (StudentSample.page StudentSample.lecture_hall, snd started) in
  Store.session_checks (snd started) = [StudentSample.check1] /\
  Store.sc_expires_at StudentSample.check1 < 60100 /\
  LiveClass.checkStatus (fst late) = LiveClass.verified /\
  Store.tally "check-1" (snd started) = 0%nat /\
  Store.tally "check-1" (snd late) = 1%nat /\
  Store.session_check_responses (snd late) =
    [Store.mk_response "response-1" "check-1" "student-1" 60100] /\
  ActiveSession.verifiedCount
    (ActiveSession.run
       (repeat ActiveSession.CheckTick 59
          ++ map ActiveSession.ResponseInserted
                 (Store.session_check_responses (snd late)))%list
       (fst started)) = 1.
Proof. vm_compute. repeat split. Qed.

(** C3, as amended.  Late responses are refused by the student page, not by
    the store.  (1) A timer tick that finds less than a second left before
    the expiry puts the page in [idle] without a check, and from there
    [confirmPresence] and the confirm button submit nothing: page and store
    are unchanged.  (2) While the page holds the check, a response with a
    valid location by a student who has not answered the check yet, whose
    request reaches the store and whose reply reaches the page, is recorded
    by the store with the time at which the insert runs, whatever that time
    is; the tally of the check grows by one and the page ends [verified].
    (3) A call that the location re-check refuses, a call whose request
    does not reach the store, and a call whose insert the store rejects
    leave the store, hence every tally, unchanged. *)
Theorem expiry_enforced_by_page :
  forall calc : LiveClass.Coordinates -> LiveClass.Coordinates -> JS.number,
    (forall now st a,
        LiveClass.checkStatus st = LiveClass.prompt ->
        LiveClass.activeCheck st = Some a ->
        LiveClass.expires_at a - now < 1000 ->
        let st' := LiveClass.tick now st in
        LiveClass.checkStatus st' = LiveClass.idle /\
        LiveClass.activeCheck st' = None /\
        forall env db,
          LiveClass.confirmPresence calc env st' db = (st', db) /\
          LiveClass.click_confirm calc env st' db = (st', db)) /\
    (forall env st db a u s,
        LiveClass.activeCheck st = Some a ->
        LiveClass.user st = Some u ->
        LiveClass.session st = Some s ->
        LiveClass.location_recheck calc s (LiveClass.geo env) = None ->
        LiveClass.online env = true ->
        Store.rows_for (LiveClass.check_id a) u db = 0%nat ->
        Store.responses_pkey_free (LiveClass.generated_id env) db = true ->
        Store.responses_fkeys_ok (LiveClass.check_id a) u db = true ->
        let out := LiveClass.confirmPresence calc env st db in
        LiveClass.checkStatus (fst out) = LiveClass.verified /\
        Store.tally (LiveClass.check_id a) (snd out)
          = S (Store.tally (LiveClass.check_id a) db) /\
        In (Store.mk_response (LiveClass.generated_id env) (LiveClass.check_id a) u
              (LiveClass.store_now env))
           (Store.session_check_responses (snd out))) /\
    (forall env st db a u s,
        LiveClass.activeCheck st = Some a ->
        LiveClass.user st = Some u ->
        LiveClass.session st = Some s ->
        (exists msg, LiveClass.location_recheck calc s (LiveClass.geo env) = Some msg) \/
        LiveClass.online env = false \/
        (exists e, Store.insert_response (Some u) (LiveClass.generated_id env)
                     (LiveClass.store_now env) (LiveClass.check_id a) u db
                   = Store.Rejected e) ->
        snd (LiveClass.confirmPresence calc env st db) = db /\
        forall c, Store.tally c (snd (LiveClass.confirmPresence calc env st db))
                  = Store.tally c db).
Proof.
  intro calc. split; [|split].
  - intros now st a Hs Ha Hlt st'.
    destruct (ExpiryFacts.tick_expired now st a Hs Ha Hlt) as [Hi Hn].
    split; [exact Hi|]. split; [exact Hn|]. intros env db. split.
    + now apply ExpiryFacts.confirmPresence_without_check.
    + now apply ExpiryFacts.click_confirm_idle.
  - intros env st db a u s Ha Hu Hs Hl Ho H0 Hp Hf out. subst out.
    rewrite (GeofenceFacts.confirmPresence_pass calc env st db a u s Ha Hu Hs Hl Ho).
    destruct (GeofenceFacts.insert_first_response u (LiveClass.check_id a)
                (LiveClass.generated_id env) (LiveClass.store_now env) db H0 Hp Hf)
      as (db' & -> & _ & Ht & Hin).
    simpl. auto.
  - intros env st db a u s Ha Hu Hs Hcause.
    assert (Hdb : snd (LiveClass.confirmPresence calc env st db) = db).
    { unfold LiveClass.confirmPresence. rewrite Ha, Hu, Hs.
      destruct Hcause as [(msg & Hl) | [Ho | (e & He)]].
      - now rewrite Hl.
      - destruct (LiveClass.location_recheck calc s (LiveClass.geo env));
          [reflexivity|]. now rewrite Ho.
      - destruct (LiveClass.location_recheck calc s (LiveClass.geo env));
          [reflexivity|].
        destruct (LiveClass.online env); [|reflexivity]. now rewrite He. }
    split; [exact Hdb|]. intro c. now rewrite Hdb.
Qed.

(** C3 (amended), on the sample page: the tick at 59.2 s closes the prompt
    and a later confirmation changes nothing; a confirmation while the
    check is held is recorded although the insert runs at 61 s; a
    confirmation whose request does not reach the store leaves the store as
    it was. *)
Lemma expiry_enforced_by_page_witness :
  (let st' := LiveClass.tick 59200 (StudentSample.prompted StudentSample.open_hall) in
   LiveClass.confirmPresence (StudentSample.at_distance 20)
     (StudentSample.env_at 59500) st' StudentSample.db0 = (st', StudentSample.db0)) /\
  Store.tally "check-1"
    (snd (LiveClass.confirmPresence (StudentSample.at_distance 20)
            (StudentSample.env_at 61000)
            (StudentSample.prompted StudentSample.open_hall) StudentSample.db0))
    = 1%nat /\
  snd (LiveClass.confirmPresence (StudentSample.at_distance 20)
         StudentSample2.env_offline
         (StudentSample.prompted StudentSample.open_hall) StudentSample.db0)
    = StudentSample.db0.
Proof.
  pose proof (expiry_enforced_by_page (StudentSample.at_distance 20)) as (H1 & H2 & H3).
  split; [|split].
  - refine (proj1 (proj2 (proj2
      (H1 59200 (StudentSample.prompted StudentSample.open_hall) _ eq_refl eq_refl eq_refl))
      (StudentSample.env_at 59500) StudentSample.db0)).
  - refine (proj1 (proj2
      (H2 (StudentSample.env_at 61000) (StudentSample.prompted StudentSample.open_hall)
          StudentSample.db0 _ _ _ eq_refl eq_refl eq_refl eq_refl eq_refl eq_refl
          eq_refl eq_refl))).
  - refine (proj1
      (H3 StudentSample2.env_offline (StudentSample.prompted StudentSample.open_hall)
          StudentSample.db0 _ _ _ eq_refl eq_refl eq_refl
          (or_intror (or_introl eq_refl)))).
Defined.

(** ** The lecturer's tally of a presence check *)

Module TallyFacts.
Import Store ActiveSession.

Lemma trigger_resets (c : uuid) (st : State) (sid u : uuid) :
  sessionId st = Some sid -> user st = Some u ->
  verifiedCount (triggerPresenceCheck (Some c) st) = 0 /\
  activeCheckId (triggerPresenceCheck (Some c) st) = Some c /\
  checkTimeLeft (triggerPresenceCheck (Some c) st) = durationSeconds /\
  mounted (triggerPresenceCheck (Some c) st) = mounted st.
Proof.
  intros Hs Hu. unfold triggerPresenceCheck. rewrite Hs, Hu. simpl. auto.
Qed.

Lemma step_shows_at_most (c : uuid) (e : Event) (st : State) :
  is_trigger e = false -> shows_at_most c st -> shows_at_most c (step e st).
Proof.
  intros He H. unfold shows_at_most in *.
  destruct e; simpl in *; try discriminate; unfold_handlers;
    break_match; simpl; intuition congruence.
Qed.

(** A response to another check does not reach the handler. *)
Lemma step_foreign (c : uuid) (e : Event) (st : State) :
  shows_at_most c st -> foreign_response c e = true -> step e st = st.
Proof.
  intros H He. destruct e; simpl in He; try discriminate.
  simpl. unfold on_response_insert.
  destruct (mounted st); [|reflexivity].
  destruct H as [-> | ->]; [|reflexivity].
  apply negb_true_iff in He. now rewrite He.
Qed.

Lemma run_without_foreign (c : uuid) (evs : list Event) :
  forall st, no_trigger evs -> shows_at_most c st ->
             run evs st = run (without_foreign c evs) st.
Proof.
  induction evs as [|e evs IH]; intros st Hn H; [reflexivity|].
  inversion Hn as [|? ? He Hn']; subst. simpl.
  destruct (foreign_response c e) eqn:Hf; simpl.
  - rewrite (step_foreign c e st H Hf). now apply IH.
  - apply IH; [assumption|]. now apply step_shows_at_most.
Qed.

(** One event adds at most one, and only if it is a response to [c]. *)
Lemma step_verifiedCount (c : uuid) (e : Event) (st : State) :
  is_trigger e = false -> shows_at_most c st ->
  verifiedCount st <= verifiedCount (step e st)
    <= verifiedCount st + (if own_response c e then 1 else 0).
Proof.
  intros He H. destruct e; simpl in *; try discriminate; unfold_handlers;
    try (break_match; simpl; lia).
  destruct (mounted st); [|destruct (String.eqb _ c); lia].
  destruct H as [-> | ->]; destruct (String.eqb _ c); simpl; lia.
Qed.

Lemma own_responses_cons (c : uuid) (e : Event) (evs : list Event) :
  own_responses c (e :: evs)
    = (if own_response c e then 1 else 0) + own_responses c evs.
Proof.
  unfold own_responses. cbn [filter].
  destruct (own_response c e); [|reflexivity].
  cbn [List.length]. rewrite Nat2Z.inj_succ. lia.
Qed.

Lemma run_verifiedCount_bounds (c : uuid) (evs : list Event) :
  forall st, no_trigger evs -> shows_at_most c st ->
             verifiedCount st <= verifiedCount (run evs st)
               <= verifiedCount st + own_responses c evs.
Proof.
  induction evs as [|e evs IH]; intros st Hn H; [unfold own_responses; simpl; lia|].
  inversion Hn as [|? ? He Hn']; subst.
  pose proof (step_verifiedCount c e st He H) as Hs.
  specialize (IH (step e st) Hn' (step_shows_at_most c e st He H)).
  rewrite own_responses_cons. change (run (e :: evs) st) with (run evs (step e st)).
  lia.
Qed.

(** A page that is live after an event was live before it. *)
Lemma step_live_back (c : uuid) (e : Event) (st : State) :
  is_trigger e = false -> live c (step e st) -> live c st.
Proof.
  unfold live. intros He.
  destruct e; simpl in *; try discriminate; unfold_handlers;
    break_match; simpl; intros [Hm Ha]; try (split; congruence).
Qed.

Lemma run_live_back (c : uuid) (evs : list Event) :
  forall st, no_trigger evs -> live c (run evs st) -> live c st.
Proof.
  induction evs as [|e evs IH]; intros st Hn H; [exact H|].
  inversion Hn as [|? ? He Hn']; subst. simpl in H.
  apply (step_live_back c e st He). now apply IH.
Qed.

(** On a live page every response to [c] adds exactly one. *)
Lemma step_live_verifiedCount (c : uuid) (e : Event) (st : State) :
  is_trigger e = false -> live c st ->
  verifiedCount (step e st)
    = verifiedCount st + (if own_response c e then 1 else 0).
Proof.
  intros He [Hm Ha]. destruct e; simpl in *; try discriminate; unfold_handlers;
    rewrite ?Hm, ?Ha; break_match; simpl; lia.
Qed.

Lemma run_live_verifiedCount (c : uuid) (evs : list Event) :
  forall st, no_trigger evs -> live c (run evs st) ->
             verifiedCount (run evs st) = verifiedCount st + own_responses c evs.
Proof.
  induction evs as [|e evs IH]; intros st Hn H; [unfold own_responses; simpl; lia|].
  inversion Hn as [|? ? He Hn']; subst.
  change (run (e :: evs) st) with (run evs (step e st)) in *.
  rewrite (IH (step e st) Hn' H), own_responses_cons.
  rewrite (step_live_verifiedCount c e st He (step_live_back c e st He
             (run_live_back c evs (step e st) Hn' H))).
  lia.
Qed.

End TallyFacts.

(** C9.  [triggerPresenceCheck] sets the verified counter to zero and
    makes the new check the one the page shows.  From then on, until the
    next trigger, responses to other checks never reach the counter: the
    page runs exactly as if they had not been delivered.  The counter never
    exceeds the number of delivered responses to the new check, and equals
    it as long as the page still shows the check. *)
Theorem check_tally_counts_own_responses :
  forall (c : Store.uuid) (st : ActiveSession.State) (sid u : Store.uuid),
    ActiveSession.sessionId st = Some sid ->
    ActiveSession.user st = Some u ->
    let st1 := ActiveSession.triggerPresenceCheck (Some c) st in
    ActiveSession.verifiedCount st1 = 0 /\
    ActiveSession.activeCheckId st1 = Some c /\
    forall evs,
      ActiveSession.no_trigger evs ->
      ActiveSession.run evs st1
        = ActiveSession.run (ActiveSession.without_foreign c evs) st1 /\
      0 <= ActiveSession.verifiedCount (ActiveSession.run evs st1)
        <= ActiveSession.own_responses c evs /\
      (ActiveSession.live c (ActiveSession.run evs st1) ->
       ActiveSession.verifiedCount (ActiveSession.run evs st1)
         = ActiveSession.own_responses c evs).
Proof.
  intros c st sid u Hs Hu st1.
  destruct (TallyFacts.trigger_resets c st sid u Hs Hu) as (H0 & Ha & _).
  fold st1 in H0, Ha.
  split; [exact H0|]. split; [exact Ha|].
  intros evs Hn.
  assert (Hshow : ActiveSession.shows_at_most c st1) by (now left).
  split; [|split].
  - now apply TallyFacts.run_without_foreign.
  - pose proof (TallyFacts.run_verifiedCount_bounds c evs st1 Hn Hshow). lia.
  - intro Hl. rewrite (TallyFacts.run_live_verifiedCount c evs st1 Hn Hl). lia.
Qed.

(** C9, on the page that had counted five responses to [check-0]: after
    [check-1] is triggered, one response to it and two late responses to
    [check-0] leave the counter at one. *)
Lemma check_tally_counts_own_responses_witness :
  ActiveSession.verifiedCount
    (ActiveSession.run
       [ ActiveSession.ResponseInserted LecturerSample.stale_response;
         ActiveSession.ResponseInserted LecturerSample.response1;
         ActiveSession.CheckTick;
         ActiveSession.ResponseInserted LecturerSample.stale_response ]
       (ActiveSession.triggerPresenceCheck (Some "check-1")
          LecturerSample.after_check0)) = 1.
Proof.
  refine (proj2 (proj2 (proj2 (proj2
    (check_tally_counts_own_responses "check-1" LecturerSample.after_check0
       "session-1" "lecturer-1" eq_refl eq_refl)) _ _)) _).
  - repeat constructor.
  - split; reflexivity.
Defined.

(** ** Folding realtime events *)

(** C8 as stated fails.  The attendance insert for [record-1] delivered
    twice leaves two entries in the feed where one delivery leaves one; the
    response [response-1] delivered twice leaves the tally at two. *)
Lemma duplicate_delivery_counterexample :
  let once := ActiveSession.on_attendance_insert LecturerSample.scan
                (Some LecturerSample.student1) LecturerSample.page in
  let twice := ActiveSession.on_attendance_insert LecturerSample.scan
                 (Some LecturerSample.student1) once in
  let shown := ActiveSession.triggerPresenceCheck (Some "check-1")
                 LecturerSample.page in
  let counted := ActiveSession.on_response_insert LecturerSample.response1 shown in
  let recounted := ActiveSession.on_response_insert LecturerSample.response1 counted in
  twice <> once /\
  List.length (ActiveSession.attendees once) = 1%nat /\
  List.length (ActiveSession.attendees twice) = 2%nat /\
  map ActiveSession.record_id (ActiveSession.attendees twice)
    = ["record-1"; "record-1"] /\
  recounted <> counted /\
  ActiveSession.verifiedCount counted = 1 /\
  ActiveSession.verifiedCount recounted = 2.
Proof. vm_compute. repeat split; discriminate. Qed.

(** C8, as amended.  The merge is a blind fold.  Every delivery of an
    attendance insert for the session puts one entry at the head of the
    feed, and every delivery of a response to the shown check adds one to
    the tally, whether or not the same record was delivered before: two
    deliveries of one event leave two equal entries at the head of the feed
    and a tally two higher. *)
Theorem realtime_merge_folds_every_delivery :
  (forall row profile st s sid,
      ActiveSession.mounted st = true ->
      ActiveSession.session st = Some s ->
      ActiveSession.sessionId st = Some sid ->
      ActiveSession.ar_session_id row = sid ->
      let entry := ActiveSession.mk_attendance
                     (ActiveSession.ar_id row) (ActiveSession.ar_scanned_at row)
                     (ActiveSession.ar_student_id row)
                     (match profile with
                      | Some p => p
                      | None => ActiveSession.mk_profile None "Unknown"
                      end) in
      let once := ActiveSession.on_attendance_insert row profile st in
      let twice := ActiveSession.on_attendance_insert row profile once in
      ActiveSession.attendees once = entry :: ActiveSession.attendees st /\
      ActiveSession.attendees twice = entry :: entry :: ActiveSession.attendees st) /\
  (forall row st c,
      ActiveSession.mounted st = true ->
      ActiveSession.activeCheckId st = Some c ->
      Store.scr_check_id row = c ->
      let once := ActiveSession.on_response_insert row st in
      let twice := ActiveSession.on_response_insert row once in
      ActiveSession.verifiedCount once = ActiveSession.verifiedCount st + 1 /\
      ActiveSession.verifiedCount twice = ActiveSession.verifiedCount st + 2).
Proof.
  split.
  - intros row profile st s sid Hm Hs Hi He entry once twice.
    assert (H1 : once = ActiveSession.emit
                   (ActiveSession.Toast "New Attendance"
                      (ActiveSession.display_name profile ++ " just checked in") false)
                   (ActiveSession.setAttendees (entry :: ActiveSession.attendees st) st)).
    { subst once entry. unfold ActiveSession.on_attendance_insert.
      rewrite Hm, Hs, Hi, He. now rewrite String.eqb_refl. }
    split; [now rewrite H1|].
    subst twice. unfold ActiveSession.on_attendance_insert.
    rewrite H1. simpl. rewrite Hm, Hs, Hi, He, String.eqb_refl. reflexivity.
  - intros row st c Hm Ha He once twice. subst once twice.
    unfold ActiveSession.on_response_insert.
    rewrite Hm, Ha, He, String.eqb_refl. simpl.
    rewrite Hm, Ha, String.eqb_refl. simpl. split; lia.
Qed.

(** C8 (amended), on the sample page: the scan [record-1] and the
    response [response-1], each delivered twice. *)
Lemma realtime_merge_folds_every_delivery_witness :
  map ActiveSession.record_id
    (ActiveSession.attendees
       (ActiveSession.on_attendance_insert LecturerSample.scan None
          (ActiveSession.on_attendance_insert LecturerSample.scan None
             LecturerSample.page)))
  = ["record-1"; "record-1"] /\
  ActiveSession.verifiedCount
    (ActiveSession.on_response_insert LecturerSample.response1
       (ActiveSession.on_response_insert LecturerSample.response1
          (ActiveSession.triggerPresenceCheck (Some "check-1") LecturerSample.page)))
  = 0 + 2.
Proof.
  split.
  - rewrite (proj2 (proj1 realtime_merge_folds_every_delivery LecturerSample.scan None
      LecturerSample.page LecturerSample.hour_session "session-1"
      eq_refl eq_refl eq_refl eq_refl)).
    reflexivity.
  - refine (proj2 (proj2 realtime_merge_folds_every_delivery LecturerSample.response1
      (ActiveSession.triggerPresenceCheck (Some "check-1") LecturerSample.page)
      "check-1" eq_refl eq_refl eq_refl)).
Defined.

(** ** Ending a session *)

Module EndFacts.
Import Store ActiveSession.

Lemma deactivate_idempotent (sid : uuid) (s : attendance_session) :
  deactivate sid (deactivate sid s) = deactivate sid s.
Proof.
  unfold deactivate. destruct (String.eqb (as_id s) sid) eqn:E; simpl; now rewrite E.
Qed.

Lemma deactivate_ended (sid : uuid) (s : attendance_session) :
  (as_id s = sid -> as_is_active s = false) -> deactivate sid s = s.
Proof.
  intro H. unfold deactivate. destruct (String.eqb (as_id s) sid) eqn:E; [|reflexivity].
  apply String.eqb_eq in E. specialize (H E). destruct s; simpl in *. now subst.
Qed.

Lemma update_idempotent (sid : uuid) (db : DB) :
  update_session_inactive sid (update_session_inactive sid db)
    = update_session_inactive sid db.
Proof.
  unfold update_session_inactive; simpl. f_equal.
  rewrite map_map. apply map_ext. intro s. apply deactivate_idempotent.
Qed.

Lemma update_ends (sid : uuid) (db : DB) :
  ended sid (update_session_inactive sid db).
Proof.
  intros row Hin Hid. simpl in Hin. apply in_map_iff in Hin as (s & <- & _).
  unfold deactivate in *. destruct (String.eqb (as_id s) sid) eqn:E; [reflexivity|].
  apply String.eqb_neq in E. contradiction.
Qed.

Lemma update_ended (sid : uuid) (db : DB) :
  ended sid db -> update_session_inactive sid db = db.
Proof.
  intro H. destruct db as [us ss cs rs]. unfold update_session_inactive; simpl.
  f_equal. unfold ended in H; simpl in H.
  induction ss as [|s ss IH]; simpl; [reflexivity|].
  rewrite deactivate_ended by (apply H; now left).
  f_equal. apply IH. intros row Hin. apply H. now right.
Qed.

Lemma update_iterated (sid : uuid) (db : DB) (n : nat) :
  Nat.iter (S n) (update_session_inactive sid) db = update_session_inactive sid db.
Proof.
  induction n as [|n IH]; [reflexivity|].
  change (Nat.iter (S (S n)) (update_session_inactive sid) db)
    with (update_session_inactive sid (Nat.iter (S n) (update_session_inactive sid) db)).
  rewrite IH. apply update_idempotent.
Qed.

(** What a successful [endSession] reports. *)
Lemma endSession_effects (st : State) (db : DB) (sid u : uuid) :
  sessionId st = Some sid -> user st = Some u ->
  endSession None st db =
  (endSession_resume None (List.length (attendees st)) (endSession_begin st),
   update_session_inactive sid db) /\
  effects (endSession_resume None (List.length (attendees st)) (endSession_begin st)) =
  (effects st ++
     [ UpdateSessionInactive sid;
       LogActivity u "session_ended"
         ("Ended attendance session for " ++ course_label st ++
          " with " ++ attendee_count (List.length (attendees st)) ++ " attendees") sid;
       Toast "Session Ended"
         ("Session closed with " ++ attendee_count (List.length (attendees st)) ++ " attendees") false;
       Navigate "/lecturer/classes" ])%list.
Proof.
  intros Hs Hu. unfold endSession, endSession_resume, endSession_begin.
  rewrite Hs, Hu. simpl. rewrite Hs, Hu. simpl. split; [reflexivity|].
  rewrite <- !app_assoc. reflexivity.
Qed.

End EndFacts.

(** The update that ends a session is idempotent on the rows.  Any number
    of end requests leaves the store as one request does, and after a
    request the session is Ended.  On a session that is already Ended a
    further request changes no row and the store returns no error, so
    [endSession] takes its success branch again: it logs the end, shows
    "Session Ended" and leaves the page as it does the first time. *)
Lemma end_request_idempotent_on_rows :
  forall (sid : Store.uuid) (db : Store.DB),
    (forall n, Nat.iter (S n) (Store.update_session_inactive sid) db
                 = Store.update_session_inactive sid db) /\
    Store.ended sid (Store.update_session_inactive sid db) /\
    (Store.ended sid db ->
       Store.update_session_inactive sid db = db /\
       forall st u,
         ActiveSession.sessionId st = Some sid ->
         ActiveSession.user st = Some u ->
         snd (ActiveSession.endSession None st db) = db /\
         ActiveSession.effects (fst (ActiveSession.endSession None st db)) =
         (ActiveSession.effects st ++
            [ ActiveSession.UpdateSessionInactive sid;
              ActiveSession.LogActivity u "session_ended"
                ("Ended attendance session for " ++ ActiveSession.course_label st ++
                 " with " ++ ActiveSession.attendee_count (List.length (ActiveSession.attendees st)) ++ " attendees") sid;
              ActiveSession.Toast "Session Ended"
                ("Session closed with " ++ ActiveSession.attendee_count (List.length (ActiveSession.attendees st)) ++ " attendees")
                false;
              ActiveSession.Navigate "/lecturer/classes" ])%list).
Proof.
  intros sid db. split; [|split].
  - intro n. apply EndFacts.update_iterated.
  - apply EndFacts.update_ends.
  - intro He. split; [now apply EndFacts.update_ended|].
    intros st u Hs Hu.
    destruct (EndFacts.endSession_effects st db sid u Hs Hu) as [-> Heff].
    simpl. split; [now apply EndFacts.update_ended | exact Heff].
Qed.

(** C7, on the page that [lecturer-1] opens for [session-1] after the
    session was ended: the store holds it as Ended and so does the page.
    The countdown, which tests [session.is_active] before it calls
    [endSession], reads zero and asks nothing of the store.  The "End
    Session Now" button calls [endSession], which has no such test: the
    session rows stay as they are and no error comes back, but the call
    sends the update, writes a second "session_ended" entry to the activity
    log, shows "Session Ended" and leaves the page.  A further end call on
    an Ended session is not a no-op. *)
Theorem ended_session_ended_again :
  let st := LecturerSample2.reopened in
  let db := LecturerSample.ended_db in
  let ticked := ActiveSession.session_tick 3700000 st in
  let out := ActiveSession.endSession None st db in
  Store.ended "session-1" db /\
  option_map ActiveSession.is_active (ActiveSession.session st) = Some false /\
  ActiveSession.timeLeft ticked = 0 /\
  ActiveSession.effects ticked = [] /\
  ActiveSession.end_signals ticked = 0%nat /\
  snd out = db /\
  ActiveSession.effects (fst out) =
    [ ActiveSession.UpdateSessionInactive "session-1";
      ActiveSession.LogActivity "lecturer-1" "session_ended"
        "Ended attendance session for CS101 - Programming with 0 attendees"
        "session-1";
      ActiveSession.Toast "Session Ended" "Session closed with 0 attendees" false;
      ActiveSession.Navigate "/lecturer/classes" ] /\
  ActiveSession.end_signals (fst out) = 1%nat /\
  ActiveSession.mounted (fst out) = false /\
  fst out <> st.
Proof.
  cbv zeta. split.
  - intros row Hin Hid. simpl in Hin.
    destruct Hin as [<- | [<- | []]]; [reflexivity | discriminate Hid].
  - vm_compute. repeat split. intro H. discriminate H.
Qed.

(** Every tick that reads zero on a session held as active sends the end
    request. *)
Lemma session_tick_signals (now : Z) (st : ActiveSession.State)
    (s : ActiveSession.Session) (sid u : Store.uuid) :
  ActiveSession.mounted st = true ->
  ActiveSession.session st = Some s ->
  ActiveSession.is_active s = true ->
  ActiveSession.sessionId st = Some sid ->
  ActiveSession.user st = Some u ->
  ActiveSession.end_time s - now < 1000 ->
  ActiveSession.end_signals (ActiveSession.session_tick now st)
    = S (ActiveSession.end_signals st) /\
  ActiveSession.session (ActiveSession.session_tick now st) = Some s /\
  ActiveSession.mounted (ActiveSession.session_tick now st) = true.
Proof.
  intros Hm Hs Ha Hi Hu Hlt. unfold ActiveSession.session_tick.
  rewrite Hm, Hs, Ha. apply remaining_zero_iff in Hlt. rewrite Hlt. simpl.
  unfold ActiveSession.endSession_begin. simpl. rewrite Hi, Hu.
  unfold ActiveSession.end_signals. simpl.
  rewrite filter_app, length_app. simpl. split; [lia | auto].
Qed.

(** The check interval of the lecturer page takes one off the counter,
    whatever the time. *)
Lemma check_tick_decrements (st : ActiveSession.State) (c : Store.uuid) :
  ActiveSession.mounted st = true ->
  ActiveSession.activeCheckId st = Some c ->
  1 < ActiveSession.checkTimeLeft st ->
  ActiveSession.checkTimeLeft (ActiveSession.check_tick st)
    = ActiveSession.checkTimeLeft st - 1.
Proof.
  intros Hm Ha Hlt. unfold ActiveSession.check_tick. rewrite Hm, Ha.
  destruct (ActiveSession.checkTimeLeft st <=? 1) eqn:E; [|reflexivity].
  apply Z.leb_le in E. lia.
Qed.

(** C6, at a session that ends at 3600 s.  The countdown reads zero at
    the tick at 3600 s and again at the tick at 3601 s; while the first
    update is still on its way, or after it failed, the second tick sends
    the end request again.  Only when the first request has succeeded before
    the next tick does the page leave and stay silent. *)
Theorem session_end_signalled_per_tick :
  ActiveSession.end_signals
    (ActiveSession.run
       [ActiveSession.SessionTick 3600000; ActiveSession.SessionTick 3601000]
       LecturerSample.page) = 2%nat /\
  ActiveSession.end_signals
    (ActiveSession.run
       [ActiveSession.SessionTick 3600000;
        ActiveSession.EndSessionSettled (Some "Failed to fetch") 0;
        ActiveSession.SessionTick 3601000;
        ActiveSession.EndSessionSettled (Some "Failed to fetch") 0;
        ActiveSession.SessionTick 3602000]
       LecturerSample.page) = 3%nat /\
  ActiveSession.end_signals
    (ActiveSession.run
       [ActiveSession.SessionTick 3600000;
        ActiveSession.EndSessionSettled None 0;
        ActiveSession.SessionTick 3601000]
       LecturerSample.page) = 1%nat.
Proof. vm_compute. repeat split. Qed.

(** C5, at a check triggered at time 0, which expires at 60 s.  The tab
    is suspended and the first tick of each interval fires at 30 s.  The
    lecturer's check clock takes one off its stored counter and shows 59;
    the wall clock leaves 30 s.  The student's check clock and the session
    clock, recomputed from the expiry, show what is left. *)
Theorem lecturer_check_clock_decrements :
  let shown := ActiveSession.triggerPresenceCheck (Some "check-1")
                 LecturerSample.page in
  ActiveSession.expiresAt 0 = Store.sc_expires_at StudentSample.check1 /\
  ActiveSession.checkTimeLeft shown = 60 /\
  ActiveSession.checkTimeLeft (ActiveSession.check_tick shown) = 59 /\
  remaining (ActiveSession.expiresAt 0) 30000 = 30 /\
  LiveClass.timeLeft
    (LiveClass.tick 30000 (StudentSample.prompted StudentSample.open_hall)) = 30 /\
  ActiveSession.timeLeft (ActiveSession.session_tick 30000 shown) = 3570.
Proof. vm_compute. repeat split. Qed.

(* ================================================================== *)
(** * Further properties of the pages and of the store *)

(** ** The clock expression *)

(** X1.  The remaining seconds never grow as the clock advances, and while the
    expiry is not behind they are the whole seconds that are left. *)
Theorem remaining_whole_seconds_left :
  forall end_ now1 now2 : Z,
    now1 <= now2 ->
    remaining end_ now2 <= remaining end_ now1 /\
    (now1 <= end_ ->
     1000 * remaining end_ now1 <= end_ - now1 < 1000 * remaining end_ now1 + 1000).
Proof.
  intros end_ now1 now2 Hle. rewrite !remaining_div. split.
  - assert ((end_ - now2) / 1000 <= (end_ - now1) / 1000)
      by (apply Z.div_le_mono; lia).
    lia.
  - intro Hend.
    assert (0 <= (end_ - now1) / 1000) by (apply Z.div_pos; lia).
    rewrite Z.max_r by assumption.
    pose proof (Z.mul_div_le (end_ - now1) 1000 ltac:(lia)).
    pose proof (Z.mul_succ_div_gt (end_ - now1) 1000 ltac:(lia)).
    lia.
Qed.

Lemma remaining_whole_seconds_left_witness :
  remaining 60000 30500 <= remaining 60000 1200 /\
  1000 * remaining 60000 1200 <= 60000 - 1200 < 1000 * remaining 60000 1200 + 1000.
Proof.
  pose proof (remaining_whole_seconds_left 60000 1200 30500) as H.
  destruct H as [H1 H2]; [discriminate|].
  split; [exact H1 | apply H2; discriminate].
Defined.

(** ** The student page *)

Module StudentPageFacts.
Import JS Store LiveClass StudentPage.

Lemma tick_idle (now : Z) (st : State) :
  checkStatus st = idle -> tick now st = st.
Proof. intro H. unfold tick. now rewrite H. Qed.

Lemma ticks_idle (nows : list Z) (st : State) :
  checkStatus st = idle -> fold_left (fun s now => tick now s) nows st = st.
Proof.
  intro H. induction nows as [|n nows IH]; simpl; [reflexivity|].
  now rewrite (tick_idle n st H).
Qed.

Section WithLocationUtils.
Variable calc : Coordinates -> Coordinates -> number.

(** The identity of the page does not change. *)
Lemma confirmPresence_identity (env : Env) (st : State) (db : DB) :
  user (fst (confirmPresence calc env st db)) = user st /\
  session (fst (confirmPresence calc env st db)) = session st /\
  sessionId (fst (confirmPresence calc env st db)) = sessionId st.
Proof. unfold confirmPresence. break_match; simpl; auto. Qed.

Lemma step_identity (e : Event) (c : State * DB) :
  user (fst (step calc e c)) = user (fst c) /\
  session (fst (step calc e c)) = session (fst c) /\
  sessionId (fst (step calc e c)) = sessionId (fst c).
Proof.
  destruct e; simpl.
  - unfold on_check_insert. break_match; simpl; auto.
  - unfold tick. break_match; simpl; auto.
  - unfold click_confirm. destruct (checkStatus (fst c)); simpl; auto.
    apply confirmPresence_identity.
  - auto.
Qed.

Lemma grows_refl (u : option uuid) (db : DB) : grows_by_own u db db.
Proof.
  repeat split. exists []. rewrite app_nil_r. split; [reflexivity|].
  destruct u; [constructor | reflexivity].
Qed.

Lemma grows_trans (u : option uuid) (db1 db2 db3 : DB) :
  grows_by_own u db1 db2 -> grows_by_own u db2 db3 -> grows_by_own u db1 db3.
Proof.
  intros (A1 & B1 & C1 & r1 & E1 & O1) (A2 & B2 & C2 & r2 & E2 & O2).
  repeat split; try congruence.
  exists (r1 ++ r2)%list. split.
  - rewrite E2, E1. now rewrite app_assoc.
  - destruct u; [now apply Forall_app | now subst].
Qed.

Lemma confirmPresence_grows (env : Env) (st : State) (db : DB) :
  grows_by_own (user st) db (snd (confirmPresence calc env st db)).
Proof.
  destruct (ExpiryFacts.confirmPresence_store calc env st db)
    as [-> | (_ & db' & Hins & ->)]; [apply grows_refl|].
  destruct (user st) as [u|] eqn:Hu; [|discriminate Hins].
  destruct (StoreFacts.insert_committed _ _ _ _ _ _ _ Hins) as (_ & Happ & Hc & Ha & Hs).
  repeat split; try assumption.
  eexists. split; [exact Happ|]. repeat constructor.
Qed.

Lemma step_grows (e : Event) (c : State * DB) :
  grows_by_own (user (fst c)) (snd c) (snd (step calc e c)).
Proof.
  destruct e; simpl; try apply grows_refl.
  unfold click_confirm. destruct (checkStatus (fst c)); simpl; try apply grows_refl.
  apply confirmPresence_grows.
Qed.

Lemma run_grows (evs : list Event) :
  forall c, grows_by_own (user (fst c)) (snd c) (snd (run calc evs c)).
Proof.
  induction evs as [|e evs IH]; intros c; simpl; [apply grows_refl|].
  apply (grows_trans _ _ (snd (step calc e c))); [apply step_grows|].
  rewrite <- (proj1 (step_identity e c)). apply IH.
Qed.

Lemma step_unique (e : Event) (c : State * DB) :
  unique_responses (snd c) -> unique_responses (snd (step calc e c)).
Proof.
  intro H. destruct e; simpl; auto.
  unfold click_confirm. destruct (checkStatus (fst c)); simpl; auto.
  destruct (ExpiryFacts.confirmPresence_store calc env (fst c) (snd c))
    as [-> | (_ & db' & Hins & ->)]; [assumption|].
  eapply StoreFacts.insert_preserves_unique; eassumption.
Qed.

Lemma run_unique (evs : list Event) :
  forall c, unique_responses (snd c) -> unique_responses (snd (run calc evs c)).
Proof.
  induction evs as [|e evs IH]; intros c H; simpl; [exact H|].
  apply IH. now apply step_unique.
Qed.

End WithLocationUtils.

End StudentPageFacts.

(** X3.  A check that runs out is reported once: the tick that finds less than
    a second left shows "Check Missed", sets the clock to zero, drops the
    check and closes the overlay, which stops the countdown, so that later
    ticks change nothing. *)
Theorem missed_check_reported_once :
  forall (now : Z) (st : LiveClass.State) (a : LiveClass.ActiveCheck)
         (later : list Z),
    LiveClass.checkStatus st = LiveClass.prompt ->
    LiveClass.activeCheck st = Some a ->
    LiveClass.expires_at a - now < 1000 ->
    let st' := LiveClass.tick now st in
    LiveClass.toasts st' = LiveClass.check_missed :: LiveClass.toasts st /\
    LiveClass.timeLeft st' = 0 /\
    LiveClass.activeCheck st' = None /\
    LiveClass.checkStatus st' = LiveClass.idle /\
    fold_left (fun s t => LiveClass.tick t s) later st' = st'.
Proof.
  intros now st a later Hs Ha Hlt st'.
  destruct (ExpiryFacts.tick_expired now st a Hs Ha Hlt) as [Hi Hn].
  apply remaining_zero_iff in Hlt.
  assert (E : st' = LiveClass.toast LiveClass.check_missed
                      (LiveClass.setActiveCheck None
                         (LiveClass.setCheckStatus LiveClass.idle
                            (LiveClass.setTimeLeft 0 st)))).
  { subst st'. unfold LiveClass.tick. rewrite Hs, Ha, Hlt. reflexivity. }
  split; [now rewrite E|]. split; [now rewrite E|].
  split; [exact Hn|]. split; [exact Hi|].
  now apply StudentPageFacts.ticks_idle.
Qed.

(** X3, on the sample page: the tick at 59.2 s drops [check-1], and the
    ticks at 60.2 s, 61.2 s and 62.2 s leave the page as it is. *)
Lemma missed_check_reported_once_witness :
  LiveClass.activeCheck
    (LiveClass.tick 59200 (StudentSample.prompted StudentSample.open_hall)) = None /\
  fold_left (fun s t => LiveClass.tick t s) [60200; 61200; 62200]
    (LiveClass.tick 59200 (StudentSample.prompted StudentSample.open_hall))
  = LiveClass.tick 59200 (StudentSample.prompted StudentSample.open_hall).
Proof.
  pose proof (missed_check_reported_once 59200
    (StudentSample.prompted StudentSample.open_hall) _ [60200; 61200; 62200]
    eq_refl eq_refl eq_refl) as H.
  split.
  - exact (proj1 (proj2 (proj2 H))).
  - exact (proj2 (proj2 (proj2 (proj2 H)))).
Defined.

(** ** [confirmPresence] and what reaches the page while it waits *)

Module AsyncFacts.
Import JS Store LiveClass LiveClassAsync.

(** A re-check that is not armed lets every position through. *)
Lemma unarmed_recheck calc (s : Session) (g : geolocation) :
  recheck_armed s = false -> location_recheck calc s g = None.
Proof.
  unfold recheck_armed, location_recheck. intro H.
  destruct (location_required s); [|reflexivity].
  destruct (classroom_latitude s) as [la|]; [|reflexivity].
  destruct (classroom_longitude s) as [lo|]; [|reflexivity].
  now rewrite H.
Qed.

(** The insert of a call whose round trip is the one of [env]. *)
Lemma settle_alone (env : Env) (st : State) (t : nat) (db : DB)
    (a : ActiveCheck) (u : uuid) (s : Session) :
  confirmPresence_settled 0 (net_of env)
    ({| state := st; calls := [(mk_call a u s, AwaitInsert)]; timeouts := t |}, db) =
  if online env then
    match insert_response (Some u) (generated_id env) (store_now env)
                          (check_id a) u db with
    | Committed db' =>
        ({| state := toast verified_toast (setCheckStatus verified st);
            calls := []; timeouts := S t |}, db')
    | Rejected _ =>
        ({| state := setCheckStatus prompt (toast error_toast st);
            calls := []; timeouts := t |}, db)
    end
  else ({| state := setCheckStatus prompt (toast error_toast st);
           calls := []; timeouts := t |}, db).
Proof.
  unfold confirmPresence_settled, store_insert, insert_error, net_of. simpl.
  destruct (online env); [|reflexivity].
  now destruct (insert_response _ _ _ _ _ db).
Qed.

(** A call that settles after the timer dropped the check. *)
Lemma settled_status (n : nat) (net : Net) (p : Page) (db : DB) (c : Call) :
  nth_error (calls p) n = Some (c, AwaitInsert) ->
  activeCheck (state (fst (confirmPresence_settled n net (p, db))))
    = activeCheck (state p) /\
  (checkStatus (state (fst (confirmPresence_settled n net (p, db)))) = prompt \/
   checkStatus (state (fst (confirmPresence_settled n net (p, db)))) = verified).
Proof.
  intro H. unfold confirmPresence_settled. simpl. rewrite H.
  destruct (store_insert net c db) as [db' committed].
  destruct (insert_error net committed); simpl; auto.
Qed.

Lemma timeout_drops (p : Page) :
  (0 < timeouts p)%nat ->
  activeCheck (state (timeout_fires p)) = None /\
  calls (timeout_fires p) = calls p.
Proof.
  unfold timeout_fires. destruct (timeouts p); [lia|]. simpl. auto.
Qed.

End AsyncFacts.

(** X4.  [confirmPresence] waits twice, for the position and for the store.
    (1) A call that nothing overtakes and whose reply comes back does what
    the one-step [confirmPresence] does, to the page and to the store, and
    leaves no call behind.  (2) When the 3 s timeout of an earlier verified
    response fires while a call waits, the call still ends: after the
    insert settles the overlay is open, on [prompt] or on [verified], with
    no check in hand, and after a refused position it is open on [prompt]
    with no check in hand.  (3) On [prompt] with no check in hand neither
    the countdown nor the button changes the page. *)
Theorem overtaken_call_leaves_overlay_open :
  forall calc : LiveClass.Coordinates -> LiveClass.Coordinates -> JS.number,
    (forall env st db t,
        let out := LiveClassAsync.run calc
                     [ LiveClassAsync.Click;
                       LiveClassAsync.Located 0 (LiveClass.geo env);
                       LiveClassAsync.Settled 0 (LiveClassAsync.net_of env) ]
                     (LiveClassAsync.mk_page st [] t, db) in
        LiveClassAsync.state (fst out) = fst (LiveClass.click_confirm calc env st db) /\
        snd out = snd (LiveClass.click_confirm calc env st db) /\
        LiveClassAsync.calls (fst out) = []) /\
    (forall p db n call net,
        nth_error (LiveClassAsync.calls p) n = Some (call, LiveClassAsync.AwaitInsert) ->
        (0 < LiveClassAsync.timeouts p)%nat ->
        let out := LiveClassAsync.run calc
                     [LiveClassAsync.TimerFired; LiveClassAsync.Settled n net] (p, db) in
        LiveClass.activeCheck (LiveClassAsync.state (fst out)) = None /\
        (LiveClass.checkStatus (LiveClassAsync.state (fst out)) = LiveClass.prompt \/
         LiveClass.checkStatus (LiveClassAsync.state (fst out)) = LiveClass.verified)) /\
    (forall p db n call g msg,
        nth_error (LiveClassAsync.calls p) n = Some (call, LiveClassAsync.AwaitLocation) ->
        LiveClass.location_recheck calc (LiveClassAsync.call_session call) g = Some msg ->
        (0 < LiveClassAsync.timeouts p)%nat ->
        let out := LiveClassAsync.run calc
                     [LiveClassAsync.TimerFired; LiveClassAsync.Located n g] (p, db) in
        LiveClass.activeCheck (LiveClassAsync.state (fst out)) = None /\
        LiveClass.checkStatus (LiveClassAsync.state (fst out)) = LiveClass.prompt /\
        snd out = db) /\
    (forall p db now,
        LiveClass.checkStatus (LiveClassAsync.state p) = LiveClass.prompt ->
        LiveClass.activeCheck (LiveClassAsync.state p) = None ->
        LiveClassAsync.step calc (LiveClassAsync.Clock now) (p, db) = (p, db) /\
        LiveClassAsync.step calc LiveClassAsync.Click (p, db) = (p, db)).
Proof.
  intro calc. split; [|split; [|split]].
  - intros env st db t out. subst out.
    unfold LiveClassAsync.run. cbn [fold_left LiveClassAsync.step fst snd].
    unfold LiveClassAsync.click, LiveClass.click_confirm.
    cbn [LiveClassAsync.state].
    destruct (LiveClass.checkStatus st) eqn:Est;
      try (cbn; auto; fail).
    unfold LiveClassAsync.confirmPresence_begin, LiveClass.confirmPresence.
    cbn [LiveClassAsync.state LiveClassAsync.calls LiveClassAsync.timeouts].
    destruct (LiveClass.activeCheck st) as [a|]; [|cbn; auto].
    destruct (LiveClass.user st) as [u|]; [|cbn; auto].
    destruct (LiveClass.session st) as [s|]; [|cbn; auto].
    cbn [app].
    destruct (LiveClassAsync.recheck_armed s) eqn:Earm.
    + unfold LiveClassAsync.confirmPresence_located.
      cbn [LiveClassAsync.calls nth_error LiveClassAsync.call_session
           LiveClassAsync.state LiveClassAsync.timeouts].
      destruct (LiveClass.location_recheck calc s (LiveClass.geo env)) as [msg|].
      * cbn. auto.
      * cbn [LiveClassAsync.with_nth]. rewrite AsyncFacts.settle_alone.
        destruct (LiveClass.online env); [|cbn; auto].
        destruct (Store.insert_response _ _ _ _ _ db); cbn; auto.
    + rewrite (AsyncFacts.unarmed_recheck calc s (LiveClass.geo env) Earm).
      unfold LiveClassAsync.confirmPresence_located.
      cbn [LiveClassAsync.calls nth_error].
      rewrite AsyncFacts.settle_alone.
      destruct (LiveClass.online env); [|cbn; auto].
      destruct (Store.insert_response _ _ _ _ _ db); cbn; auto.
  - intros p db n call net Hn Ht out. subst out.
    unfold LiveClassAsync.run. cbn [fold_left LiveClassAsync.step fst snd].
    destruct (AsyncFacts.timeout_drops p Ht) as [Hnone Hcalls].
    rewrite <- Hcalls in Hn.
    destruct (AsyncFacts.settled_status n net (LiveClassAsync.timeout_fires p) db call Hn)
      as [Ha Hs].
    split; [now rewrite Ha | exact Hs].
  - intros p db n call g msg Hn Hl Ht out. subst out.
    unfold LiveClassAsync.run. cbn [fold_left LiveClassAsync.step fst snd].
    destruct (AsyncFacts.timeout_drops p Ht) as [Hnone Hcalls].
    rewrite <- Hcalls in Hn.
    unfold LiveClassAsync.confirmPresence_located. rewrite Hn, Hl.
    cbn. auto.
  - intros p db now Hs Ha. destruct p as [st cs t]. cbn in Hs, Ha.
    unfold LiveClassAsync.step, LiveClassAsync.on_state, LiveClassAsync.click,
           LiveClassAsync.confirmPresence_begin, LiveClass.tick.
    cbn [fst snd LiveClassAsync.state LiveClassAsync.calls LiveClassAsync.timeouts].
    now rewrite Hs, Ha.
Qed.

(** X4, on the sample page.  The call for [check-2] is overtaken by the
    timeout of [check-1]: when its insert settles, the overlay is open with
    no check in hand; on the hall with geofencing, a refused position leaves
    the prompt open with no check in hand. *)
Lemma overtaken_call_leaves_overlay_open_witness :
  LiveClass.activeCheck
    (LiveClassAsync.state
       (fst (LiveClassAsync.run (StudentSample.at_distance 20)
               [ LiveClassAsync.TimerFired;
                 LiveClassAsync.Settled 0 (StudentSample2.net_at 62500 "response-2") ]
               (StudentSample2.second_call StudentSample.open_hall)))) = None /\
  LiveClass.checkStatus
    (LiveClassAsync.state
       (fst (LiveClassAsync.run (StudentSample.at_distance 20)
               [ LiveClassAsync.TimerFired;
                 LiveClassAsync.Located 0 (LiveClass.Failed "Timeout expired") ]
               (StudentSample2.second_call StudentSample.lecture_hall))))
    = LiveClass.prompt.
Proof.
  pose proof (overtaken_call_leaves_overlay_open (StudentSample.at_distance 20))
    as (_ & H2 & H3 & _).
  split.
  - refine (proj1 (H2 (fst (StudentSample2.second_call StudentSample.open_hall))
                      (snd (StudentSample2.second_call StudentSample.open_hall))
                      0%nat _ (StudentSample2.net_at 62500 "response-2") eq_refl _)).
    apply le_n.
  - refine (proj1 (proj2
             (H3 (fst (StudentSample2.second_call StudentSample.lecture_hall))
                 (snd (StudentSample2.second_call StudentSample.lecture_hall))
                 0%nat _ (LiveClass.Failed "Timeout expired") _ eq_refl eq_refl _))).
    apply le_n.
Defined.

(** X25.  A reply that is lost hides a recorded response.  When the insert
    of a call reaches the store and the reply does not come back, the first
    response of the student to the check is recorded and counted, while the
    page shows "Failed to confirm presence. Try again." and returns to
    [prompt].  Trying again cannot succeed: the insert of any later call of
    the student for the check that settles on this store is refused, the
    store stays as it is and the page shows the error again. *)
Theorem lost_reply_hides_recorded_response :
  forall (p : LiveClassAsync.Page) (db : Store.DB) (n : nat)
         (call : LiveClassAsync.Call) (net : LiveClassAsync.Net),
    nth_error (LiveClassAsync.calls p) n = Some (call, LiveClassAsync.AwaitInsert) ->
    LiveClassAsync.request_arrives net = true ->
    LiveClassAsync.reply_arrives net = false ->
    Store.rows_for (LiveClass.check_id (LiveClassAsync.call_check call))
                   (LiveClassAsync.call_user call) db = 0%nat ->
    Store.responses_pkey_free (LiveClassAsync.net_id net) db = true ->
    Store.responses_fkeys_ok (LiveClass.check_id (LiveClassAsync.call_check call))
                             (LiveClassAsync.call_user call) db = true ->
    let out := LiveClassAsync.confirmPresence_settled n net (p, db) in
    Store.tally (LiveClass.check_id (LiveClassAsync.call_check call)) (snd out)
      = S (Store.tally (LiveClass.check_id (LiveClassAsync.call_check call)) db) /\
    In (Store.mk_response (LiveClassAsync.net_id net)
          (LiveClass.check_id (LiveClassAsync.call_check call))
          (LiveClassAsync.call_user call) (LiveClassAsync.net_now net))
       (Store.session_check_responses (snd out)) /\
    LiveClass.checkStatus (LiveClassAsync.state (fst out)) = LiveClass.prompt /\
    LiveClass.toasts (LiveClassAsync.state (fst out))
      = LiveClass.error_toast :: LiveClass.toasts (LiveClassAsync.state p) /\
    (forall q m again net',
        nth_error (LiveClassAsync.calls q) m = Some (again, LiveClassAsync.AwaitInsert) ->
        LiveClass.check_id (LiveClassAsync.call_check again)
          = LiveClass.check_id (LiveClassAsync.call_check call) ->
        LiveClassAsync.call_user again = LiveClassAsync.call_user call ->
        let retry := LiveClassAsync.confirmPresence_settled m net' (q, snd out) in
        snd retry = snd out /\
        LiveClass.checkStatus (LiveClassAsync.state (fst retry)) = LiveClass.prompt /\
        LiveClass.toasts (LiveClassAsync.state (fst retry))
          = LiveClass.error_toast :: LiveClass.toasts (LiveClassAsync.state q)).
Proof.
  intros p db n call net Hn Hreq Hrep H0 Hp Hf out.
  destruct (GeofenceFacts.insert_first_response (LiveClassAsync.call_user call)
              (LiveClass.check_id (LiveClassAsync.call_check call))
              (LiveClassAsync.net_id net) (LiveClassAsync.net_now net) db H0 Hp Hf)
    as (db' & Hins & H1 & Ht & Hin).
  assert (E : out =
              ({| LiveClassAsync.state :=
                    LiveClass.setCheckStatus LiveClass.prompt
                      (LiveClass.toast LiveClass.error_toast (LiveClassAsync.state p));
                  LiveClassAsync.calls :=
                    LiveClassAsync.without_nth n (LiveClassAsync.calls p);
                  LiveClassAsync.timeouts := LiveClassAsync.timeouts p |}, db')).
  { subst out. unfold LiveClassAsync.confirmPresence_settled. cbn [fst snd].
    rewrite Hn. unfold LiveClassAsync.store_insert, LiveClassAsync.insert_error.
    now rewrite Hreq, Hins, Hrep. }
  rewrite E. cbn [fst snd LiveClassAsync.state].
  split; [exact Ht|]. split; [exact Hin|]. split; [reflexivity|]. split; [reflexivity|].
  intros q m again net' Hm Hc Hu.
  unfold LiveClassAsync.confirmPresence_settled. cbn [fst snd]. rewrite Hm.
  unfold LiveClassAsync.store_insert, LiveClassAsync.insert_error.
  rewrite Hc, Hu.
  destruct (LiveClassAsync.request_arrives net'); [|cbn; auto].
  rewrite StoreFacts.insert_duplicate by (rewrite H1; discriminate).
  cbn. auto.
Qed.

(** X25, on the sample page: the insert of [student-1] for [check-1] runs at
    30 s and the reply is lost; the tally of [check-1] is 1 and the page is
    back on [prompt]. *)
Lemma lost_reply_hides_recorded_response_witness :
  Store.tally "check-1"
    (snd (LiveClassAsync.confirmPresence_settled 0
            (StudentSample2.net_lost_reply 30000 "response-1")
            StudentSample2.first_call)) = 1%nat /\
  LiveClass.checkStatus
    (LiveClassAsync.state
       (fst (LiveClassAsync.confirmPresence_settled 0
               (StudentSample2.net_lost_reply 30000 "response-1")
               StudentSample2.first_call))) = LiveClass.prompt.
Proof.
  pose proof (lost_reply_hides_recorded_response
                (fst StudentSample2.first_call) (snd StudentSample2.first_call) 0%nat _
                (StudentSample2.net_lost_reply 30000 "response-1")
                eq_refl eq_refl eq_refl eq_refl eq_refl eq_refl) as H.
  split.
  - exact (proj1 H).
  - exact (proj1 (proj2 (proj2 H))).
Defined.

(** X5.  Through any run of the student page the store changes only by
    responses of the signed-in student appended to
    [session_check_responses]: users, sessions and checks are untouched, no
    existing response is changed or removed, and a table with one response
    per check and student stays so. *)
Theorem student_page_appends_own_responses :
  forall (calc : LiveClass.Coordinates -> LiveClass.Coordinates -> JS.number)
         (evs : list LiveClass.Event) (st : LiveClass.State) (db : Store.DB),
    let db' := snd (LiveClass.run calc evs (st, db)) in
    StudentPage.grows_by_own (LiveClass.user st) db db' /\
    (Store.unique_responses db -> Store.unique_responses db').
Proof.
  intros calc evs st db db'. split.
  - exact (StudentPageFacts.run_grows calc evs (st, db)).
  - intro H. exact (StudentPageFacts.run_unique calc evs (st, db) H).
Qed.

Lemma student_page_appends_own_responses_witness :
  Store.unique_responses
    (snd (LiveClass.run (StudentSample.at_distance 20)
            [LiveClass.CheckInserted StudentSample.check1 200;
             LiveClass.ConfirmClicked (StudentSample.env_at 6000)]
            (StudentSample.page StudentSample.lecture_hall, StudentSample.db1))).
Proof.
  refine (proj2 (student_page_appends_own_responses (StudentSample.at_distance 20) _
    (StudentSample.page StudentSample.lecture_hall) StudentSample.db1) _).
  intros C T. unfold Store.rows_for. simpl.
  destruct (Store.same_key C T _); simpl; lia.
Defined.

(** X6.  A confirmation whose insert fails leaves no trace in the store: when
    the request does not reach the store, or the student has already
    answered the check (the store answers with the unique violation), the
    page shows "Failed to confirm presence. Try again." and returns to the
    prompt. *)
Theorem failed_insert_returns_to_prompt :
  forall (calc : LiveClass.Coordinates -> LiveClass.Coordinates -> JS.number)
         (env : LiveClass.Env) (st : LiveClass.State) (db : Store.DB)
         (a : LiveClass.ActiveCheck) (u : Store.uuid) (s : LiveClass.Session),
    LiveClass.activeCheck st = Some a ->
    LiveClass.user st = Some u ->
    LiveClass.session st = Some s ->
    LiveClass.location_recheck calc s (LiveClass.geo env) = None ->
    LiveClass.online env = false \/ Store.rows_for (LiveClass.check_id a) u db <> 0%nat ->
    LiveClass.confirmPresence calc env st db =
    (LiveClass.setCheckStatus LiveClass.prompt
       (LiveClass.toast LiveClass.error_toast
          (LiveClass.setCheckStatus LiveClass.verifying st)), db).
Proof.
  intros calc env st db a u s Ha Hu Hs Hl Hfail.
  unfold LiveClass.confirmPresence. rewrite Ha, Hu, Hs. cbv zeta. rewrite Hl.
  destruct (LiveClass.online env); [|reflexivity].
  destruct Hfail as [Hoff|Hrow]; [discriminate|].
  rewrite (StoreFacts.insert_duplicate _ _ _ _ _ _ Hrow). reflexivity.
Qed.

Lemma failed_insert_returns_to_prompt_witness :
  snd (LiveClass.confirmPresence (StudentSample.at_distance 20)
         (StudentSample.env_at 30000)
         (StudentSample.prompted StudentSample.lecture_hall)
         StudentSample2.db_answered) = StudentSample2.db_answered /\
  LiveClass.checkStatus
    (fst (LiveClass.confirmPresence (StudentSample.at_distance 20)
            StudentSample2.env_offline
            (StudentSample.prompted StudentSample.lecture_hall)
            StudentSample.db0)) = LiveClass.prompt.
Proof.
  split.
  - rewrite (failed_insert_returns_to_prompt (StudentSample.at_distance 20)
      (StudentSample.env_at 30000) (StudentSample.prompted StudentSample.lecture_hall)
      StudentSample2.db_answered _ "student-1" StudentSample.lecture_hall
      eq_refl eq_refl eq_refl eq_refl).
    + reflexivity.
    + right. discriminate.
  - rewrite (failed_insert_returns_to_prompt (StudentSample.at_distance 20)
      StudentSample2.env_offline (StudentSample.prompted StudentSample.lecture_hall)
      StudentSample.db0 _ "student-1" StudentSample.lecture_hall
      eq_refl eq_refl eq_refl eq_refl).
    + reflexivity.
    + left. reflexivity.
Defined.

(** X7.  A session that does not require location, or that lacks a classroom
    coordinate, never consults the position: the re-check passes for every
    answer of the device, a failure included, and the outcome of
    [confirmPresence] does not depend on it. *)
Theorem open_session_ignores_position :
  forall (calc : LiveClass.Coordinates -> LiveClass.Coordinates -> JS.number)
         (s : LiveClass.Session),
    LiveClass.location_required s = false \/
    LiveClass.classroom_latitude s = None \/
    LiveClass.classroom_longitude s = None ->
    (forall g, LiveClass.location_recheck calc s g = None) /\
    (forall st db g g' on id t,
        LiveClass.session st = Some s ->
        LiveClass.confirmPresence calc (LiveClass.mk_env g on id t) st db =
        LiveClass.confirmPresence calc (LiveClass.mk_env g' on id t) st db).
Proof.
  intros calc s H.
  assert (Hre : forall g, LiveClass.location_recheck calc s g = None).
  { intro g. unfold LiveClass.location_recheck.
    destruct H as [-> | [-> | ->]]; [reflexivity | |].
    - now destruct (LiveClass.location_required s).
    - destruct (LiveClass.location_required s); [|reflexivity].
      now destruct (LiveClass.classroom_latitude s). }
  split; [exact Hre|].
  intros st db g g' on id t Hs. unfold LiveClass.confirmPresence.
  rewrite Hs. simpl. now rewrite !Hre.
Qed.

Lemma open_session_ignores_position_witness :
  LiveClass.checkStatus
    (fst (LiveClass.confirmPresence StudentSample2.no_distance
            StudentSample2.env_denied
            (StudentSample.prompted StudentSample.open_hall) StudentSample.db0))
  = LiveClass.verified.
Proof.
  unfold StudentSample2.env_denied.
  rewrite (proj2 (open_session_ignores_position StudentSample2.no_distance
    StudentSample.open_hall (or_introl eq_refl))
    (StudentSample.prompted StudentSample.open_hall) StudentSample.db0
    (LiveClass.Failed "User denied Geolocation") (LiveClass.Fix StudentSample.here)
    true "response-1" 30000 eq_refl).
  reflexivity.
Defined.

(** X8.  When the re-check runs and the device gives no position, nothing is
    written and the page returns to the prompt with the toast "Location
    Check Failed"; its text is the message of the error, or "Could not
    verify location." when the error has no message. *)
Theorem position_failure_blocks_response :
  forall (calc : LiveClass.Coordinates -> LiveClass.Coordinates -> JS.number)
         (env : LiveClass.Env) (st : LiveClass.State) (db : Store.DB)
         (a : LiveClass.ActiveCheck) (u : Store.uuid) (s : LiveClass.Session)
         (la lo : JS.number) (message : string),
    LiveClass.activeCheck st = Some a ->
    LiveClass.user st = Some u ->
    LiveClass.session st = Some s ->
    LiveClass.location_required s = true ->
    LiveClass.classroom_latitude s = Some la -> JS.truthy la = true ->
    LiveClass.classroom_longitude s = Some lo -> JS.truthy lo = true ->
    LiveClass.geo env = LiveClass.Failed message ->
    let out := LiveClass.confirmPresence calc env st db in
    snd out = db /\
    LiveClass.checkStatus (fst out) = LiveClass.prompt /\
    LiveClass.toasts (fst out) =
      LiveClass.mk_toast "Location Check Failed"
        (if String.eqb message "" then "Could not verify location." else message)
        true
      :: LiveClass.toasts st.
Proof.
  intros calc env st db a u s la lo message Ha Hu Hs Hreq Hla Tla Hlo Tlo Hg out.
  assert (Hre : LiveClass.location_recheck calc s (LiveClass.geo env) = Some message).
  { unfold LiveClass.location_recheck. now rewrite Hreq, Hla, Hlo, Tla, Tlo, Hg. }
  subst out.
  rewrite (GeofenceFacts.confirmPresence_mismatch calc env st db a u s _ Ha Hu Hs Hre).
  repeat split.
Qed.

Lemma position_failure_blocks_response_witness :
  LiveClass.toasts
    (fst (LiveClass.confirmPresence (StudentSample.at_distance 20)
            StudentSample2.env_silent
            (StudentSample.prompted StudentSample.lecture_hall) StudentSample.db0))
  = [LiveClass.mk_toast "Location Check Failed" "Could not verify location." true].
Proof.
  refine (proj2 (proj2 (position_failure_blocks_response
    (StudentSample.at_distance 20) StudentSample2.env_silent
    (StudentSample.prompted StudentSample.lecture_hall) StudentSample.db0
    _ "student-1" StudentSample.lecture_hall _ _ ""
    eq_refl eq_refl eq_refl eq_refl eq_refl eq_refl eq_refl eq_refl eq_refl))).
Defined.

(** X9.  A distance that computes to [NaN] is not out of range: the comparison
    with the radius is false, so the re-check passes. *)
Theorem nan_distance_passes_recheck :
  forall (calc : LiveClass.Coordinates -> LiveClass.Coordinates -> JS.number)
         (s : LiveClass.Session) (la lo ulat ulon : JS.number),
    LiveClass.location_required s = true ->
    LiveClass.classroom_latitude s = Some la -> JS.truthy la = true ->
    LiveClass.classroom_longitude s = Some lo -> JS.truthy lo = true ->
    calc (LiveClass.mk_coordinates ulat ulon) (LiveClass.mk_coordinates la lo)
      = JS.NaN ->
    LiveClass.location_recheck calc s
      (LiveClass.Fix (LiveClass.mk_coordinates ulat ulon)) = None.
Proof.
  intros calc s la lo ulat ulon Hreq Hla Tla Hlo Tlo Hnan.
  rewrite (GeofenceFacts.location_recheck_armed calc s la lo ulat ulon)
    by assumption.
  cbv zeta. now rewrite Hnan.
Qed.

Lemma nan_distance_passes_recheck_witness :
  LiveClass.location_recheck StudentSample2.no_distance StudentSample.lecture_hall
    (LiveClass.Fix StudentSample.here) = None.
Proof.
  exact (nan_distance_passes_recheck StudentSample2.no_distance
    StudentSample.lecture_hall _ _ _ _ eq_refl eq_refl eq_refl eq_refl eq_refl eq_refl).
Defined.

(** ** The lecturer page *)

Module LecturerPageFacts.
Import Store ActiveSession.

Lemma run_cons (e : Event) (evs : list Event) (st : State) :
  run (e :: evs) st = run evs (step e st).
Proof. reflexivity. Qed.

(** While more than [k] seconds are on the counter, [k] ticks take [k]
    off and leave the check shown. *)
Lemma check_ticks_count (c : uuid) (k : nat) :
  forall st,
    mounted st = true -> activeCheckId st = Some c ->
    Z.of_nat k < checkTimeLeft st ->
    checkTimeLeft (run (repeat CheckTick k) st) = checkTimeLeft st - Z.of_nat k /\
    activeCheckId (run (repeat CheckTick k) st) = Some c /\
    mounted (run (repeat CheckTick k) st) = true /\
    verifiedCount (run (repeat CheckTick k) st) = verifiedCount st.
Proof.
  induction k as [|k IH]; intros st Hm Ha Hlt.
  - simpl. repeat split; auto. lia.
  - change (repeat CheckTick (S k)) with (CheckTick :: repeat CheckTick k).
    rewrite run_cons. simpl step.
    assert (E : check_tick st = setCheckTimeLeft (checkTimeLeft st - 1) st).
    { unfold check_tick. rewrite Hm, Ha.
      destruct (checkTimeLeft st <=? 1) eqn:E; [|reflexivity].
      apply Z.leb_le in E. lia. }
    rewrite E.
    destruct (IH (setCheckTimeLeft (checkTimeLeft st - 1) st)) as (H1 & H2 & H3 & H4);
      simpl; auto; try lia.
    rewrite H1, H2, H3, H4. simpl. repeat split; auto. lia.
Qed.

(** With [n + 1] seconds on the counter the check ends at tick [n + 1]. *)
Lemma check_ticks_end (c : uuid) (st : State) :
  mounted st = true -> activeCheckId st = Some c ->
  checkTimeLeft st = 1 ->
  checkTimeLeft (check_tick st) = 0 /\
  activeCheckId (check_tick st) = None /\
  verifiedCount (check_tick st) = verifiedCount st.
Proof.
  intros Hm Ha H1. unfold check_tick. rewrite Hm, Ha, H1. simpl. auto.
Qed.

Lemma run_app (evs1 evs2 : list Event) (st : State) :
  run (evs1 ++ evs2) st = run evs2 (run evs1 st).
Proof. unfold run. apply fold_left_app. Qed.

Lemma check_tick_ended (st : State) : activeCheckId st = None -> check_tick st = st.
Proof. intro H. unfold check_tick. rewrite H. now destruct (mounted st). Qed.

Lemma response_ended (row : session_check_response) (st : State) :
  activeCheckId st = None -> on_response_insert row st = st.
Proof. intro H. unfold on_response_insert. rewrite H. now destruct (mounted st). Qed.

End LecturerPageFacts.

(** X10.  A triggered check is shown for sixty ticks of the lecturer page:
    after [k < 60] ticks the counter shows [60 - k] and the check is still
    shown; the sixtieth tick sets the counter to zero and takes the check
    off the page, after which ticks and responses change nothing and the
    count of verified students stays as it was. *)
Theorem lecturer_check_lasts_sixty_ticks :
  forall (c sid u : Store.uuid) (st : ActiveSession.State),
    ActiveSession.sessionId st = Some sid ->
    ActiveSession.user st = Some u ->
    ActiveSession.mounted st = true ->
    let shown := ActiveSession.triggerPresenceCheck (Some c) st in
    let ticks := fun k => ActiveSession.run (repeat ActiveSession.CheckTick k) shown in
    (forall k, (k < 60)%nat ->
       ActiveSession.checkTimeLeft (ticks k) = 60 - Z.of_nat k /\
       ActiveSession.activeCheckId (ticks k) = Some c) /\
    ActiveSession.checkTimeLeft (ticks 60%nat) = 0 /\
    ActiveSession.activeCheckId (ticks 60%nat) = None /\
    ActiveSession.verifiedCount (ticks 60%nat) = 0 /\
    ActiveSession.check_tick (ticks 60%nat) = ticks 60%nat /\
    (forall row, ActiveSession.on_response_insert row (ticks 60%nat) = ticks 60%nat).
Proof.
  intros c sid u st Hs Hu Hm shown ticks.
  destruct (TallyFacts.trigger_resets c st sid u Hs Hu) as (H0 & Ha & Ht & Hm').
  fold shown in H0, Ha, Ht, Hm'. rewrite Hm in Hm'.
  unfold ActiveSession.durationSeconds in Ht.
  assert (Hk : forall k, (k < 60)%nat ->
             ActiveSession.checkTimeLeft (ticks k) = 60 - Z.of_nat k /\
             ActiveSession.activeCheckId (ticks k) = Some c /\
             ActiveSession.mounted (ticks k) = true /\
             ActiveSession.verifiedCount (ticks k) = 0).
  { intros k Hlt.
    destruct (LecturerPageFacts.check_ticks_count c k shown Hm' Ha) as (A & B & C & D);
      [lia|].
    subst ticks. cbv beta. rewrite A, B, C, D, Ht, H0. auto. }
  split; [intros k Hlt; destruct (Hk k Hlt) as (A & B & _); auto|].
  destruct (Hk 59%nat ltac:(lia)) as (A & B & C & D).
  assert (E : ticks 60%nat = ActiveSession.check_tick (ticks 59%nat)).
  { subst ticks. cbv beta.
    change 60%nat with (59 + 1)%nat. rewrite repeat_app.
    now rewrite LecturerPageFacts.run_app. }
  destruct (LecturerPageFacts.check_ticks_end c (ticks 59%nat) C B) as (X & Y & Z);
    [rewrite A; reflexivity|].
  rewrite E, X, Y, Z, D. repeat split.
  - now apply LecturerPageFacts.check_tick_ended.
  - intro row. now apply LecturerPageFacts.response_ended.
Qed.

Lemma lecturer_check_lasts_sixty_ticks_witness :
  ActiveSession.checkTimeLeft
    (ActiveSession.run (repeat ActiveSession.CheckTick 25)
       (ActiveSession.triggerPresenceCheck (Some "check-1") LecturerSample.page))
  = 60 - Z.of_nat 25.
Proof.
  refine (proj1 (proj1 (lecturer_check_lasts_sixty_ticks "check-1" "session-1"
    "lecturer-1" LecturerSample.page eq_refl eq_refl eq_refl) 25%nat _)).
  lia.
Defined.


(** ** The store under the migration *)

Module MigrationFacts.
Import Store Migration.

Lemma mem_In (x : uuid) (l : list uuid) : mem x l = true <-> In x l.
Proof.
  unfold mem. rewrite existsb_exists. split.
  - intros (y & Hin & E). apply String.eqb_eq in E. now subst.
  - intro H. exists x. split; [assumption | apply String.eqb_refl].
Qed.

Lemma mem_not_In (x : uuid) (l : list uuid) : mem x l = false <-> ~ In x l.
Proof.
  rewrite <- mem_In. destruct (mem x l); split; congruence.
Qed.

(** A session that the policy finds exists. *)
Lemma policy_create_session_exists (u sid : uuid) (db : DB) :
  policy_lecturers_can_create_checks (Some u) sid db = true ->
  In sid (map as_id (attendance_sessions db)).
Proof.
  simpl. rewrite existsb_exists. intros (s & Hin & E).
  apply andb_true_iff in E as [E _]. apply String.eqb_eq in E. subst.
  now apply in_map.
Qed.

(** What a committed check insert did. *)
Lemma insert_check_committed (auth : option uuid) (id : uuid) (now : timestamptz)
    (sid by_ : uuid) (exp : timestamptz) (act : bool) (db db' : DB) :
  insert_check auth id now sid by_ exp act db = Committed db' ->
  policy_lecturers_can_create_checks auth sid db = true /\
  ~ In id (map sc_id (session_checks db)) /\
  In sid (map as_id (attendance_sessions db)) /\
  In by_ (auth_users db) /\
  db' = {| auth_users := auth_users db;
           attendance_sessions := attendance_sessions db;
           session_checks :=
             (session_checks db ++
                [ {| sc_id := id; sc_session_id := sid; sc_created_at := now;
                     sc_expires_at := exp; sc_is_active := act;
                     sc_created_by := Some by_ |} ])%list;
           session_check_responses := session_check_responses db |}.
Proof.
  unfold insert_check.
  destruct (policy_lecturers_can_create_checks auth sid db); simpl; [|discriminate].
  destruct (mem id (map sc_id (session_checks db))) eqn:Hid; [discriminate|].
  destruct (mem sid (map as_id (attendance_sessions db))) eqn:Hsid; simpl; [|discriminate].
  destruct (mem by_ (auth_users db)) eqn:Hby; simpl; [|discriminate].
  intro H. injection H as <-.
  apply mem_not_In in Hid. apply mem_In in Hsid. apply mem_In in Hby. auto.
Qed.

Lemma insert_response_committed_keys (u : option uuid) (id : uuid)
    (now : timestamptz) (c t : uuid) (db db' : DB) :
  insert_response u id now c t db = Committed db' ->
  ~ In id (map scr_id (session_check_responses db)) /\
  In c (map sc_id (session_checks db)) /\
  In t (auth_users db) /\
  u = Some t.
Proof.
  unfold insert_response.
  destruct (policy_students_can_respond u t) eqn:Hp; simpl; [|discriminate].
  unfold responses_pkey_free.
  destruct (mem id (map scr_id (session_check_responses db))) eqn:Hid; simpl;
    [discriminate|].
  destruct (responses_key_free c t db); simpl; [|discriminate].
  unfold responses_fkeys_ok.
  destruct (mem c (map sc_id (session_checks db))) eqn:Hc; simpl; [|discriminate].
  destruct (mem t (auth_users db)) eqn:Ht; simpl; [|discriminate].
  intros _. apply mem_not_In in Hid. apply mem_In in Hc. apply mem_In in Ht.
  repeat split; auto.
  destruct u as [v|]; simpl in Hp; [|discriminate].
  apply String.eqb_eq in Hp. now subst.
Qed.

Lemma NoDup_snoc {A} (l : list A) (x : A) :
  NoDup l -> ~ In x l -> NoDup (l ++ [x]).
Proof.
  intros Hl Hx. induction Hl as [|y l Hy Hl IH]; simpl.
  - constructor; [intros []|constructor].
  - constructor.
    + rewrite in_app_iff. intros [H|[H|[]]]; [contradiction|].
      subst. apply Hx. now left.
    + apply IH. intro H. apply Hx. now right.
Qed.

Lemma map_deactivate_ids (sid : uuid) (l : list attendance_session) :
  map as_id (map (deactivate sid) l) = map as_id l.
Proof.
  rewrite map_map. apply map_ext. intro s. unfold deactivate.
  now destruct (String.eqb (as_id s) sid).
Qed.

End MigrationFacts.

(** X12.  Only the lecturer of the session starts a check.  For anyone else the
    store refuses the insert: the page shows "Could not start presence
    check" and nothing is stored or shown.  For the lecturer, with a new id,
    the store gains one active check of the session, created at the store's
    own time and expiring 60 s after the trigger on the clock of the
    lecturer's device, and the page shows it with 60 on the counter and no
    verified student; the responses are untouched. *)
Theorem only_session_lecturer_starts_check :
  forall (now : Z) (created : Store.timestamptz) (id sid u : Store.uuid)
         (st : ActiveSession.State) (db : Store.DB),
    ActiveSession.sessionId st = Some sid ->
    ActiveSession.user st = Some u ->
    let out := ActiveSession.triggerPresenceCheck_on now created id st db in
    (Store.policy_lecturers_can_create_checks (Some u) sid db = false ->
       snd out = db /\
       fst out = ActiveSession.emit
                   (ActiveSession.Toast "Error" "Could not start presence check" true) st) /\
    (Store.policy_lecturers_can_create_checks (Some u) sid db = true ->
     Store.mem id (map Store.sc_id (Store.session_checks db)) = false ->
     Store.mem u (Store.auth_users db) = true ->
       Store.session_checks (snd out) =
         (Store.session_checks db ++
            [Store.mk_check id sid created (now + 60000) true (Some u)])%list /\
       Store.session_check_responses (snd out) = Store.session_check_responses db /\
       ActiveSession.activeCheckId (fst out) = Some id /\
       ActiveSession.checkTimeLeft (fst out) = 60 /\
       ActiveSession.verifiedCount (fst out) = 0).
Proof.
  intros now created id sid u st db Hs Hu out. subst out.
  unfold ActiveSession.triggerPresenceCheck_on. rewrite Hs, Hu. split.
  - intro Hp. unfold Store.insert_check. rewrite Hp. simpl.
    unfold ActiveSession.triggerPresenceCheck. now rewrite Hs, Hu.
  - intros Hp Hid Hmem. unfold Store.insert_check. rewrite Hp, Hid, Hmem. simpl.
    apply MigrationFacts.policy_create_session_exists in Hp.
    apply MigrationFacts.mem_In in Hp. rewrite Hp. simpl.
    unfold ActiveSession.triggerPresenceCheck. rewrite Hs, Hu. simpl.
    repeat split.
Qed.

(** X12, with the lecturer's device two seconds ahead of the store: the
    trigger at 2000 on the device is stored with [created_at] 0 and
    [expires_at] 62000. *)
Lemma only_session_lecturer_starts_check_witness :
  Store.session_checks
    (snd (ActiveSession.triggerPresenceCheck_on 2000 0 "check-1"
            LecturerSample.page LecturerSample.ended_db))
    = [Store.mk_check "check-1" "session-1" 0 62000 true (Some "lecturer-1")] /\
  snd (ActiveSession.triggerPresenceCheck_on 2000 0 "check-1"
         LecturerSample2.intruder LecturerSample.ended_db)
    = LecturerSample.ended_db.
Proof.
  split.
  - exact (proj1 (proj2 (only_session_lecturer_starts_check 2000 0 "check-1" "session-1"
      "lecturer-1" LecturerSample.page LecturerSample.ended_db eq_refl eq_refl)
      eq_refl eq_refl eq_refl)).
  - exact (proj1 (proj1 (only_session_lecturer_starts_check 2000 0 "check-1" "session-1"
      "student-1" LecturerSample2.intruder LecturerSample.ended_db eq_refl eq_refl)
      eq_refl)).
Defined.

(** X13.  The countdown a student sees for a freshly triggered check follows
    the student's own clock: it starts at no more than 60 when that clock is
    not behind the lecturer's, and at no less than 60 when it is. *)
Theorem student_countdown_follows_own_clock :
  forall (now t : Z) (row : Store.session_check) (st : LiveClass.State),
    Store.sc_expires_at row = ActiveSession.expiresAt now ->
    (now <= t -> LiveClass.timeLeft (LiveClass.handleNewCheck row t st) <= 60) /\
    (t <= now -> 60 <= LiveClass.timeLeft (LiveClass.handleNewCheck row t st)).
Proof.
  intros now t row st He.
  rewrite LiveClassFacts.handleNewCheck_timeLeft, He, remaining_div.
  unfold ActiveSession.expiresAt, ActiveSession.durationSeconds. split; intro H.
  - assert ((now + 60 * 1000 - t) / 1000 <= 60)
      by (apply Z.div_le_upper_bound; lia).
    lia.
  - assert (60 <= (now + 60 * 1000 - t) / 1000)
      by (apply Z.div_le_lower_bound; lia).
    lia.
Qed.

Lemma student_countdown_follows_own_clock_witness :
  LiveClass.timeLeft
    (LiveClass.handleNewCheck StudentSample.check1 200
       (StudentSample.page StudentSample.open_hall)) <= 60 /\
  60 <= LiveClass.timeLeft
          (LiveClass.handleNewCheck StudentSample.check1 (-4000)
             (StudentSample.page StudentSample.open_hall)).
Proof.
  split.
  - apply (proj1 (student_countdown_follows_own_clock 0 200 StudentSample.check1
      (StudentSample.page StudentSample.open_hall) eq_refl)).
    discriminate.
  - apply (proj2 (student_countdown_follows_own_clock 0 (-4000) StudentSample.check1
      (StudentSample.page StudentSample.open_hall) eq_refl)).
    discriminate.
Defined.

(** X14.  Every write the pages make keeps the keys of the migration: after a
    committed response insert, a committed check insert or the update that
    ends a session, the ids of checks and of responses are still pairwise
    different and every foreign key still finds its row. *)
Theorem store_writes_keep_keys :
  forall db : Store.DB,
    Migration.primary_keys_unique db ->
    Migration.references_resolve db ->
    (forall u id now c t db',
        Store.insert_response u id now c t db = Store.Committed db' ->
        Migration.primary_keys_unique db' /\ Migration.references_resolve db') /\
    (forall auth id now sid by_ exp act db',
        Store.insert_check auth id now sid by_ exp act db = Store.Committed db' ->
        Migration.primary_keys_unique db' /\ Migration.references_resolve db') /\
    (forall sid,
        Migration.primary_keys_unique (Store.update_session_inactive sid db) /\
        Migration.references_resolve (Store.update_session_inactive sid db)).
Proof.
  intros db [Pc Pr] [Rc Rr]. split; [|split].
  - intros u id now c t db' H.
    destruct (StoreFacts.insert_committed _ _ _ _ _ _ _ H) as (_ & Happ & Hc & Hu & Hs).
    destruct (MigrationFacts.insert_response_committed_keys _ _ _ _ _ _ _ H)
      as (Hid & Hcin & Htin & _).
    split; [split|split].
    + now rewrite Hc.
    + rewrite Happ, map_app. simpl. now apply MigrationFacts.NoDup_snoc.
    + intros x Hx. rewrite Hc in Hx. rewrite Hs, Hu. now apply Rc.
    + intros r Hr. rewrite Happ in Hr. rewrite Hc, Hu.
      apply in_app_or in Hr as [Hr | [<- | []]]; [now apply Rr | simpl; auto].
  - intros auth id now sid by_ exp act db' H.
    destruct (MigrationFacts.insert_check_committed _ _ _ _ _ _ _ _ _ H)
      as (_ & Hid & Hsid & Hby & ->).
    split; [split|split]; simpl.
    + rewrite map_app. simpl. now apply MigrationFacts.NoDup_snoc.
    + assumption.
    + intros x Hx. apply in_app_or in Hx as [Hx | [<- | []]]; [now apply Rc|].
      simpl. split; [assumption|]. intros v Hv. injection Hv as <-. assumption.
    + intros r Hr. destruct (Rr r Hr) as [A B]. split; [|assumption].
      rewrite map_app. apply in_or_app. now left.
  - intro sid. split; [split|split]; simpl; auto.
    + intros x Hx. rewrite MigrationFacts.map_deactivate_ids. now apply Rc.
Qed.

Lemma store_writes_keep_keys_witness :
  (Migration.primary_keys_unique
     (Store.update_session_inactive "session-1" StudentSample.db1) /\
   Migration.references_resolve
     (Store.update_session_inactive "session-1" StudentSample.db1)) /\
  match Store.insert_response (Some "student-1") "response-1" 30000
          "check-1" "student-1" StudentSample.db1 with
  | Store.Committed db' => Migration.references_resolve db'
  | Store.Rejected _ => False
  end.
Proof.
  assert (Hp : Migration.primary_keys_unique StudentSample.db1).
  { split; simpl; repeat constructor; simpl; intuition discriminate. }
  assert (Hr : Migration.references_resolve StudentSample.db1).
  { split; simpl.
    - intros c [<- | []]. simpl. split; [auto|].
      intros u H. injection H as <-. auto.
    - intros r [<- | []]. simpl. auto. }
  split.
  - exact (proj2 (proj2 (store_writes_keep_keys StudentSample.db1 Hp Hr)) "session-1").
  - destruct (Store.insert_response (Some "student-1") "response-1" 30000
                "check-1" "student-1" StudentSample.db1) as [db'|e] eqn:E.
    + exact (proj2 (proj1 (store_writes_keep_keys StudentSample.db1 Hp Hr)
               _ _ _ _ _ _ E)).
    + vm_compute in E. discriminate E.
Defined.

Module VisibilityFacts.
Import Store Migration.

Lemma lecturer_policy_false (u : uuid) (r : session_check_response) (db : DB) :
  lectures_nothing u db -> policy_lecturers_can_view_responses u r db = false.
Proof.
  intro H. unfold policy_lecturers_can_view_responses.
  apply not_true_iff_false. intro E.
  apply existsb_exists in E as (sc & _ & E).
  apply andb_true_iff in E as [_ E].
  apply existsb_exists in E as (sas & Hin & E).
  apply andb_true_iff in E as [_ E]. apply String.eqb_eq in E.
  exact (H sas Hin E).
Qed.

Lemma lecturer_policy_true (u : uuid) (r : session_check_response) (db : DB)
    (sc : session_check) (sas : attendance_session) :
  In sc (session_checks db) -> sc_id sc = scr_check_id r ->
  In sas (attendance_sessions db) -> sc_session_id sc = as_id sas ->
  as_lecturer_id sas = u ->
  policy_lecturers_can_view_responses u r db = true.
Proof.
  intros Hsc Hid Hsas Hs Hl. unfold policy_lecturers_can_view_responses.
  apply existsb_exists. exists sc. split; [assumption|].
  apply andb_true_iff. split; [now apply String.eqb_eq|].
  apply existsb_exists. exists sas. split; [assumption|].
  apply andb_true_iff. split; now apply String.eqb_eq.
Qed.

Lemma filter_filter_implied {A} (p q : A -> bool) (l : list A) :
  (forall x, In x l -> p x = true -> q x = true) ->
  filter p (filter q l) = filter p l.
Proof.
  intro H. induction l as [|x l IH]; simpl; [reflexivity|].
  assert (IH' : filter p (filter q l) = filter p l)
    by (apply IH; intros y Hy; apply H; now right).
  destruct (p x) eqn:Hp.
  - rewrite (H x (or_introl eq_refl) Hp). simpl. now rewrite Hp, IH'.
  - destruct (q x); simpl; [rewrite Hp|]; exact IH'.
Qed.

End VisibilityFacts.

(** X15.  Who reads the responses.  Without a signed-in user no row is
    visible.  A user who lectures no session sees exactly the responses
    with their own id as student.  The lecturer of the session of a check
    sees every response to that check, so the tally the lecturer can read is
    the tally of the store. *)
Theorem responses_visible_to_owner_and_lecturer :
  forall (db : Store.DB) (u : Store.uuid),
    Migration.select_responses None db = [] /\
    (Migration.lectures_nothing u db ->
       Migration.select_responses (Some u) db =
       filter (fun r => String.eqb (Store.scr_student_id r) u)
              (Store.session_check_responses db)) /\
    (forall c sc sas,
        In sc (Store.session_checks db) -> Store.sc_id sc = c ->
        In sas (Store.attendance_sessions db) ->
        Store.sc_session_id sc = Store.as_id sas ->
        Store.as_lecturer_id sas = u ->
        filter (fun r => String.eqb c (Store.scr_check_id r))
               (Migration.select_responses (Some u) db)
          = Store.responses_of c db).
Proof.
  intros db u. split; [reflexivity|]. split.
  - intro H. unfold Migration.select_responses. apply filter_ext. intro r.
    now rewrite (VisibilityFacts.lecturer_policy_false u r db H).
  - intros c sc sas Hsc Hid Hsas Hs Hl. unfold Migration.select_responses,
      Store.responses_of.
    apply VisibilityFacts.filter_filter_implied. intros r _ Hr.
    apply String.eqb_eq in Hr. apply orb_true_iff. left.
    apply (VisibilityFacts.lecturer_policy_true u r db sc sas); congruence.
Qed.

Lemma responses_visible_to_owner_and_lecturer_witness :
  Migration.select_responses (Some "student-1") StudentSample2.db_two = 
    [Store.mk_response "response-7" "check-1" "student-1" 15000] /\
  List.length
    (filter (fun r => String.eqb "check-1" (Store.scr_check_id r))
            (Migration.select_responses (Some "lecturer-1") StudentSample2.db_two))
    = Store.tally "check-1" StudentSample2.db_two.
Proof.
  split.
  - refine (eq_trans (proj1 (proj2 (responses_visible_to_owner_and_lecturer
      StudentSample2.db_two "student-1")) _) eq_refl).
    intros s [<- | []]. discriminate.
  - refine (f_equal (@List.length _)
      (proj2 (proj2 (responses_visible_to_owner_and_lecturer
         StudentSample2.db_two "lecturer-1")) "check-1" StudentSample.check1
         (Store.mk_session_row "session-1" "lecturer-1" 3600000 true)
         _ eq_refl _ eq_refl eq_refl)); simpl; auto.
Defined.

Module CascadeFacts.
Import Store Migration.

Lemma keys_survive_filter {R K : Type} (keep : R -> bool) (key : R -> K)
    (rows : list R) :
  NoDup (map key rows) -> NoDup (map key (filter keep rows)).
Proof.
  intro Hnd. induction rows as [|row rows IH]; simpl in *; [constructor|].
  inversion Hnd as [|? ? Hfresh Hrest]; subst.
  destruct (keep row); simpl; [|now apply IH].
  constructor; [|now apply IH].
  intro Hin. apply Hfresh. apply in_map_iff in Hin as (y & E & Hy).
  apply filter_In in Hy as [Hy _]. apply in_map_iff. now exists y.
Qed.

Lemma in_map_filter {A B} (f : A -> B) (p : A -> bool) (l : list A) (y : A) :
  In y l -> p y = true -> In (f y) (map f (filter p l)).
Proof.
  intros Hy Hp. apply in_map. apply filter_In. auto.
Qed.

Lemma filter_none {A} (p q : A -> bool) (l : list A) :
  (forall x, p x = true -> q x = false) -> filter p (filter q l) = [].
Proof.
  intro H. induction l as [|x l IH]; simpl; [reflexivity|].
  destruct (q x) eqn:Hq; [|exact IH]. simpl.
  destruct (p x) eqn:Hp; [|exact IH].
  rewrite (H x Hp) in Hq. discriminate.
Qed.

Lemma filter_kept {A} (p q : A -> bool) (l : list A) :
  (forall x, p x = true -> q x = true) -> filter p (filter q l) = filter p l.
Proof.
  intro H. apply VisibilityFacts.filter_filter_implied. intros x _. apply H.
Qed.

Lemma delete_check_keys (cid : uuid) (db : DB) :
  primary_keys_unique db -> primary_keys_unique (delete_check cid db).
Proof.
  intros [Hc Hr]. split; simpl; now apply keys_survive_filter.
Qed.

Lemma delete_check_references (cid : uuid) (db : DB) :
  references_resolve db -> references_resolve (delete_check cid db).
Proof.
  intros [Rc Rr]. split; simpl.
  - intros c Hc. apply filter_In in Hc as [Hc _]. now apply Rc.
  - intros r Hr. apply filter_In in Hr as [Hr Hne].
    destruct (Rr r Hr) as [Hin Hu]. split; [|assumption].
    apply in_map_iff in Hin as (sc & E & Hsc). rewrite <- E.
    apply in_map_filter; [assumption|]. now rewrite E.
Qed.

Lemma delete_session_keys (sid : uuid) (db : DB) :
  primary_keys_unique db -> primary_keys_unique (delete_session sid db).
Proof.
  intros [Hc Hr]. split; simpl; now apply keys_survive_filter.
Qed.

Lemma delete_session_references (sid : uuid) (db : DB) :
  references_resolve db -> references_resolve (delete_session sid db).
Proof.
  intros [Rc Rr]. split; simpl.
  - intros c Hc. apply filter_In in Hc as [Hc Hne].
    destruct (Rc c Hc) as [Hin Hu]. split; [|assumption].
    apply in_map_iff in Hin as (sas & E & Hsas). rewrite <- E.
    apply in_map_filter; [assumption|]. now rewrite E.
  - intros r Hr. apply filter_In in Hr as [Hr Hne].
    destruct (Rr r Hr) as [Hin Hu]. split; [|assumption].
    apply in_map_iff in Hin as (sc & E & Hsc). rewrite <- E.
    apply in_map_filter; [assumption|].
    apply negb_true_iff. apply not_true_iff_false. intro Hs.
    apply negb_true_iff in Hne. apply MigrationFacts.mem_not_In in Hne.
    apply Hne. unfold checks_of. rewrite <- E. apply in_map.
    apply filter_In. auto.
Qed.

End CascadeFacts.

(** X16.  Deleting a check or a session leaves no orphan.  Deleting a check
    removes its responses and no others; deleting a session removes the
    session, its checks and the responses to those checks.  In both cases
    the ids stay pairwise different and every remaining foreign key still
    finds its row. *)
Theorem cascade_leaves_no_orphans :
  forall db : Store.DB,
    Migration.primary_keys_unique db ->
    Migration.references_resolve db ->
    (forall cid,
        Migration.primary_keys_unique (Migration.delete_check cid db) /\
        Migration.references_resolve (Migration.delete_check cid db) /\
        Store.tally cid (Migration.delete_check cid db) = 0%nat /\
        (forall c, c <> cid ->
           Store.responses_of c (Migration.delete_check cid db)
             = Store.responses_of c db)) /\
    (forall sid,
        Migration.primary_keys_unique (Migration.delete_session sid db) /\
        Migration.references_resolve (Migration.delete_session sid db) /\
        ~ In sid (map Store.as_id
                    (Store.attendance_sessions (Migration.delete_session sid db))) /\
        Migration.checks_of sid (Migration.delete_session sid db) = [] /\
        (forall c, In c (Migration.checks_of sid db) ->
           Store.tally c (Migration.delete_session sid db) = 0%nat)).
Proof.
  intros db Hp Hr. split.
  - intro cid. split; [now apply CascadeFacts.delete_check_keys|].
    split; [now apply CascadeFacts.delete_check_references|]. split.
    + unfold Store.tally, Store.responses_of. simpl.
      rewrite CascadeFacts.filter_none; [reflexivity|].
      intros r E. apply String.eqb_eq in E. rewrite <- E.
      now rewrite String.eqb_refl.
    + intros c Hne. unfold Store.responses_of. simpl.
      apply CascadeFacts.filter_kept. intros r E. apply String.eqb_eq in E.
      apply negb_true_iff. apply String.eqb_neq. congruence.
  - intro sid. split; [now apply CascadeFacts.delete_session_keys|].
    split; [now apply CascadeFacts.delete_session_references|]. split; [|split].
    + simpl. intro Hin. apply in_map_iff in Hin as (s & E & Hs).
      apply filter_In in Hs as [_ Hs]. apply negb_true_iff in Hs.
      apply String.eqb_neq in Hs. contradiction.
    + unfold Migration.checks_of. simpl.
      rewrite CascadeFacts.filter_none; [reflexivity|].
      intros c E. now rewrite E.
    + intros c Hc. unfold Store.tally, Store.responses_of. simpl.
      rewrite CascadeFacts.filter_none; [reflexivity|].
      intros r E. apply String.eqb_eq in E. subst c.
      apply negb_false_iff. now apply MigrationFacts.mem_In.
Qed.

Lemma cascade_leaves_no_orphans_witness :
  Store.tally "check-1" (Migration.delete_session "session-1" StudentSample2.db_two)
    = 0%nat /\
  Migration.references_resolve (Migration.delete_check "check-1" StudentSample2.db_two).
Proof.
  assert (Hp : Migration.primary_keys_unique StudentSample2.db_two).
  { split; simpl; repeat constructor; simpl; intuition discriminate. }
  assert (Hr : Migration.references_resolve StudentSample2.db_two).
  { split; simpl.
    - intros c [<- | []]. simpl. split; [auto|].
      intros u H. injection H as <-. auto.
    - intros r [<- | [<- | []]]; simpl; auto. }
  destruct (cascade_leaves_no_orphans StudentSample2.db_two Hp Hr) as [Hc Hs].
  split.
  - apply (proj2 (proj2 (proj2 (proj2 (Hs "session-1"))))). simpl. now left.
  - exact (proj1 (proj2 (Hc "check-1"))).
Defined.

(** ** What the lecturer page shows *)

Module FormatFacts.
Import JS LecturerView.

Lemma length_append (a b : string) :
  String.length (a ++ b) = (String.length a + String.length b)%nat.
Proof. induction a as [|c a IH]; simpl; [reflexivity | now rewrite IH]. Qed.

(** Texts that end in fields of one length agree field by field. *)
Lemma append_split (x x' y y' : string) :
  String.length y = String.length y' ->
  (x ++ y = x' ++ y')%string -> x = x' /\ y = y'.
Proof.
  revert x'. induction x as [|c x IH]; intros [|c' x'] Hl H; simpl in H.
  - auto.
  - exfalso. rewrite H in Hl. simpl in Hl. rewrite length_append in Hl. lia.
  - exfalso. rewrite <- H in Hl. simpl in Hl. rewrite length_append in Hl. lia.
  - injection H as -> H. destruct (IH x' Hl H) as [-> ->]. auto.
Qed.

Lemma to_int_not_nil (z : Z) :
  Z.to_int z <> Decimal.Pos Decimal.Nil /\ Z.to_int z <> Decimal.Neg Decimal.Nil.
Proof.
  split; intro H; pose proof (f_equal Z.of_int H) as E;
    rewrite DecimalZ.of_to in E; simpl in E; subst z; discriminate H.
Qed.

Lemma string_of_Z_inj (a b : Z) : string_of_Z a = string_of_Z b -> a = b.
Proof.
  unfold string_of_Z. intro H.
  apply (f_equal NilZero.int_of_string) in H.
  destruct (to_int_not_nil a) as [A1 A2]. destruct (to_int_not_nil b) as [B1 B2].
  rewrite !NilZero.isi in H by assumption.
  injection H as H. now apply DecimalZ.to_int_inj.
Qed.

Lemma floor_div_60 (x : Z) : Qfloor (inject_Z x / inject_Z 60) = x / 60.
Proof.
  unfold Qdiv, Qmult, Qinv, inject_Z, Qfloor; simpl. now rewrite Z.mul_1_r.
Qed.

Lemma in_sixty (x : Z) : 0 <= x < 60 -> In x sixty.
Proof.
  intro H. unfold sixty. apply in_map_iff. exists (Z.to_nat x).
  split; [lia|]. apply in_seq. lia.
Qed.

Lemma seconds_field_table :
  forallb (fun x =>
             Nat.eqb (String.length (seconds_field x)) 2 &&
             forallb (fun y => implb (String.eqb (seconds_field x) (seconds_field y))
                                     (x =? y))
                     sixty)
          sixty = true.
Proof. vm_compute. reflexivity. Qed.

Lemma seconds_field_length (x : Z) :
  0 <= x < 60 -> String.length (seconds_field x) = 2%nat.
Proof.
  intro H. pose proof seconds_field_table as T.
  rewrite forallb_forall in T. specialize (T x (in_sixty x H)).
  apply andb_true_iff in T as [T _]. now apply Nat.eqb_eq.
Qed.

Lemma seconds_field_inj (x y : Z) :
  0 <= x < 60 -> 0 <= y < 60 -> seconds_field x = seconds_field y -> x = y.
Proof.
  intros Hx Hy E. pose proof seconds_field_table as T.
  rewrite forallb_forall in T. specialize (T x (in_sixty x Hx)).
  apply andb_true_iff in T as [_ T].
  rewrite forallb_forall in T. specialize (T y (in_sixty y Hy)).
  rewrite E, String.eqb_refl in T. simpl in T. now apply Z.eqb_eq.
Qed.

Lemma formatTime_fields (s : Z) :
  0 <= s ->
  formatTime s = string_of_Z (s / 60) ++ ":" ++ seconds_field (s mod 60).
Proof.
  intro H. unfold formatTime, seconds_field. cbv zeta.
  rewrite floor_div_60, Z.rem_mod_nonneg by lia. reflexivity.
Qed.

End FormatFacts.

(** X17.  [formatTime] shows a remaining time as the minutes, a colon and the
    seconds in exactly two characters, and two different times never show
    the same text. *)
Theorem formatTime_two_digits_and_injective :
  forall a b : Z,
    0 <= a -> 0 <= b ->
    LecturerView.formatTime a =
      JS.string_of_Z (a / 60) ++ ":" ++ LecturerView.seconds_field (a mod 60) /\
    String.length (LecturerView.seconds_field (a mod 60)) = 2%nat /\
    (LecturerView.formatTime a = LecturerView.formatTime b -> a = b).
Proof.
  intros a b Ha Hb.
  pose proof (Z.mod_pos_bound a 60 ltac:(lia)) as Ma.
  pose proof (Z.mod_pos_bound b 60 ltac:(lia)) as Mb.
  split; [now apply FormatFacts.formatTime_fields|].
  split; [now apply FormatFacts.seconds_field_length|].
  rewrite (FormatFacts.formatTime_fields a Ha), (FormatFacts.formatTime_fields b Hb).
  intro E.
  apply FormatFacts.append_split in E as [Em Es].
  - apply FormatFacts.string_of_Z_inj in Em.
    injection Es as Es. apply FormatFacts.seconds_field_inj in Es; try assumption.
    rewrite (Z.div_mod a 60), (Z.div_mod b 60) by lia. congruence.
  - simpl. now rewrite !FormatFacts.seconds_field_length.
Qed.

Lemma formatTime_two_digits_and_injective_witness :
  LecturerView.formatTime 3570 = "59:30" /\
  LecturerView.formatTime 65 <> LecturerView.formatTime 605.
Proof.
  split.
  - refine (eq_trans (proj1 (formatTime_two_digits_and_injective 3570 0 _ _)) eq_refl);
      discriminate.
  - intro E.
    pose proof (proj2 (proj2 (formatTime_two_digits_and_injective 65 605
                  ltac:(discriminate) ltac:(discriminate))) E) as H.
    discriminate H.
Defined.

(** ** Class pulse *)

Module PulseFacts.
Import Store ClassPulse.

Lemma or_zero_id (x : Z) : or_zero x = x.
Proof.
  unfold or_zero. destruct (x =? 0) eqn:E; [|reflexivity].
  apply Z.eqb_eq in E. now subst.
Qed.

Lemma sentiments_ext (a b : Sentiments) :
  (forall k, get k a = get k b) -> a = b.
Proof.
  intro H. destruct a, b.
  pose proof (H sentiment_type.understood).
  pose proof (H sentiment_type.neutral).
  pose proof (H sentiment_type.confused).
  simpl in *. congruence.
Qed.

Lemma occurrences_cons (k x : sentiment_type.t) (rows : list sentiment_type.t) :
  occurrences k (x :: rows) = occurrences k [x] + occurrences k rows.
Proof.
  unfold occurrences.
  destruct x, k; cbn -[Z.of_nat Z.add]; rewrite ?Nat2Z.inj_succ; lia.
Qed.

Lemma get_bump (k x : sentiment_type.t) (s : Sentiments) :
  get k (bump x s) = get k s + occurrences k [x].
Proof.
  unfold bump. rewrite or_zero_id.
  destruct k, x; simpl; unfold occurrences; simpl; lia.
Qed.

Lemma get_fold (k : sentiment_type.t) (rows : list sentiment_type.t) :
  forall s, get k (fold_left (fun acc curr => bump curr acc) rows s)
            = get k s + occurrences k rows.
Proof.
  induction rows as [|x rows IH]; intro s.
  - unfold occurrences. simpl. lia.
  - cbn [fold_left]. rewrite IH, get_bump, (occurrences_cons k x rows). lia.
Qed.

Lemma occurrences_single (x : sentiment_type.t) :
  occurrences sentiment_type.understood [x]
  + occurrences sentiment_type.neutral [x]
  + occurrences sentiment_type.confused [x] = 1.
Proof. destruct x; reflexivity. Qed.

Lemma occurrences_total (rows : list sentiment_type.t) :
  occurrences sentiment_type.understood rows
  + occurrences sentiment_type.neutral rows
  + occurrences sentiment_type.confused rows = Z.of_nat (List.length rows).
Proof.
  induction rows as [|x rows IH]; [reflexivity|].
  rewrite !(occurrences_cons _ x rows). cbn [List.length].
  rewrite Nat2Z.inj_succ. pose proof (occurrences_single x). lia.
Qed.

Lemma occurrences_perm (k : sentiment_type.t) (a b : list sentiment_type.t) :
  Permutation a b -> occurrences k a = occurrences k b.
Proof.
  intro H. induction H as [|x a b _ IH|x y a|a b c _ IH1 _ IH2].
  - reflexivity.
  - rewrite (occurrences_cons k x a), (occurrences_cons k x b). lia.
  - rewrite (occurrences_cons k y (x :: a)), (occurrences_cons k x a),
            (occurrences_cons k x (y :: a)), (occurrences_cons k y a). lia.
  - congruence.
Qed.

Lemma handler_fold (sid : uuid) (news : list session_sentiment) :
  forall s,
    fold_left (fun acc r => on_sentiment_insert sid r acc) news s
    = fold_left (fun acc curr => bump curr acc) (delivered sid news) s.
Proof.
  unfold delivered. induction news as [|r news IH]; intro s; [reflexivity|].
  cbn [fold_left filter]. unfold on_sentiment_insert at 2.
  destruct (String.eqb (ss_session_id r) sid); cbn [map fold_left]; apply IH.
Qed.

End PulseFacts.

(** X18.  The class pulse counts rows.  After the initial fetch each counter is
    the number of fetched rows with that sentiment, and the three counters
    add up to the number of rows.  Folding the realtime inserts of the
    session into the fetched tally gives what a fetch of all the rows would
    give, and the order in which rows arrive does not matter. *)
Theorem pulse_tally_counts_rows :
  forall (sid : Store.uuid) (rows : list sentiment_type.t)
         (news : list ClassPulse.session_sentiment) (prev : ClassPulse.Sentiments),
    let fetched := ClassPulse.fetchSentiments (Some rows) prev in
    (forall k, ClassPulse.get k fetched = ClassPulse.occurrences k rows) /\
    ClassPulse.understood fetched + ClassPulse.neutral fetched
      + ClassPulse.confused fetched = Z.of_nat (List.length rows) /\
    fold_left (fun acc r => ClassPulse.on_sentiment_insert sid r acc) news fetched
      = ClassPulse.fetchSentiments
          (Some (rows ++ ClassPulse.delivered sid news)%list) prev /\
    (forall rows', Permutation rows rows' ->
                   ClassPulse.fetchSentiments (Some rows') prev = fetched).
Proof.
  intros sid rows news prev fetched.
  assert (G : forall l k, ClassPulse.get k (ClassPulse.fetchSentiments (Some l) prev)
                          = ClassPulse.occurrences k l).
  { intros l k. unfold ClassPulse.fetchSentiments.
    rewrite PulseFacts.get_fold. destruct k; reflexivity. }
  split; [apply G|]. split; [|split].
  - pose proof (PulseFacts.occurrences_total rows) as T.
    rewrite <- (G rows sentiment_type.understood), <- (G rows sentiment_type.neutral),
            <- (G rows sentiment_type.confused) in T.
    exact T.
  - rewrite PulseFacts.handler_fold. subst fetched.
    unfold ClassPulse.fetchSentiments. now rewrite fold_left_app.
  - intros rows' Hp. apply PulseFacts.sentiments_ext. intro k.
    subst fetched. rewrite !G. symmetry. now apply PulseFacts.occurrences_perm.
Qed.

Lemma pulse_tally_counts_rows_witness :
  ClassPulse.fetchSentiments
    (Some [sentiment_type.confused; sentiment_type.understood;
           sentiment_type.understood]) ClassPulse.zero
  = ClassPulse.fetchSentiments
      (Some [sentiment_type.understood; sentiment_type.confused;
             sentiment_type.understood]) ClassPulse.zero.
Proof.
  apply (proj2 (proj2 (proj2 (pulse_tally_counts_rows "session-1"
    [sentiment_type.understood; sentiment_type.confused; sentiment_type.understood]
    [] ClassPulse.zero)))).
  apply perm_swap.
Defined.

Module PulseStoreFacts.
Import Store ClassPulse.

Lemma view_false (u : uuid) (r : session_sentiment) (db : PulseDB) :
  Migration.lectures_nothing u (base db) -> policy_lecturers_view u r db = false.
Proof.
  intro H. unfold policy_lecturers_view. apply not_true_iff_false. intro E.
  apply existsb_exists in E as (s & Hin & E).
  apply andb_true_iff in E as [_ E]. apply String.eqb_eq in E.
  exact (H s Hin E).
Qed.

Lemma view_true (u sid : uuid) (r : session_sentiment) (db : PulseDB)
    (s : attendance_session) :
  In s (attendance_sessions (base db)) -> as_id s = sid ->
  as_lecturer_id s = u -> ss_session_id r = sid ->
  policy_lecturers_view u r db = true.
Proof.
  intros Hin Hid Hl Hr. unfold policy_lecturers_view.
  apply existsb_exists. exists s. split; [assumption|].
  apply andb_true_iff. split; apply String.eqb_eq; congruence.
Qed.

End PulseStoreFacts.

(** X19.  A student may send any number of sentiments.  An insert under the
    student's own id with a new row id, for an existing session, is
    committed whatever the table already holds for that student, and adds
    one row; an insert under another id than the signed-in one is refused. *)
Theorem sentiments_accumulate_per_student :
  forall (auth : option Store.uuid) (id sid student : Store.uuid)
         (now : Store.timestamptz) (k : sentiment_type.t) (db : ClassPulse.PulseDB),
    (auth <> Some student ->
       ClassPulse.insert_sentiment auth id now sid student k db
         = inr Store.insufficient_privilege) /\
    (auth = Some student ->
     Store.mem id (map ClassPulse.ss_id (ClassPulse.session_sentiments db)) = false ->
     Store.mem sid (map Store.as_id (Store.attendance_sessions (ClassPulse.base db)))
       = true ->
     Store.mem student (Store.auth_users (ClassPulse.base db)) = true ->
     exists db',
       ClassPulse.insert_sentiment auth id now sid student k db = inl db' /\
       ClassPulse.sentiments_of student db'
         = S (ClassPulse.sentiments_of student db) /\
       ClassPulse.base db' = ClassPulse.base db).
Proof.
  intros auth id sid student now k db. split.
  - intro Hne. unfold ClassPulse.insert_sentiment.
    destruct auth as [u|]; simpl; [|reflexivity].
    destruct (String.eqb u student) eqn:E; [|reflexivity].
    apply String.eqb_eq in E. congruence.
  - intros -> Hid Hs Hu. unfold ClassPulse.insert_sentiment. simpl.
    rewrite String.eqb_refl, Hid, Hs, Hu. simpl.
    eexists. split; [reflexivity|]. split; [|reflexivity].
    unfold ClassPulse.sentiments_of. simpl.
    rewrite filter_app, length_app. simpl. rewrite String.eqb_refl. simpl. lia.
Qed.

Lemma sentiments_accumulate_per_student_witness :
  exists db',
    ClassPulse.insert_sentiment (Some "student-1") "sentiment-4" 4000
      "session-1" "student-1" sentiment_type.neutral PulseSample.pulse_db = inl db' /\
    ClassPulse.sentiments_of "student-1" db' = 3%nat /\
    ClassPulse.base db' = StudentSample.db0.
Proof.
  exact (proj2 (sentiments_accumulate_per_student (Some "student-1") "sentiment-4"
    "session-1" "student-1" 4000 sentiment_type.neutral PulseSample.pulse_db)
    eq_refl eq_refl eq_refl eq_refl).
Defined.

(** X20.  Who reads the class pulse.  Without a signed-in user, and for a user
    who lectures no session (a student, even for rows of their own), the
    query answers no row, so the fetched tally is all zero.  For the
    lecturer of the session it answers the sentiments of all rows of the
    session, and the fetched tally counts them. *)
Theorem pulse_visible_to_lecturer_only :
  forall (u sid : Store.uuid) (db : ClassPulse.PulseDB) (prev : ClassPulse.Sentiments),
    ClassPulse.select_sentiments None sid db = [] /\
    (Migration.lectures_nothing u (ClassPulse.base db) ->
       ClassPulse.select_sentiments (Some u) sid db = [] /\
       ClassPulse.fetchSentiments
         (Some (ClassPulse.select_sentiments (Some u) sid db)) prev
         = ClassPulse.zero) /\
    (forall s,
        In s (Store.attendance_sessions (ClassPulse.base db)) ->
        Store.as_id s = sid -> Store.as_lecturer_id s = u ->
        ClassPulse.select_sentiments (Some u) sid db
          = ClassPulse.delivered sid (ClassPulse.session_sentiments db) /\
        forall k,
          ClassPulse.get k
            (ClassPulse.fetchSentiments
               (Some (ClassPulse.select_sentiments (Some u) sid db)) prev)
          = ClassPulse.occurrences k
              (ClassPulse.delivered sid (ClassPulse.session_sentiments db))).
Proof.
  intros u sid db prev. split; [reflexivity|]. split.
  - intro H.
    assert (E : ClassPulse.select_sentiments (Some u) sid db = []).
    { unfold ClassPulse.select_sentiments.
      rewrite (filter_ext _ (fun _ => false)); [|intro r;
        now rewrite (PulseStoreFacts.view_false u r db H)].
      induction (ClassPulse.session_sentiments db); simpl; auto. }
    rewrite E. split; reflexivity.
  - intros s Hin Hid Hl.
    assert (E : ClassPulse.select_sentiments (Some u) sid db
                = ClassPulse.delivered sid (ClassPulse.session_sentiments db)).
    { unfold ClassPulse.select_sentiments, ClassPulse.delivered. f_equal.
      apply filter_ext_in. intros r _.
      destruct (String.eqb (ClassPulse.ss_session_id r) sid) eqn:Er;
        [|apply andb_false_r].
      apply String.eqb_eq in Er.
      now rewrite (PulseStoreFacts.view_true u sid r db s Hin Hid Hl Er). }
    split; [exact E|]. intro k. rewrite E. unfold ClassPulse.fetchSentiments.
    rewrite PulseFacts.get_fold. destruct k; reflexivity.
Qed.

Lemma pulse_visible_to_lecturer_only_witness :
  ClassPulse.select_sentiments (Some "student-1") "session-1" PulseSample.pulse_db
    = [] /\
  ClassPulse.select_sentiments (Some "lecturer-1") "session-1" PulseSample.pulse_db
    = [sentiment_type.understood; sentiment_type.confused;
       sentiment_type.understood].
Proof.
  split.
  - refine (proj1 (proj1 (proj2 (pulse_visible_to_lecturer_only "student-1"
      "session-1" PulseSample.pulse_db ClassPulse.zero)) _)).
    intros s [<- | []]. discriminate.
  - refine (eq_trans (proj1 (proj2 (proj2 (pulse_visible_to_lecturer_only
      "lecturer-1" "session-1" PulseSample.pulse_db ClassPulse.zero))
      (Store.mk_session_row "session-1" "lecturer-1" 3600000 true)
      _ eq_refl eq_refl)) eq_refl).
    simpl. now left.
Defined.

(** ** Loading the pages *)

Module LoadFacts.
Import Store ActiveSession LecturerLoad.

Lemma enrich_scanned (profiles : list (uuid * Profile)) (r : attendance_row) :
  scanned_at (enrich profiles r) = ar_scanned_at r.
Proof. reflexivity. Qed.

Lemma enrich_sorted (profiles : list (uuid * Profile)) (rows : list attendance_row) :
  ordered_desc rows -> newest_first (map (enrich profiles) rows).
Proof.
  unfold ordered_desc, newest_first. intro H.
  induction H as [|r rows Hs IH Hd]; simpl; constructor; [exact IH|].
  destruct Hd as [|b rest Hb]; simpl; constructor. exact Hb.
Qed.

Lemma query_none (message : string) (rows : list session_record) (sid uid : uuid) :
  (forall r, In r rows -> id (data r) = sid -> lecturer_id r <> uid) ->
  query_session message rows sid uid = inr message.
Proof.
  intro H. unfold query_session.
  assert (E : filter (fun r => String.eqb (id (data r)) sid
                               && String.eqb (lecturer_id r) uid) rows = []).
  { induction rows as [|r rows IH]; simpl; [reflexivity|].
    destruct (String.eqb (id (data r)) sid) eqn:E1; simpl.
    - apply String.eqb_eq in E1.
      destruct (String.eqb (lecturer_id r) uid) eqn:E2.
      + apply String.eqb_eq in E2. exfalso. exact (H r (or_introl eq_refl) E1 E2).
      + apply IH. intros x Hx. apply H. now right.
    - apply IH. intros x Hx. apply H. now right. }
  now rewrite E.
Qed.

Lemma insert_attendees (row : attendance_row) (profile : option Profile)
    (st : State) (s : Session) (sid : uuid) :
  mounted st = true -> session st = Some s -> sessionId st = Some sid ->
  ar_session_id row = sid ->
  exists entry,
    scanned_at entry = ar_scanned_at row /\
    attendees (on_attendance_insert row profile st) = entry :: attendees st.
Proof.
  intros Hm Hs Hi Hr. unfold on_attendance_insert.
  rewrite Hm, Hs, Hi, Hr, String.eqb_refl. simpl.
  eexists. split; [|reflexivity]. reflexivity.
Qed.

End LoadFacts.

(** X21.  The attendance feed lists the latest scan first.  When the store
    answers the ordered query, the feed has one entry per answered row, in
    that order; and a realtime insert of the session whose scan is not
    earlier than the entry at the head keeps the feed ordered and makes it
    one longer. *)
Theorem feed_stays_newest_first :
  forall (rows : list ActiveSession.attendance_row)
         (profiles : list (Store.uuid * ActiveSession.Profile))
         (st : ActiveSession.State) (sid : Store.uuid) (s : ActiveSession.Session),
    ActiveSession.sessionId st = Some sid ->
    ActiveSession.session st = Some s ->
    ActiveSession.mounted st = true ->
    LecturerLoad.ordered_desc rows ->
    let st1 := LecturerLoad.fetchAttendees (Some rows) profiles st in
    LecturerLoad.newest_first (ActiveSession.attendees st1) /\
    map ActiveSession.record_id (ActiveSession.attendees st1)
      = map ActiveSession.ar_id rows /\
    (forall row profile,
        ActiveSession.ar_session_id row = sid ->
        (forall top rest, ActiveSession.attendees st1 = top :: rest ->
                          ActiveSession.scanned_at top <= ActiveSession.ar_scanned_at row) ->
        let st2 := ActiveSession.on_attendance_insert row profile st1 in
        LecturerLoad.newest_first (ActiveSession.attendees st2) /\
        List.length (ActiveSession.attendees st2) = S (List.length rows)).
Proof.
  intros rows profiles st sid s Hi Hs Hm Ho st1.
  assert (E1 : st1 = ActiveSession.setAttendees
                       (map (LecturerLoad.enrich profiles) rows) st).
  { subst st1. unfold LecturerLoad.fetchAttendees. now rewrite Hi. }
  split; [rewrite E1; simpl; now apply LoadFacts.enrich_sorted|].
  split; [rewrite E1; simpl; rewrite map_map; reflexivity|].
  intros row profile Hr Htop st2.
  destruct (LoadFacts.insert_attendees row profile st1 s sid) as (entry & Hsc & Hatt);
    try (rewrite E1; assumption); [exact Hr|].
  fold st2 in Hatt. rewrite Hatt. split.
  - constructor.
    + rewrite E1. simpl. now apply LoadFacts.enrich_sorted.
    + destruct (ActiveSession.attendees st1) as [|top rest] eqn:Ea; constructor.
      rewrite Hsc. exact (Htop top rest eq_refl).
  - simpl. rewrite E1. simpl. now rewrite length_map.
Qed.

Lemma feed_stays_newest_first_witness :
  LecturerLoad.newest_first
    (ActiveSession.attendees
       (ActiveSession.on_attendance_insert LoadSample.next_scan None
          (LecturerLoad.fetchAttendees (Some LoadSample.scans)
             LoadSample.known_profiles LecturerSample.page))).
Proof.
  refine (proj1 (proj2 (proj2 (feed_stays_newest_first LoadSample.scans
    LoadSample.known_profiles LecturerSample.page "session-1"
    LecturerSample.hour_session eq_refl eq_refl eq_refl _))
    LoadSample.next_scan None eq_refl _)).
  - repeat constructor; discriminate.
  - intros top rest E. injection E as <- _. discriminate.
Defined.

(** X22.  The lecturer page loads only the lecturer's own session.  When no
    readable row has both the session id and the signed-in user as
    lecturer, the page holds no session, shows the error of the query,
    leaves for the class list and requests no notification.  When exactly
    one row matches and the QR code is generated, the page holds that
    session, shows the code and requests one notification with the course
    and the duration.  In both cases the spinner is gone. *)
Theorem lecturer_page_loads_own_session_only :
  forall (message : string) (rows : list LecturerLoad.session_record)
         (sid uid : Store.uuid) (qr : string + string)
         (records : option (list ActiveSession.attendance_row))
         (profiles : list (Store.uuid * ActiveSession.Profile))
         (l : LecturerLoad.Loader),
    ActiveSession.sessionId (LecturerLoad.page l) = Some sid ->
    ActiveSession.user (LecturerLoad.page l) = Some uid ->
    let l' := LecturerLoad.fetchSession
                (LecturerLoad.query_session message rows sid uid)
                qr records profiles l in
    ((forall r, In r rows -> ActiveSession.id (LecturerLoad.data r) = sid ->
                LecturerLoad.lecturer_id r <> uid) ->
       ActiveSession.session (LecturerLoad.page l')
         = ActiveSession.session (LecturerLoad.page l) /\
       LecturerLoad.loading l' = false /\
       ActiveSession.mounted (LecturerLoad.page l') = false /\
       ActiveSession.effects (LecturerLoad.page l') =
         (ActiveSession.effects (LecturerLoad.page l) ++
            [ActiveSession.Toast "Error" message true;
             ActiveSession.Navigate "/lecturer/classes"])%list /\
       LecturerLoad.notifications l' = LecturerLoad.notifications l) /\
    (forall r code,
        filter (fun x => String.eqb (ActiveSession.id (LecturerLoad.data x)) sid
                         && String.eqb (LecturerLoad.lecturer_id x) uid) rows = [r] ->
        qr = inl code ->
        ActiveSession.session (LecturerLoad.page l') = Some (LecturerLoad.data r) /\
        LecturerLoad.loading l' = false /\
        LecturerLoad.qrCode l' = code /\
        ActiveSession.mounted (LecturerLoad.page l')
          = ActiveSession.mounted (LecturerLoad.page l) /\
        LecturerLoad.notifications l' =
          (LecturerLoad.notifications l ++
             [((ActiveSession.course_code (LecturerLoad.data r) ++ " - " ++
                ActiveSession.course_name (LecturerLoad.data r))%string,
               ActiveSession.duration_minutes (LecturerLoad.data r))])%list).
Proof.
  intros message rows sid uid qr records profiles l Hs Hu l'. split.
  - intro Hnone. subst l'.
    rewrite (LoadFacts.query_none message rows sid uid Hnone).
    unfold LecturerLoad.fetchSession. rewrite Hs, Hu. simpl.
    repeat split. now rewrite <- app_assoc.
  - intros r code Hone ->. subst l'.
    unfold LecturerLoad.query_session. rewrite Hone.
    unfold LecturerLoad.fetchSession. rewrite Hs, Hu. simpl.
    unfold LecturerLoad.fetchAttendees. simpl. rewrite Hs.
    destruct records; simpl; repeat split.
Qed.

Lemma lecturer_page_loads_own_session_only_witness :
  ActiveSession.session
    (LecturerLoad.page
       (LecturerLoad.fetchSession
          (LecturerLoad.query_session "no rows" LoadSample.session_rows
             "session-1" "lecturer-2")
          (inl "data:image/png;base64,AAAA") (Some LoadSample.scans)
          LoadSample.known_profiles LoadSample.fresh_other)) = None /\
  LecturerLoad.notifications
    (LecturerLoad.fetchSession
       (LecturerLoad.query_session "no rows" LoadSample.session_rows
          "session-1" "lecturer-1")
       (inl "data:image/png;base64,AAAA") (Some LoadSample.scans)
       LoadSample.known_profiles LoadSample.fresh)
    = [("CS101 - Programming", 60)].
Proof.
  split.
  - refine (proj1 (proj1 (lecturer_page_loads_own_session_only "no rows"
      LoadSample.session_rows "session-1" "lecturer-2" _ _ _ LoadSample.fresh_other
      eq_refl eq_refl) _)).
    intros r [<- | []] _. discriminate.
  - refine (proj2 (proj2 (proj2 (proj2 (proj2
      (lecturer_page_loads_own_session_only "no rows"
         LoadSample.session_rows "session-1" "lecturer-1" _ _ _ LoadSample.fresh
         eq_refl eq_refl) _ _ eq_refl eq_refl))))).
Defined.

(** X23.  The student page holds a session only if it was fetched active.  A
    missing session, a failed query or a session that is no longer active
    sends the student to the dashboard with a toast and leaves the page
    without a session.  Later, an update of the session that sets it
    inactive sends the student to the dashboard with "Class Ended", and an
    update that leaves it active changes nothing. *)
Theorem student_page_holds_active_session_only :
  forall (reply : option LiveClass.Session) (v : StudentLoad.Visit) (sid : Store.uuid),
    LiveClass.sessionId (StudentLoad.page v) = Some sid ->
    LiveClass.session (StudentLoad.page v) = None ->
    let v' := StudentLoad.fetchSession reply v in
    (forall s, LiveClass.session (StudentLoad.page v') = Some s ->
               reply = Some s /\ LiveClass.is_active s = true /\
               StudentLoad.navigated v' = StudentLoad.navigated v) /\
    (LiveClass.session (StudentLoad.page v') = None ->
       StudentLoad.navigated v' = "/student/dashboard" :: StudentLoad.navigated v /\
       exists t, LiveClass.toasts (StudentLoad.page v')
                 = t :: LiveClass.toasts (StudentLoad.page v)) /\
    (forall row,
        Store.as_id row = sid ->
        (Store.as_is_active row = false ->
           StudentLoad.on_session_update row v' =
           StudentLoad.leave StudentLoad.class_ended v') /\
        (Store.as_is_active row = true ->
           StudentLoad.on_session_update row v' = v')).
Proof.
  intros reply v sid Hi Hn v'.
  assert (Hi' : LiveClass.sessionId (StudentLoad.page v') = Some sid).
  { subst v'. unfold StudentLoad.fetchSession. rewrite Hi.
    destruct reply as [s|]; [destruct (LiveClass.is_active s)|]; simpl; assumption. }
  split; [|split].
  - intros s Hs. subst v'. unfold StudentLoad.fetchSession in *. rewrite Hi in *.
    destruct reply as [s0|]; simpl in Hs; [|congruence].
    destruct (LiveClass.is_active s0) eqn:Ha; simpl in Hs; [|congruence].
    injection Hs as <-. auto.
  - intro Hs. subst v'. unfold StudentLoad.fetchSession in *. rewrite Hi in *.
    destruct reply as [s0|]; simpl in *.
    + destruct (LiveClass.is_active s0); simpl in *; [discriminate|].
      split; [reflexivity | eexists; reflexivity].
    + split; [reflexivity | eexists; reflexivity].
  - intros row Hr. unfold StudentLoad.on_session_update.
    rewrite Hi', Hr, String.eqb_refl. split; intros ->; reflexivity.
Qed.

Lemma student_page_holds_active_session_only_witness :
  StudentLoad.navigated
    (StudentLoad.fetchSession (Some LoadSample.closed_hall) LoadSample.arriving)
    = ["/student/dashboard"] /\
  StudentLoad.navigated
    (StudentLoad.on_session_update
       (Store.mk_session_row "session-1" "lecturer-1" 3600000 false)
       (StudentLoad.fetchSession (Some StudentSample.lecture_hall)
          LoadSample.arriving))
    = ["/student/dashboard"].
Proof.
  split.
  - refine (proj1 (proj1 (proj2 (student_page_holds_active_session_only
      (Some LoadSample.closed_hall) LoadSample.arriving "session-1"
      eq_refl eq_refl)) eq_refl)).
  - rewrite (proj1 (proj2 (proj2 (student_page_holds_active_session_only
      (Some StudentSample.lecture_hall) LoadSample.arriving "session-1"
      eq_refl eq_refl)) (Store.mk_session_row "session-1" "lecturer-1" 3600000 false)
      eq_refl) eq_refl).
    reflexivity.
Defined.

(** X24.  The ID card needs only the profile.  After the load has settled the
    spinner is never shown.  The card is shown exactly when a user is
    signed in and the profile query succeeded; if the role query then fails
    the card is still shown, with the role "USER" and the error toast of
    the role query. *)
Theorem id_card_needs_only_the_profile :
  forall (toUpperCase : string -> string) (user : option Store.uuid)
         (profileReply : DigitalIDCard.Profile + string)
         (roleReply : string + string),
    let st := DigitalIDCard.fetchProfileAndRole user profileReply roleReply
                DigitalIDCard.initial in
    let view := DigitalIDCard.render toUpperCase user st in
    DigitalIDCard.loading st = false /\
    view <> DigitalIDCard.Spinner /\
    (DigitalIDCard.is_card view = true <->
     user <> None /\ exists p, profileReply = inl p) /\
    (forall p message,
        user <> None -> profileReply = inl p -> roleReply = inr message ->
        DigitalIDCard.role_label view = Some "USER" /\
        DigitalIDCard.toasts st = [DigitalIDCard.load_error message]).
Proof.
  intros up user pr rr st view. subst view st.
  destruct user as [u|]; [destruct pr as [p|m]; [destruct rr as [r|m]|]|];
    unfold DigitalIDCard.render; simpl;
    (split; [reflexivity|]); (split; [discriminate|]); split.
  - split; [intros _; split; [discriminate | eauto] | reflexivity].
  - intros p0 m _ _ H. discriminate H.
  - split; [intros _; split; [discriminate | eauto] | reflexivity].
  - intros p0 m0 _ _ H. injection H as <-. auto.
  - split; [discriminate | intros [_ [p H]]; discriminate H].
  - intros p m0 _ H. discriminate H.
  - split; [discriminate | intros [H _]; now contradiction H].
  - intros p m H. now contradiction H.
Qed.

Lemma id_card_needs_only_the_profile_witness :
  DigitalIDCard.role_label
    (DigitalIDCard.render LoadSample.upper (Some "student-1")
       (DigitalIDCard.fetchProfileAndRole (Some "student-1")
          (inl LoadSample.wanjiru) (inr "permission denied")
          DigitalIDCard.initial)) = Some "USER".
Proof.
  refine (proj1 (proj2 (proj2 (proj2 (id_card_needs_only_the_profile
    LoadSample.upper (Some "student-1") (inl LoadSample.wanjiru)
    (inr "permission denied")))) LoadSample.wanjiru "permission denied"
    _ eq_refl eq_refl)).
  discriminate.
Defined.

(** ** Clocks that follow the wall clock *)

Module DriftFacts.

Lemma student_tick_open (now : Z) (st : LiveClass.State) (a : LiveClass.ActiveCheck) :
  LiveClass.checkStatus st = LiveClass.prompt ->
  LiveClass.activeCheck st = Some a ->
  1000 <= LiveClass.expires_at a - now ->
  LiveClass.tick now st
    = LiveClass.setTimeLeft (remaining (LiveClass.expires_at a) now) st.
Proof.
  intros Hs Ha Hge. unfold LiveClass.tick. rewrite Hs, Ha.
  destruct (remaining (LiveClass.expires_at a) now <=? 0) eqn:E; [|reflexivity].
  apply Z.leb_le in E. pose proof (remaining_nonneg (LiveClass.expires_at a) now).
  assert (Hz : remaining (LiveClass.expires_at a) now = 0) by lia.
  apply remaining_zero_iff in Hz. lia.
Qed.

Lemma student_ticks_open (a : LiveClass.ActiveCheck) (nows : list Z) :
  forall st,
    LiveClass.checkStatus st = LiveClass.prompt ->
    LiveClass.activeCheck st = Some a ->
    Forall (fun t => 1000 <= LiveClass.expires_at a - t) nows ->
    LiveClass.checkStatus (fold_left (fun s t => LiveClass.tick t s) nows st)
      = LiveClass.prompt /\
    LiveClass.activeCheck (fold_left (fun s t => LiveClass.tick t s) nows st)
      = Some a.
Proof.
  induction nows as [|t nows IH]; intros st Hs Ha Hall; simpl; [auto|].
  inversion Hall as [|? ? Ht Hrest]; subst.
  rewrite (student_tick_open t st a Hs Ha Ht). now apply IH.
Qed.

Lemma session_tick_keeps (now : Z) (st : ActiveSession.State) :
  ActiveSession.mounted (ActiveSession.session_tick now st) = ActiveSession.mounted st /\
  ActiveSession.session (ActiveSession.session_tick now st) = ActiveSession.session st.
Proof.
  unfold ActiveSession.session_tick, ActiveSession.endSession_begin.
  break_match; simpl; auto.
Qed.

Lemma session_ticks_keep (nows : list Z) :
  forall st,
    ActiveSession.mounted
      (ActiveSession.run (map ActiveSession.SessionTick nows) st)
      = ActiveSession.mounted st /\
    ActiveSession.session
      (ActiveSession.run (map ActiveSession.SessionTick nows) st)
      = ActiveSession.session st.
Proof.
  induction nows as [|t nows IH]; intro st; [auto|].
  simpl map. rewrite LecturerPageFacts.run_cons. simpl ActiveSession.step.
  destruct (IH (ActiveSession.session_tick t st)) as [A B].
  destruct (session_tick_keeps t st) as [C D]. split; congruence.
Qed.

End DriftFacts.

(** X2.  The two wall-clock countdowns do not drift.  After any ticks at any
    times, what the session clock shows is the remaining time at the last
    tick alone; the same holds for the student's check clock as long as the
    ticks come at least a second before the expiry.  Missed or late ticks
    leave no trace. *)
Theorem wall_clock_countdowns_do_not_drift :
  (forall (earlier : list Z) (last : Z) (st : ActiveSession.State)
          (s : ActiveSession.Session),
      ActiveSession.mounted st = true ->
      ActiveSession.session st = Some s ->
      ActiveSession.timeLeft
        (ActiveSession.run
           (map ActiveSession.SessionTick (earlier ++ [last])%list) st)
        = remaining (ActiveSession.end_time s) last) /\
  (forall (earlier : list Z) (last : Z) (st : LiveClass.State)
          (a : LiveClass.ActiveCheck),
      LiveClass.checkStatus st = LiveClass.prompt ->
      LiveClass.activeCheck st = Some a ->
      Forall (fun t => 1000 <= LiveClass.expires_at a - t) earlier ->
      LiveClass.timeLeft
        (fold_left (fun x t => LiveClass.tick t x) (earlier ++ [last])%list st)
        = remaining (LiveClass.expires_at a) last).
Proof.
  split.
  - intros earlier last st s Hm Hs.
    rewrite map_app, LecturerPageFacts.run_app. simpl.
    destruct (DriftFacts.session_ticks_keep earlier st) as [A B].
    apply ActiveSessionFacts.session_tick_timeLeft; congruence.
  - intros earlier last st a Hs Ha Hall.
    rewrite fold_left_app. simpl.
    destruct (DriftFacts.student_ticks_open a earlier st Hs Ha Hall) as [A B].
    now apply LiveClassFacts.tick_timeLeft.
Qed.

Lemma wall_clock_countdowns_do_not_drift_witness :
  ActiveSession.timeLeft
    (ActiveSession.run
       (map ActiveSession.SessionTick ([1000; 2000; 900000] ++ [1800000])%list)
       LecturerSample.page) = 1800 /\
  LiveClass.timeLeft
    (fold_left (fun x t => LiveClass.tick t x) ([1200; 2200] ++ [30000])%list
       (StudentSample.prompted StudentSample.open_hall)) = 30.
Proof.
  split.
  - exact (proj1 wall_clock_countdowns_do_not_drift [1000; 2000; 900000] 1800000
             LecturerSample.page LecturerSample.hour_session eq_refl eq_refl).
  - refine (proj2 wall_clock_countdowns_do_not_drift [1200; 2200] 30000
              (StudentSample.prompted StudentSample.open_hall) _ eq_refl eq_refl _).
    repeat constructor; discriminate.
Defined.
